(** * We-Track: tracking core

    A shallow embedding of the tracking core of the We-Track application:

    - [GPSService] (frontend [gpsService.ts]): the haversine distance and
      the distance formatter;
    - [TrackingService] (frontend [trackingService.ts]): per-item current
      location, the history of tracking updates, the callback registry
      and the movement and speed queries;
    - [MobileTrackingService] (backend): authorisation of a mobile
      tracking request, carrier resolution and the audit record of the
      request.

    JavaScript numbers are IEEE 754 binary64 values; they are modelled by
    [spec_float] at precision 53, which has the same operations, a single
    NaN and both zeros.  Maps are [gmap]s, arrays are lists. *)

From Stdlib Require Import ZArith String Ascii List Lia Bool DecimalString.
From Stdlib Require Import Floats.SpecFloat.
From stdpp Require Import gmap strings list.

Local Open Scope Z_scope.

(** ** JavaScript numbers *)

Module JS.

Definition prec : Z := 53.
Definition emax : Z := 1024.

Definition number : Type := spec_float.

(** The number nearest to the integer [z] (exact below [2^53]). *)
Definition of_Z (z : Z) : number := binary_normalize prec emax z 0 false.

Definition add : number -> number -> number := SFadd prec emax.
Definition sub : number -> number -> number := SFsub prec emax.
Definition mul : number -> number -> number := SFmul prec emax.
Definition div : number -> number -> number := SFdiv prec emax.
Definition sqrt : number -> number := SFsqrt prec emax.

(** The decimal literal [p / q], for [p] and [q] below [2^53]: the
    division of two exact operands rounds to the nearest number, which is
    what reading the literal does. *)
Definition lit (p q : Z) : number := div (of_Z p) (of_Z q).

(** [a < b], [a > b], [a >= b]; each is false when an operand is NaN. *)
Definition lt (a b : number) : bool := SFltb a b.
Definition gt (a b : number) : bool := SFltb b a.
Definition ge (a b : number) : bool := SFleb b a.

Definition NaN : number := S754_nan.

(** [Math.PI], 0x1.921fb54442d18p+1. *)
Definition PI : number := S754_finite false 7074237752028440 (-51).


(** *** Number to string *)

Definition digits (n : Z) : string :=
  NilZero.string_of_uint (N.to_uint (Z.to_N n)).

Fixpoint zeros (n : nat) : string :=
  match n with
  | O => EmptyString
  | S n' => String "0"%char (zeros n')
  end.

(** Comparison of [a * 2^i * 10^j] with [b * 2^i' * 10^j']. *)
Definition cmp_scaled (a i j b i' j' : Z) : comparison :=
  let i0 := Z.min i i' in
  let j0 := Z.min j j' in
  (a * 2 ^ (i - i0) * 10 ^ (j - j0) ?= b * 2 ^ (i' - i0) * 10 ^ (j' - j0)).

(** The reals that round to the positive finite number [m * 2^e] form
    the interval between [lo * 2^le] and [hi * 2^he], bounds included
    when [m] is even. *)
Definition round_lo (m e : Z) : Z * Z :=
  if (m =? 2 ^ (prec - 1)) && (3 - emax - prec <? e)
  then (4 * m - 1, e - 2) else (2 * m - 1, e - 1).
Definition round_hi (m e : Z) : Z * Z := (2 * m + 1, e - 1).

Definition rounds_to (m e s q : Z) : bool :=
  let '(lo, le) := round_lo m e in
  let '(hi, he) := round_hi m e in
  match cmp_scaled lo le 0 s 0 q, cmp_scaled s 0 q hi he 0 with
  | Lt, Lt => true
  | Eq, (Lt | Eq) | Lt, Eq => Z.even m
  | _, _ => false
  end.

(** The least [n], searched upwards from [n0], with [m * 2^e < 10^n]. *)
Fixpoint decimal_exponent (fuel : nat) (m e n0 : Z) : Z :=
  match fuel with
  | O => n0
  | S fuel' =>
      match cmp_scaled m e 0 1 0 n0 with
      | Lt => n0
      | _ => decimal_exponent fuel' m e (n0 + 1)
      end
  end.

(** [floor (m * 2^e / 10^q)]. *)
Definition scaled_floor (m e q : Z) : Z :=
  let i0 := Z.min e 0 in
  let j0 := Z.min q 0 in
  (m * 2 ^ (e - i0) * 10 ^ (0 - j0)) / (2 ^ (0 - i0) * 10 ^ (q - j0)).

(** Candidates with [k] significant digits around [m * 2^e]: the pair
    [(s, n)] stands for [s * 10^(n - k)]. *)
Definition candidate (m e nx k : Z) : option (Z * Z) :=
  let q := nx - k in
  let s1 := scaled_floor m e q in
  let s2 := s1 + 1 in
  let ok1 := rounds_to m e s1 q in
  let ok2 := rounds_to m e s2 q in
  let up := if s2 =? 10 ^ k then (10 ^ (k - 1), nx + 1) else (s2, nx) in
  match ok1, ok2 with
  | false, false => None
  | true, false => Some (s1, nx)
  | false, true => Some up
  | true, true =>
      (* the closer one; the even one on a tie *)
      match cmp_scaled (2 * m) e 0 (2 * s1 + 1) 0 q with
      | Lt => Some (s1, nx)
      | Gt => Some up
      | Eq => if Z.even s1 then Some (s1, nx) else Some up
      end
  end.

Fixpoint shortest (fuel : nat) (m e nx k : Z) : Z * Z * Z :=
  match fuel with
  | O => (scaled_floor m e (nx - k), nx, k)
  | S fuel' =>
      match candidate m e nx k with
      | Some (s, n) => (s, n, k)
      | None => shortest fuel' m e nx (k + 1)
      end
  end.

(** The digits [s], their number [k] and the exponent [n] of the
    shortest decimal [s * 10^(n - k)] that reads back as [m * 2^e]. *)
Definition shortest_decimal (m e : Z) : Z * Z * Z :=
  let b := Z.log2 m + 1 + e in
  let n0 := ((b - 1) * 30103) / 100000 - 1 in
  let nx := decimal_exponent 6 m e n0 in
  shortest 17 m e nx 1.

Definition substring_from (i : nat) (s : string) : string :=
  substring i (String.length s - i)%nat s.

(** [Number::toString] in radix 10. *)
Definition toString (x : number) : string :=
  match x with
  | S754_nan => "NaN"
  | S754_zero _ => "0"
  | S754_infinity s => if s then "-Infinity" else "Infinity"
  | S754_finite s m e =>
      let '(d, n, k) := shortest_decimal (Z.pos m) e in
      let ds := digits d in
      let body :=
        if (k <=? n) && (n <=? 21) then
          ds +:+ zeros (Z.to_nat (n - k))
        else if (0 <? n) && (n <=? 21) then
          substring 0 (Z.to_nat n) ds +:+ "." +:+ substring_from (Z.to_nat n) ds
        else if (-6 <? n) && (n <=? 0) then
          "0." +:+ zeros (Z.to_nat (- n)) +:+ ds
        else
          let ex := n - 1 in
          let sg := if ex <? 0 then "-" else "+" in
          if k =? 1 then ds +:+ "e" +:+ sg +:+ digits (Z.abs ex)
          else substring 0 1 ds +:+ "." +:+ substring_from 1 ds
               +:+ "e" +:+ sg +:+ digits (Z.abs ex) in
      if s then "-" +:+ body else body
  end.


End JS.

(** ** The Math object

    ECMAScript leaves [Math.sin], [Math.cos] and [Math.atan2]
    implementation-approximated, so the development is parametric in them;
    [Math.sqrt] is the correctly rounded square root. *)

Class Math := {
  sin : JS.number -> JS.number;
  cos : JS.number -> JS.number;
  atan2 : JS.number -> JS.number -> JS.number
}.

(** ** The types of the frontend *)

Definition Date : Type := JS.number. (* the time value, in milliseconds *)

Inductive LocationSource := gps | network | manual | witness.

Record Location := {
  loc_id : string;
  latitude : JS.number;
  longitude : JS.number;
  address : option string;
  loc_timestamp : Date;
  accuracy : option JS.number;
  loc_source : LocationSource
}.

Inductive Status := lost | found | returned.

Inductive ItemType := device | vehicle.

Record Device := {
  d_id : string;
  d_name : string;
  d_status : Status;
  d_lastKnownLocation : option Location;
  d_currentLocation : option Location;
  d_isActive : bool
}.

Record Vehicle := {
  v_id : string;
  v_numberPlate : string;
  v_status : Status;
  v_lastKnownLocation : option Location;
  v_currentLocation : option Location;
  v_isActive : bool
}.

Record TrackingUpdate := {
  upd_id : string;
  itemId : string;
  itemType : ItemType;
  location : Location;
  timestamp : Date;
  source : string;
  confidence : JS.number
}.

#[global] Instance Status_eq_dec : EqDecision Status.
Proof. solve_decision. Defined.

(** ** gpsService.ts *)

Module GPSService.

Record LatLng := { lat : JS.number; lng : JS.number }.

Definition position (l : Location) : LatLng :=
  {| lat := latitude l; lng := longitude l |}.

Section Haversine.
Context {M : Math}.

Definition calculateDistance (pos1 pos2 : LatLng) : JS.number :=
  let R := JS.of_Z 6371000 in
  let phi1 := JS.div (JS.mul (lat pos1) JS.PI) (JS.of_Z 180) in
  let phi2 := JS.div (JS.mul (lat pos2) JS.PI) (JS.of_Z 180) in
  let dphi := JS.div (JS.mul (JS.sub (lat pos2) (lat pos1)) JS.PI) (JS.of_Z 180) in
  let dlam := JS.div (JS.mul (JS.sub (lng pos2) (lng pos1)) JS.PI) (JS.of_Z 180) in
  let a :=
    JS.add
      (JS.mul (sin (JS.div dphi (JS.of_Z 2))) (sin (JS.div dphi (JS.of_Z 2))))
      (JS.mul
         (JS.mul (JS.mul (cos phi1) (cos phi2)) (sin (JS.div dlam (JS.of_Z 2))))
         (sin (JS.div dlam (JS.of_Z 2)))) in
  let c :=
    JS.mul (JS.of_Z 2)
           (atan2 (JS.sqrt a) (JS.sqrt (JS.sub (JS.of_Z 1) a))) in
  JS.mul R c.

End Haversine.


End GPSService.

(** ** A reference Math

    Each function is evaluated in fixed point with 256 fractional bits and
    rounded once to binary64.  For arguments of magnitude up to [2^40] the
    error before the rounding stays below [2^-200] (a bound that is not
    proved here), so the result is the correctly rounded value except
    within that distance of a rounding boundary.  The theorems below hold
    for every [Math]; this one evaluates the closed examples. *)

Module RefMath.

Import JS.

(** The integer [X] stands for [X / 2^P]. *)
Definition P : Z := 256.
Definition one : Z := 2 ^ P.

Definition mulf (a b : Z) : Z := (a * b) / one.

(** [t - t z / (a (a+1)) + t z^2 / (a (a+1) (a+2) (a+3)) - ...], summed
    until the term vanishes. *)
Fixpoint alternating (fuel : nat) (t z a : Z) : Z :=
  match fuel with
  | O => 0
  | S fuel' =>
      if t =? 0 then 0
      else t + alternating fuel' ((- mulf t z) / (a * (a + 1))) z (a + 2)
  end.

(** [w - w z / 3 + w z^2 / 5 - ...], where [k] counts the terms. *)
Fixpoint arctan_sum (fuel : nat) (w z k : Z) : Z :=
  match fuel with
  | O => 0
  | S fuel' =>
      if w =? 0 then 0
      else (if Z.even k then w / (2 * k + 1) else - (w / (2 * k + 1)))
           + arctan_sum fuel' (mulf w z) z (k + 1)
  end.

(** Halving the angle: [atan t = 2 atan (t / (1 + sqrt (1 + t^2)))],
    until the tangent is at most 1/8; the count of halvings comes with
    the tangent. *)
Fixpoint halve (fuel : nat) (t : Z) (n : Z) : Z * Z :=
  match fuel with
  | O => (t, n)
  | S fuel' =>
      if t <=? one / 8 then (t, n)
      else halve fuel' ((t * one) / (one + Z.sqrt (one * one + t * t))) (n + 1)
  end.

(** Arc tangent of a tangent between 0 and 1. *)
Definition arctan (t : Z) : Z :=
  let '(u, n) := halve 8 t 0 in
  arctan_sum 200 u (mulf u u) 0 * 2 ^ n.

(** Machin: [pi = 16 atan (1/5) - 4 atan (1/239)]. *)
Definition pi : Z := 16 * arctan (one / 5) - 4 * arctan (one / 239).

(** [floor (m * 2^e * 2^P)] *)
Definition fixed (m : positive) (e : Z) : Z :=
  if 0 <=? e + P then Z.pos m * 2 ^ (e + P) else Z.pos m / 2 ^ (- (e + P)).

(** The number nearest to [X / 2^P], with the sign [s]. *)
Definition rounded (s : bool) (X : Z) : number :=
  binary_normalize prec emax (if s then - X else X) (- P) s.

(** Magnitude below [2^-40]: [sin x] and [atan x] round to [x], [cos x]
    to 1. *)
Definition tiny (m : positive) (e : Z) : bool :=
  Z.log2 (Z.pos m) + e <? -40.

Definition sin (x : number) : number :=
  match x with
  | S754_finite s m e =>
      if tiny m e then x
      else
        let X := fixed m e mod (2 * pi) in
        let S := alternating 200 X (mulf X X) 2 in
        rounded (xorb s (S <? 0)) (Z.abs S)
  | S754_zero _ => x
  | _ => NaN
  end.

Definition cos (x : number) : number :=
  match x with
  | S754_finite s m e =>
      if tiny m e then of_Z 1
      else
        let X := fixed m e mod (2 * pi) in
        let C := alternating 200 one (mulf X X) 1 in
        rounded (C <? 0) (Z.abs C)
  | S754_zero _ => of_Z 1
  | _ => NaN
  end.

Definition is_neg (x : number) : bool :=
  match x with
  | S754_zero s | S754_infinity s | S754_finite s _ _ => s
  | S754_nan => false
  end.

Definition with_sign (s : bool) (x : number) : number :=
  if s then SFopp x else x.

(** [floor (my * 2^ey / (mx * 2^ex) * 2^P)] *)
Definition quotient (my : positive) (ey : Z) (mx : positive) (ex : Z) : Z :=
  let k := P + ey - ex in
  if 0 <=? k then (Z.pos my * 2 ^ k) / Z.pos mx
  else Z.pos my / (Z.pos mx * 2 ^ (- k)).

(** The angle of the point [(x, y)] for positive finite [y] and [x] of
    either sign [sx]; a quotient below [2^-40] is its own arc tangent. *)
Definition angle (my : positive) (ey : Z) (sx : bool) (mx : positive) (ex : Z)
    : number :=
  let y := S754_finite false my ey in
  let x := S754_finite false mx ex in
  if SFleb y x then
    let t := quotient my ey mx ex in
    if (t <? 2 ^ (P - 40)) && negb sx then div y x
    else
      let a := if t <? 2 ^ (P - 40) then t else arctan t in
      rounded false (if sx then pi - a else a)
  else
    let a := pi / 2 - arctan (quotient mx ex my ey) in
    rounded false (if sx then pi - a else a).

Definition atan2 (y x : number) : number :=
  match y, x with
  | S754_nan, _ | _, S754_nan => NaN
  | S754_zero sy, _ =>
      with_sign sy (if is_neg x then PI else S754_zero false)
  | S754_infinity sy, S754_infinity sx =>
      with_sign sy (if sx then div (mul (of_Z 3) PI) (of_Z 4) else div PI (of_Z 4))
  | S754_infinity sy, _ => with_sign sy (div PI (of_Z 2))
  | S754_finite sy _ _, S754_infinity sx =>
      with_sign sy (if sx then PI else S754_zero false)
  | S754_finite sy _ _, S754_zero _ => with_sign sy (div PI (of_Z 2))
  | S754_finite sy my ey, S754_finite sx mx ex =>
      with_sign sy (angle my ey sx mx ex)
  end.

#[export] Instance math : Math := Build_Math sin cos atan2.

End RefMath.

(** ** trackingService.ts *)

Module TrackingService.

Import GPSService.

(** A registered callback is a closure of the caller; the model keeps
    its identity and records every call made to it. *)
Definition Callback : Type := nat.

Inductive Item := ADevice (d : Device) | AVehicle (v : Vehicle).

Definition item_id (i : Item) : string :=
  match i with ADevice d => d_id d | AVehicle v => v_id v end.
Definition isActive (i : Item) : bool :=
  match i with ADevice d => d_isActive d | AVehicle v => v_isActive v end.
Definition status (i : Item) : Status :=
  match i with ADevice d => d_status d | AVehicle v => v_status v end.
Definition currentLocation (i : Item) : option Location :=
  match i with
  | ADevice d => d_currentLocation d
  | AVehicle v => v_currentLocation v
  end.
Definition lastKnownLocation (i : Item) : option Location :=
  match i with
  | ADevice d => d_lastKnownLocation d
  | AVehicle v => v_lastKnownLocation v
  end.
(** ['type' in item ? 'device' : 'vehicle'] *)
Definition kind (i : Item) : ItemType :=
  match i with ADevice _ => device | AVehicle _ => vehicle end.

Definition device_at (l : Location) (d : Device) : Device :=
  {| d_id := d_id d; d_name := d_name d; d_status := d_status d;
     d_lastKnownLocation := d_lastKnownLocation d;
     d_currentLocation := Some l; d_isActive := d_isActive d |}.

Definition vehicle_at (l : Location) (v : Vehicle) : Vehicle :=
  {| v_id := v_id v; v_numberPlate := v_numberPlate v; v_status := v_status v;
     v_lastKnownLocation := v_lastKnownLocation v;
     v_currentLocation := Some l; v_isActive := v_isActive v |}.

Record State := {
  devices : gmap string Device;
  vehicles : gmap string Vehicle;
  trackingUpdates : gmap string (list TrackingUpdate);
  locationUpdateCallbacks : gmap string Callback;
  realTimeTracking : gmap string bool;
  trackingIntervals : gmap string nat;
  (** the interval timers started by [setInterval]: handle and item id *)
  timers : list (nat * string);
  (** the calls made to callbacks so far, oldest first *)
  calls : list (Callback * TrackingUpdate)
}.

Definition with_devices (m : gmap string Device) (st : State) : State :=
  {| devices := m; vehicles := vehicles st;
     trackingUpdates := trackingUpdates st;
     locationUpdateCallbacks := locationUpdateCallbacks st;
     realTimeTracking := realTimeTracking st;
     trackingIntervals := trackingIntervals st;
     timers := timers st; calls := calls st |}.

Definition with_vehicles (m : gmap string Vehicle) (st : State) : State :=
  {| devices := devices st; vehicles := m;
     trackingUpdates := trackingUpdates st;
     locationUpdateCallbacks := locationUpdateCallbacks st;
     realTimeTracking := realTimeTracking st;
     trackingIntervals := trackingIntervals st;
     timers := timers st; calls := calls st |}.

Definition with_trackingUpdates (m : gmap string (list TrackingUpdate))
    (st : State) : State :=
  {| devices := devices st; vehicles := vehicles st;
     trackingUpdates := m;
     locationUpdateCallbacks := locationUpdateCallbacks st;
     realTimeTracking := realTimeTracking st;
     trackingIntervals := trackingIntervals st;
     timers := timers st; calls := calls st |}.

Definition with_callbacks (m : gmap string Callback) (st : State) : State :=
  {| devices := devices st; vehicles := vehicles st;
     trackingUpdates := trackingUpdates st;
     locationUpdateCallbacks := m;
     realTimeTracking := realTimeTracking st;
     trackingIntervals := trackingIntervals st;
     timers := timers st; calls := calls st |}.

Definition with_calls (l : list (Callback * TrackingUpdate)) (st : State) : State :=
  {| devices := devices st; vehicles := vehicles st;
     trackingUpdates := trackingUpdates st;
     locationUpdateCallbacks := locationUpdateCallbacks st;
     realTimeTracking := realTimeTracking st;
     trackingIntervals := trackingIntervals st;
     timers := timers st; calls := l |}.

(** [item.currentLocation = l], on the object held by the map under
    [key]: the device when [item] is one, the vehicle otherwise. *)
Definition set_currentLocation (key : string) (i : Item) (l : Location)
    (st : State) : State :=
  match i with
  | ADevice d => with_devices (<[key := device_at l d]> (devices st)) st
  | AVehicle v => with_vehicles (<[key := vehicle_at l v]> (vehicles st)) st
  end.

(** [const callback = this.locationUpdateCallbacks.get(id);
     if (callback) callback(update)] *)
Definition notify (id : string) (u : TrackingUpdate) (st : State) : State :=
  match locationUpdateCallbacks st !! id with
  | Some callback => with_calls (calls st ++ [(callback, u)]) st
  | None => st
  end.

(** [this.trackingUpdates.get(id) || []] *)
Definition getTrackingHistory (st : State) (id : string) : list TrackingUpdate :=
  default [] (trackingUpdates st !! id).

(** [device || vehicle] for the two lookups under [id]. *)
Definition find_item (st : State) (id : string) : option Item :=
  match devices st !! id with
  | Some d => Some (ADevice d)
  | None => AVehicle <$> vehicles st !! id
  end.

(** What one run of [updateItemLocationRealTime] reads from the
    environment: four clock readings and five [Math.random()] draws, the
    first one already rendered as the id suffix. *)
Record Tick := {
  now_location_id : Date;
  id_suffix : string;
  rnd_latitude : JS.number;
  rnd_longitude : JS.number;
  now_location : Date;
  rnd_accuracy : JS.number;
  now_update_id : Date;
  now_update : Date;
  rnd_confidence : JS.number
}.

Definition movementRadius : JS.number := JS.lit 2 1000.

Definition newLocation (lastLocation : Location) (env : Tick) : Location :=
  {| loc_id := "realtime_" +:+ JS.toString (now_location_id env) +:+ "_"
               +:+ id_suffix env;
     latitude :=
       JS.add (latitude lastLocation)
              (JS.mul (JS.sub (rnd_latitude env) (JS.lit 5 10)) movementRadius);
     longitude :=
       JS.add (longitude lastLocation)
              (JS.mul (JS.sub (rnd_longitude env) (JS.lit 5 10)) movementRadius);
     address := None;
     loc_timestamp := now_location env;
     accuracy := Some (JS.add (JS.mul (rnd_accuracy env) (JS.of_Z 20)) (JS.of_Z 3));
     loc_source := gps |}.

(** [updates.push(update); if (updates.length > 100)
     updates.splice(0, updates.length - 100)] *)
Definition push_capped (updates : list TrackingUpdate) (u : TrackingUpdate)
    : list TrackingUpdate :=
  let updates := updates ++ [u] in
  if (100 <? length updates)%nat then drop (length updates - 100)%nat updates
  else updates.

Section WithMath.
Context {M : Math}.

(** The timer callback.  The source returns nothing; the second
    component is the update that was stored, if one was. *)
Definition updateItemLocationRealTime (st : State) (id : string) (env : Tick)
    : State * option TrackingUpdate :=
  match find_item st id with
  | None => (st, None)
  | Some item =>
      if negb (isActive item) || negb (bool_decide (status item = lost))
      then (st, None)
      else
        match from_option Some (lastKnownLocation item) (currentLocation item) with
        | None => (st, None)
        | Some lastLocation =>
            let new := newLocation lastLocation env in
            let distance :=
              calculateDistance (position lastLocation) (position new) in
            if JS.ge distance (JS.of_Z 10) then
              let update :=
                {| upd_id := "update_" +:+ JS.toString (now_update_id env);
                   itemId := item_id item;
                   itemType := kind item;
                   location := new;
                   timestamp := now_update env;
                   source := "Real-time GPS";
                   confidence :=
                     JS.add (JS.mul (rnd_confidence env) (JS.lit 2 10))
                            (JS.lit 8 10) |} in
              let st := set_currentLocation id item new st in
              let updates := push_capped (getTrackingHistory st (item_id item)) update in
              let st :=
                with_trackingUpdates
                  (<[item_id item := updates]> (trackingUpdates st)) st in
              (notify (item_id item) update st, Some update)
            else (st, None)
        end
  end.

(** [isItemMoving]: the path length over the last five updates. *)
Fixpoint totalDistance (acc : JS.number) (recent : list TrackingUpdate)
    : JS.number :=
  match recent with
  | prev :: (next :: _) as rest =>
      totalDistance
        (JS.add acc
           (calculateDistance (position (location prev))
                              (position (location next))))
        rest
  | _ => acc
  end.

(** [updates.slice(-n)] *)
Definition slice_last (n : nat) (updates : list TrackingUpdate)
    : list TrackingUpdate :=
  drop (length updates - n)%nat updates.

Definition isItemMoving (st : State) (id : string) : bool :=
  let updates := getTrackingHistory st id in
  if (length updates <? 2)%nat then false
  else
    let recent := slice_last 5 updates in
    JS.gt (totalDistance (JS.of_Z 0) recent) (JS.of_Z 50).

(** [getItemSpeed]; [None] is [null]. *)
Definition getItemSpeed (st : State) (id : string) : option JS.number :=
  let updates := getTrackingHistory st id in
  if (length updates <? 2)%nat then None
  else
    match slice_last 2 updates with
    | r0 :: r1 :: _ =>
        let distance :=
          calculateDistance (position (location r0)) (position (location r1)) in
        let timeDiff :=
          JS.div (JS.sub (timestamp r1) (timestamp r0)) (JS.of_Z 1000) in
        Some (if JS.gt timeDiff (JS.of_Z 0) then JS.div distance timeDiff
              else JS.of_Z 0)
    | _ => None (* not reached: [recent] has two entries *)
    end.

End WithMath.

Definition subscribeToLocationUpdates (st : State) (id : string)
    (callback : Callback) : State :=
  with_callbacks (<[id := callback]> (locationUpdateCallbacks st)) st.

Definition unsubscribeFromLocationUpdates (st : State) (id : string) : State :=
  with_callbacks (delete id (locationUpdateCallbacks st)) st.

(** The two clock readings of a manual update. *)
Record Clock := { now_id : Date; now_timestamp : Date }.

(** [updateItemLocation]; [None] is [null]. *)
Definition updateItemLocation (st : State) (id : string) (l : Location)
    (ty : ItemType) (env : Clock) : State * option TrackingUpdate :=
  let item :=
    match ty with
    | device => ADevice <$> devices st !! id
    | vehicle => AVehicle <$> vehicles st !! id
    end in
  match item with
  | Some item =>
      let st := set_currentLocation id item l st in
      let update :=
        {| upd_id := "update_" +:+ JS.toString (now_id env);
           itemId := id;
           itemType := ty;
           location := l;
           timestamp := now_timestamp env;
           source := "Manual Update";
           confidence := JS.of_Z 1 |} in
      let updates := getTrackingHistory st id ++ [update] in
      let st := with_trackingUpdates (<[id := updates]> (trackingUpdates st)) st in
      (notify id update st, Some update)
  | None => (st, None)
  end.

(** *** Start-up *)

Definition with_realTime (m : gmap string bool) (tm : list (nat * string))
    (iv : gmap string nat) (st : State) : State :=
  {| devices := devices st; vehicles := vehicles st;
     trackingUpdates := trackingUpdates st;
     locationUpdateCallbacks := locationUpdateCallbacks st;
     realTimeTracking := m;
     trackingIntervals := iv;
     timers := tm; calls := calls st |}.

(** The handle returned by [setInterval] is dropped, so the timer is
    never entered in [trackingIntervals]. *)
Definition enableRealTimeTracking (st : State) (id : string) : State :=
  match realTimeTracking st !! id with
  | Some true => st
  | _ =>
      with_realTime (<[id := true]> (realTimeTracking st))
                    (timers st ++ [(S (length (timers st)), id)])
                    (trackingIntervals st) st
  end.

Definition disableRealTimeTracking (st : State) (id : string) : State :=
  let flags := <[id := false]> (realTimeTracking st) in
  match trackingIntervals st !! id with
  | Some (S h) =>
      with_realTime flags
                    (filter (fun t => t.1 ≠ S h) (timers st))
                    (delete id (trackingIntervals st)) st
  | _ => with_realTime flags (timers st) (trackingIntervals st) st
  end.

(** What the constructor reads: the dates it parses, one clock reading
    and two [Math.random()] draws per mock item. *)
Record MockEnv := {
  parse : string -> Date;
  mock_now : nat -> Date;
  mock_rnd : nat -> JS.number
}.

Definition jitter (x : JS.number) (r : JS.number) (span : JS.number) : JS.number :=
  JS.add x (JS.mul (JS.sub r (JS.lit 5 10)) span).

Definition mock_location (env : MockEnv) (id : string) (la lo : JS.number)
    (addr when : string) (src : LocationSource) : Location :=
  {| loc_id := id; latitude := la; longitude := lo; address := Some addr;
     loc_timestamp := parse env when; accuracy := None; loc_source := src |}.

Definition mock_current (env : MockEnv) (n : nat) (id : string)
    (la lo span : JS.number) (addr : string) (src : LocationSource) (acc : Z)
    : Location :=
  {| loc_id := id;
     latitude := jitter la (mock_rnd env (2 * n)) span;
     longitude := jitter lo (mock_rnd env (2 * n + 1)) span;
     address := Some addr;
     loc_timestamp := mock_now env n;
     accuracy := Some (JS.of_Z acc);
     loc_source := src |}.

Definition mockDevices (env : MockEnv) : list Device :=
  [ {| d_id := "1"; d_name := "iPhone 15 Pro"; d_status := lost;
       d_lastKnownLocation :=
         Some (mock_location env "loc1" (JS.lit 407128 10000) (JS.lit (-740060) 10000)
                             "New York, NY" "2025-01-15T10:30:00" gps);
       d_currentLocation :=
         Some (mock_current env 0 "loc1_current" (JS.lit 407128 10000)
                            (JS.lit (-740060) 10000) (JS.lit 1 100)
                            "New York, NY" gps 5);
       d_isActive := true |};
    {| d_id := "2"; d_name := "MacBook Pro"; d_status := lost;
       d_lastKnownLocation :=
         Some (mock_location env "loc2" (JS.lit 407589 10000) (JS.lit (-739851) 10000)
                             "Times Square, NY" "2025-01-14T15:45:00" network);
       d_currentLocation :=
         Some (mock_current env 1 "loc2_current" (JS.lit 407589 10000)
                            (JS.lit (-739851) 10000) (JS.lit 1 100)
                            "Times Square, NY" network 20);
       d_isActive := true |} ].

Definition mockVehicles (env : MockEnv) : list Vehicle :=
  [ {| v_id := "1"; v_numberPlate := "ABC-123"; v_status := lost;
       v_lastKnownLocation :=
         Some (mock_location env "loc3" (JS.lit 407505 10000) (JS.lit (-739934) 10000)
                             "Brooklyn Bridge, NY" "2025-01-13T08:20:00" gps);
       v_currentLocation :=
         Some (mock_current env 2 "loc3_current" (JS.lit 407505 10000)
                            (JS.lit (-739934) 10000) (JS.lit 1 100)
                            "Brooklyn Bridge, NY" gps 3);
       v_isActive := true |};
    {| v_id := "2"; v_numberPlate := "XYZ-789"; v_status := found;
       v_lastKnownLocation :=
         Some (mock_location env "loc4" (JS.lit 407282 10000) (JS.lit (-740776) 10000)
                             "Jersey City, NJ" "2025-01-12T14:10:00" witness);
       v_currentLocation :=
         Some (mock_current env 3 "loc4_current" (JS.lit 407282 10000)
                            (JS.lit (-740776) 10000) (JS.lit 5 1000)
                            "Jersey City, NJ" witness 50);
       v_isActive := true |} ].

Definition initializeMockData (env : MockEnv) : State :=
  {| devices := list_to_map ((fun d => (d_id d, d)) <$> mockDevices env);
     vehicles := list_to_map ((fun v => (v_id v, v)) <$> mockVehicles env);
     trackingUpdates := ∅;
     locationUpdateCallbacks := ∅;
     realTimeTracking := ∅;
     trackingIntervals := ∅;
     timers := [];
     calls := [] |}.

(** [[...devices.values(), ...vehicles.values()]].  A [Map] lists its
    values in insertion order, a [gmap] in key order: the list has the
    items of the source in another order.  Only the numbering of the
    timers depends on the order, and the properties below use the list
    through membership and length alone. *)
Definition getAllItems (st : State) : list Item :=
  (ADevice <$> (map_to_list (devices st)).*2)
  ++ (AVehicle <$> (map_to_list (vehicles st)).*2).

Definition startRealTimeTracking (st : State) : State :=
  fold_left
    (fun st item =>
       if isActive item && bool_decide (status item = lost)
       then enableRealTimeTracking st (item_id item) else st)
    (getAllItems st)
    st.

Definition constructor (env : MockEnv) : State :=
  startRealTimeTracking (initializeMockData env).

(** *** Runs of the service *)

Inductive Op :=
| Timer (id : string) (env : Tick)
| UpdateItemLocation (id : string) (l : Location) (ty : ItemType) (env : Clock)
| Subscribe (id : string) (callback : Callback)
| Unsubscribe (id : string).

Section Runs.
Context {M : Math}.

(** One call; the update it stored, if any, comes with the state. *)
Definition step (st : State) (op : Op) : State * option TrackingUpdate :=
  match op with
  | Timer id env => updateItemLocationRealTime st id env
  | UpdateItemLocation id l ty env => updateItemLocation st id l ty env
  | Subscribe id callback => (subscribeToLocationUpdates st id callback, None)
  | Unsubscribe id => (unsubscribeFromLocationUpdates st id, None)
  end.

Fixpoint run (st : State) (ops : list Op) : State :=
  match ops with
  | [] => st
  | op :: ops' => run (step st op).1 ops'
  end.

(** The updates stored along a run, oldest first. *)
Fixpoint accepted (st : State) (ops : list Op) : list TrackingUpdate :=
  match ops with
  | [] => []
  | op :: ops' =>
      let '(st', u) := step st op in
      from_option (fun u => [u]) [] u ++ accepted st' ops'
  end.

End Runs.

End TrackingService.

(** ** The mobile tracking service of the backend *)

Module MobileTrackingService.

Record MobileTrackingRequest := {
  mobileNumber : string;
  requestType : string;
  priority : string;
  officerId : string;
  courtOrderNumber : option string;
  emergencyCode : option string;
  consentToken : option string
}.

Record TrackedLocation := {
  tl_latitude : JS.number;
  tl_longitude : JS.number;
  tl_accuracy : JS.number;
  tl_address : option string;
  tl_network : string;
  tl_timestamp : Date
}.

Record MobileTrackingResult := {
  success : bool;
  result_location : option TrackedLocation;
  error : option string;
  requestId : string
}.

(** *** The database behind the Prisma client *)

Record User := { role : string; user_isActive : bool }.

(** The [data] of the one [update] of a request row. *)
Record Outcome := {
  o_success : bool;
  o_network : string;
  o_accuracy : option JS.number;
  o_error : option string;
  o_locationId : option string
}.

Record RequestRow := {
  row_request : MobileTrackingRequest;
  row_outcome : option Outcome
}.

Record LocationRow := {
  lr_latitude : JS.number;
  lr_longitude : JS.number;
  lr_accuracy : JS.number;
  lr_address : option string;
  lr_source : string
}.

(** The writes sent to the database, oldest first. *)
Inductive Write :=
| CreateRequest (id : string)
| UpdateRequest (id : string) (data : Outcome)
| CreateLocation (id : string).

Record Db := {
  users : gmap string User;
  requests : gmap string RequestRow;
  locations : gmap string LocationRow;
  journal : list Write
}.

(** [prisma.mobileTrackingRequest.create]; the id is the database's. *)
Definition create_request (db : Db) (id : string) (r : MobileTrackingRequest) : Db :=
  {| users := users db;
     requests := <[id := {| row_request := r; row_outcome := None |}]> (requests db);
     locations := locations db;
     journal := journal db ++ [CreateRequest id] |}.

(** [prisma.mobileTrackingRequest.update]; it throws when no row has
    the id, which is [None] here. *)
Definition update_request (db : Db) (id : string) (data : Outcome) : option Db :=
  match requests db !! id with
  | Some row =>
      Some {| users := users db;
              requests :=
                <[id := {| row_request := row_request row;
                           row_outcome := Some data |}]> (requests db);
              locations := locations db;
              journal := journal db ++ [UpdateRequest id data] |}
  | None => None
  end.

(** [prisma.location.create] *)
Definition create_location (db : Db) (id : string) (row : LocationRow) : Db :=
  {| users := users db;
     requests := requests db;
     locations := <[id := row]> (locations db);
     journal := journal db ++ [CreateLocation id] |}.

Definition is_update_of (id : string) (w : Write) : bool :=
  match w with
  | UpdateRequest id' _ => String.eqb id' id
  | _ => false
  end.

(** The number of times the outcome of request [id] was written. *)
Definition outcome_writes (db : Db) (id : string) : nat :=
  length (List.filter (is_update_of id) (journal db)).

(** *** The service *)

(** The carrier keys read from the process environment. *)
Record Networks := {
  SAFARICOM_apiKey : option string;
  AIRTEL_apiKey : option string;
  TELKOM_apiKey : option string
}.

(** What one request reads from its environment: the ids the database
    gives to the rows it creates, three [Math.random()] draws, the clock
    and the address the geocoding service finds. *)
Record Env := {
  new_request_id : string;
  new_location_id : string;
  rnd_lat : JS.number;
  rnd_lng : JS.number;
  rnd_acc : JS.number;
  now : Date;
  reverseGeocode : JS.number -> JS.number -> option string;
  (** the message of the error the client throws on a failed write *)
  prisma_error : string
}.

Definition includes (l : list string) (s : string) : bool :=
  bool_decide (s ∈ l).

(** [!key]: a key that is absent or empty is not configured. *)
Definition configured (key : option string) : bool :=
  match key with
  | Some k => negb (String.eqb k "")
  | None => false
  end.

Definition validateTrackingRequest (db : Db) (request : MobileTrackingRequest)
    : bool :=
  match users db !! officerId request with
  | None => false
  | Some officer =>
      if negb (user_isActive officer) then false
      else if negb (includes ["POLICE"; "ADMIN"] (role officer)) then false
      else if String.eqb (requestType request) "EMERGENCY" then
        bool_decide (emergencyCode request ≠ None)
      else if String.eqb (requestType request) "COURT_ORDER" then
        bool_decide (courtOrderNumber request ≠ None)
      else if String.eqb (requestType request) "CONSENT" then
        bool_decide (consentToken request ≠ None)
      else if String.eqb (requestType request) "LOST_DEVICE" then true
      else false
  end.

(** [s.replace(pat, '')]: the first occurrence of [pat] is removed. *)
Fixpoint remove_first (pat s : string) : string :=
  if String.prefix pat s then
    substring (String.length pat) (String.length s - String.length pat) s
  else
    match s with
    | EmptyString => EmptyString
    | String c s' => String c (remove_first pat s')
    end.

Definition identifyNetwork (mobileNumber : string) : string :=
  let number := remove_first "+254" mobileNumber in
  let prefix := substring 0 3 number in
  if includes ["701"; "702"; "703"; "704"; "705"; "706"; "707"; "708"; "709";
               "710"; "711"; "712"; "713"; "714"; "715"; "716"; "717"; "718";
               "719"; "720"; "721"; "722"; "723"; "724"; "725"; "726"; "727";
               "728"; "729"] prefix
  then "SAFARICOM"
  else if includes ["730"; "731"; "732"; "733"; "734"; "735"; "736"; "737";
                    "738"; "739"; "750"; "751"; "752"; "753"; "754"; "755";
                    "756"; "757"; "758"; "759"] prefix
  then "AIRTEL"
  else if includes ["770"; "771"; "772"; "773"; "774"; "775"; "776"; "777";
                    "778"; "779"] prefix
  then "TELKOM"
  else "UNKNOWN".

(** A random place around Nairobi. *)
Definition generateMockLocation (env : Env) : JS.number * JS.number * JS.number :=
  let radius := JS.lit 1 10 in
  (JS.add (JS.lit (-12921) 10000) (JS.mul (JS.sub (rnd_lat env) (JS.lit 5 10)) radius),
   JS.add (JS.lit 368219 10000) (JS.mul (JS.sub (rnd_lng env) (JS.lit 5 10)) radius),
   JS.add (JS.mul (rnd_acc env) (JS.of_Z 100)) (JS.of_Z 10)).

(** The three carrier adapters differ in their key, their name and the
    delay they wait for. *)
Definition trackWith (network label : string) (key : option string) (env : Env)
    (requestId : string) : MobileTrackingResult :=
  if negb (configured key) then
    {| success := false; result_location := None;
       error := Some (label +:+ " API not configured");
       requestId := requestId |}
  else
    let '(la, lo, acc) := generateMockLocation env in
    {| success := true;
       result_location :=
         Some {| tl_latitude := la; tl_longitude := lo; tl_accuracy := acc;
                 tl_address := None; tl_network := network;
                 tl_timestamp := now env |};
       error := None;
       requestId := requestId |}.

Definition trackWithSafaricom (cfg : Networks) :=
  trackWith "SAFARICOM" "Safaricom" (SAFARICOM_apiKey cfg).
Definition trackWithAirtel (cfg : Networks) :=
  trackWith "AIRTEL" "Airtel" (AIRTEL_apiKey cfg).
Definition trackWithTelkom (cfg : Networks) :=
  trackWith "TELKOM" "Telkom" (TELKOM_apiKey cfg).

Definition saveLocation (db : Db) (env : Env) (l : TrackedLocation) : Db * string :=
  let address := reverseGeocode env (tl_latitude l) (tl_longitude l) in
  (create_location db (new_location_id env)
     {| lr_latitude := tl_latitude l; lr_longitude := tl_longitude l;
        lr_accuracy := tl_accuracy l; lr_address := address;
        lr_source := "NETWORK" |},
   new_location_id env).

(** The result built by the [catch] clause for a thrown [Error]. *)
Definition failed (message : string) : MobileTrackingResult :=
  {| success := false; result_location := None; error := Some message;
     requestId := "" |}.

Definition trackMobileNumber (cfg : Networks) (db : Db)
    (request : MobileTrackingRequest) (env : Env) : Db * MobileTrackingResult :=
  if negb (validateTrackingRequest db request) then
    (db, failed "Unauthorized tracking request")
  else
    let id := new_request_id env in
    let db := create_request db id request in
    let network := identifyNetwork (mobileNumber request) in
    let adapter :=
      if String.eqb network "SAFARICOM" then Some (trackWithSafaricom cfg)
      else if String.eqb network "AIRTEL" then Some (trackWithAirtel cfg)
      else if String.eqb network "TELKOM" then Some (trackWithTelkom cfg)
      else None in
    match adapter with
    | None => (db, failed "Unknown network provider")
    | Some track =>
        let trackingResult := track env id in
        let '(db, locationId) :=
          match result_location trackingResult with
          | Some l => let '(db, lid) := saveLocation db env l in (db, Some lid)
          | None => (db, None)
          end in
        let data :=
          {| o_success := success trackingResult;
             o_network := network;
             o_accuracy := tl_accuracy <$> result_location trackingResult;
             o_error := error trackingResult;
             o_locationId := locationId |} in
        match update_request db id data with
        | Some db =>
            (db, {| success := success trackingResult;
                    result_location := result_location trackingResult;
                    error := error trackingResult;
                    requestId := id |})
        | None => (db, failed (prisma_error env))
        end
    end.

End MobileTrackingService.

(** ** Observations on runs *)

Module Observe.

Import TrackingService.

(** The calls that carry an update of item [e]. *)
Definition about (e : string) (u : TrackingUpdate) : bool :=
  String.eqb (itemId u) e.

Definition calls_about (e : string) (l : list (Callback * TrackingUpdate))
    : list (Callback * TrackingUpdate) :=
  List.filter (fun c => about e c.2) l.

Definition updates_about (e : string) (l : list TrackingUpdate)
    : list TrackingUpdate :=
  List.filter (about e) l.

(** An operation that leaves the registration of item [e] alone. *)
Definition quiet (e : string) (op : Op) : bool :=
  match op with
  | Subscribe id _ | Unsubscribe id => negb (String.eqb id e)
  | _ => true
  end.

(** The callbacks registered for item [e]. *)
Definition registered (st : State) (e : string) : list Callback :=
  option_list (locationUpdateCallbacks st !! e).

(** What the registry holds for item [e] after [op], when it held [reg]:
    a subscription for [e] takes the place of what was there, an
    unsubscription empties it. *)
Definition registry_after (e : string) (reg : list Callback) (op : Op)
    : list Callback :=
  match op with
  | Subscribe id cb => if String.eqb id e then [cb] else reg
  | Unsubscribe id => if String.eqb id e then [] else reg
  | _ => reg
  end.

Section Deliveries.
Context {M : Math}.

(** The calls about item [e] that are due along a run, in words: every
    update stored for [e] goes once to the callback subscribed last for
    [e] and not unsubscribed since, and to no other callback.  The
    registrations are followed on the operations, not read from the
    state. *)
Fixpoint deliveries (e : string) (reg : list Callback) (st : State)
    (ops : list Op) : list (Callback * TrackingUpdate) :=
  match ops with
  | [] => []
  | op :: ops' =>
      match (step st op).2 with
      | Some u => if about e u then (fun cb => (cb, u)) <$> reg else []
      | None => []
      end
      ++ deliveries e (registry_after e reg op) (step st op).1 ops'
  end.

End Deliveries.

(** The calls made to callback [cb]. *)
Definition calls_to (cb : Callback) (l : list (Callback * TrackingUpdate))
    : list (Callback * TrackingUpdate) :=
  List.filter (fun c => Nat.eqb c.1 cb) l.

(** An operation other than a manual update. *)
Definition not_manual (op : Op) : bool :=
  match op with
  | UpdateItemLocation _ _ _ _ => false
  | _ => true
  end.

(** Every history is within the cap of the timer path. *)
Definition capped (st : State) : Prop :=
  forall e, (length (getTrackingHistory st e) <= 100)%nat.

End Observe.

(** ** The exact value of a number *)

Module Exact.

Import JS.





End Exact.

(** ** Checks by enumeration *)

Module Enumerate.

Import JS GPSService.







(** [p] holds of 0, ..., [n - 1]. *)
Definition below (n : nat) (p : Z -> bool) : bool :=
  forallb p (Z.of_nat <$> seq 0 n).

End Enumerate.

(** ** Scenarios *)

Module Scenario.

Import JS TrackingService.

(** The constructor run with every draw equal to 0.5, so that the current
    locations are the last known ones; dates are read as UTC. *)
Definition mockEnv : MockEnv :=
  {| parse := fun s =>
       if String.eqb s "2025-01-15T10:30:00" then of_Z 1736937000000
       else if String.eqb s "2025-01-14T15:45:00" then of_Z 1736869500000
       else if String.eqb s "2025-01-13T08:20:00" then of_Z 1736756400000
       else if String.eqb s "2025-01-12T14:10:00" then of_Z 1736691000000
       else NaN;
     mock_now := fun _ => of_Z 1737363600000;
     mock_rnd := fun _ => lit 5 10 |}.

Definition start : State := constructor mockEnv.

Definition at_ (la lo : number) (t : Z) : Location :=
  {| loc_id := "manual_" +:+ toString (of_Z t);
     latitude := la; longitude := lo; address := None;
     loc_timestamp := of_Z t; accuracy := None; loc_source := manual |}.

Definition clock (t : Z) : Clock :=
  {| now_id := of_Z t; now_timestamp := of_Z t |}.

(** Where device "1" already is. *)
Definition newYork (t : Z) : Location :=
  at_ (lit 407128 10000) (lit (-740060) 10000) t.

(** 101 manual updates of device "1", one second apart. *)
Definition manualUpdates (n : nat) : list Op :=
  (fun i => let t := 1737363601000 + 1000 * Z.of_nat i in
            UpdateItemLocation "1" (newYork t) device (clock t)) <$> seq 0 n.

(** Callback 7 subscribes to item "1", then callback 8 does; neither
    unsubscribes. *)
Definition twoSubscribers : State :=
  subscribeToLocationUpdates (subscribeToLocationUpdates start "1" 7%nat) "1" 8%nat.

(** Two manual updates of device "1" within the same millisecond. *)
Definition sameInstant : list Op :=
  [ UpdateItemLocation "1" (at_ (lit 407128 10000) (lit (-740060) 10000) 1737363601000)
                       device (clock 1737363601000);
    UpdateItemLocation "1" (at_ (lit 407130 10000) (lit (-740060) 10000) 1737363601000)
                       device (clock 1737363601000) ].

(** Two manual updates of device "1", from (0, 0) to the point at latitude
    0.0004496608029593653, which the correctly rounded sine and arc tangent
    put exactly 50 metres further north. *)
Definition fiftyMetres : list Op :=
  [ UpdateItemLocation "1" (at_ (of_Z 0) (of_Z 0) 1737363601000)
                       device (clock 1737363601000);
    UpdateItemLocation "1"
      (at_ (lit 4496608029593653 (10 ^ 19)) (of_Z 0) 1737363606000)
      device (clock 1737363606000) ].

(** A timer run whose draws leave the item where it is. *)
Definition stillTick : Tick :=
  {| now_location_id := of_Z 1737363605000;
     id_suffix := "k3j9x0q2z";
     rnd_latitude := lit 5 10;
     rnd_longitude := lit 5 10;
     now_location := of_Z 1737363605000;
     rnd_accuracy := lit 25 100;
     now_update_id := of_Z 1737363605000;
     now_update := of_Z 1737363605000;
     rnd_confidence := lit 5 10 |}.

(** A timer run that moves the item by about 100 metres. *)
Definition movingTick : Tick :=
  {| now_location_id := of_Z 1737363605000;
     id_suffix := "k3j9x0q2z";
     rnd_latitude := lit 95 100;
     rnd_longitude := lit 5 10;
     now_location := of_Z 1737363605000;
     rnd_accuracy := lit 25 100;
     now_update_id := of_Z 1737363605001;
     now_update := of_Z 1737363605001;
     rnd_confidence := lit 5 10 |}.

End Scenario.

(** ** Scenarios of mobile tracking *)

Module MobileScenario.

Import JS MobileTrackingService.

(** One active police officer; no request made yet. *)
Definition db : Db :=
  {| users := {[ "officer-1" := {| role := "POLICE"; user_isActive := true |} ]};
     requests := ∅;
     locations := ∅;
     journal := [] |}.

(** Only the Safaricom key is set. *)
Definition networks : Networks :=
  {| SAFARICOM_apiKey := Some "sk-live";
     AIRTEL_apiKey := None;
     TELKOM_apiKey := None |}.

Definition env : Env :=
  {| new_request_id := "req-1";
     new_location_id := "loc-1";
     rnd_lat := lit 5 10;
     rnd_lng := lit 5 10;
     rnd_acc := lit 5 10;
     now := of_Z 1737363600000;
     reverseGeocode := fun _ _ => Some "Nairobi";
     prisma_error := "Record to update not found." |}.

(** A court-order request whose order number is the empty string. *)
Definition emptyCourtOrder : MobileTrackingRequest :=
  {| mobileNumber := "+254701000000";
     requestType := "COURT_ORDER";
     priority := "HIGH";
     officerId := "officer-1";
     courtOrderNumber := Some "";
     emergencyCode := None;
     consentToken := None |}.

(** The same request without an order number. *)
Definition noCourtOrder : MobileTrackingRequest :=
  {| mobileNumber := "+254701000000";
     requestType := "COURT_ORDER";
     priority := "HIGH";
     officerId := "officer-1";
     courtOrderNumber := None;
     emergencyCode := None;
     consentToken := None |}.

(** A lost-device request for a number whose prefix, 790, belongs to no
    carrier of the table. *)
Definition unknownPrefix : MobileTrackingRequest :=
  {| mobileNumber := "+254790000000";
     requestType := "LOST_DEVICE";
     priority := "HIGH";
     officerId := "officer-1";
     courtOrderNumber := None;
     emergencyCode := None;
     consentToken := None |}.

(** The lost-device request of the specification, a Safaricom number. *)
Definition lostDevice : MobileTrackingRequest :=
  {| mobileNumber := "+254701000000";
     requestType := "LOST_DEVICE";
     priority := "HIGH";
     officerId := "officer-1";
     courtOrderNumber := None;
     emergencyCode := None;
     consentToken := None |}.

End MobileScenario.

(** ** gpsService.ts: the position watch *)

Module GPSWatch.

Import GPSService.

Definition Callback : Type := nat.

(** [x || d] on a number that may be absent: zero and NaN are falsy. *)
Definition truthy (x : JS.number) : bool :=
  match x with
  | S754_zero _ | S754_nan => false
  | _ => true
  end.

Definition or_undefined (o : option JS.number) : option JS.number :=
  match o with
  | Some x => if truthy x then Some x else None
  | None => None
  end.

Definition or_default (o : option JS.number) (d : JS.number) : JS.number :=
  default d (or_undefined o).

Record GPSOptions := {
  enableHighAccuracy : option bool;
  timeout : option JS.number;
  maximumAge : option JS.number;
  opt_trackingInterval : option JS.number;
  opt_distanceFilter : option JS.number
}.

(** [{ ...a, ...b }] *)
Definition merge (a b : GPSOptions) : GPSOptions :=
  {| enableHighAccuracy := from_option Some (enableHighAccuracy a) (enableHighAccuracy b);
     timeout := from_option Some (timeout a) (timeout b);
     maximumAge := from_option Some (maximumAge a) (maximumAge b);
     opt_trackingInterval :=
       from_option Some (opt_trackingInterval a) (opt_trackingInterval b);
     opt_distanceFilter :=
       from_option Some (opt_distanceFilter a) (opt_distanceFilter b) |}.

Record GPSPosition := {
  p_latitude : JS.number;
  p_longitude : JS.number;
  p_accuracy : JS.number;
  p_altitude : option JS.number;
  p_altitudeAccuracy : option JS.number;
  p_heading : option JS.number;
  p_speed : option JS.number;
  p_timestamp : JS.number
}.

(** What the browser hands to the success callback: the coordinates,
    whose optional readings may be [null], and the time of the fix. *)
Record GeolocationPosition := {
  c_latitude : JS.number;
  c_longitude : JS.number;
  c_accuracy : JS.number;
  c_altitude : option JS.number;
  c_altitudeAccuracy : option JS.number;
  c_heading : option JS.number;
  c_speed : option JS.number;
  g_timestamp : JS.number
}.

(** The position built in both success callbacks. *)
Definition gpsPosition (position : GeolocationPosition) : GPSPosition :=
  {| p_latitude := c_latitude position;
     p_longitude := c_longitude position;
     p_accuracy := c_accuracy position;
     p_altitude := or_undefined (c_altitude position);
     p_altitudeAccuracy := or_undefined (c_altitudeAccuracy position);
     p_heading := or_undefined (c_heading position);
     p_speed := or_undefined (c_speed position);
     p_timestamp := g_timestamp position |}.

Definition latLng (p : GPSPosition) : LatLng :=
  {| lat := p_latitude p; lng := p_longitude p |}.

(** The options handed to [watchPosition]. *)
Record PositionOptions := {
  po_enableHighAccuracy : option bool;
  po_timeout : option JS.number;
  po_maximumAge : option JS.number
}.

(** The service together with [navigator.geolocation]: whether it exists,
    the watches it holds and the id it gives to the next one. *)
Record Service := {
  watchId : option nat;
  isTracking : bool;
  (** a [Map], in insertion order *)
  callbacks : list (string * Callback);
  lastKnownPosition : option GPSPosition;
  trackingInterval : JS.number;
  distanceFilter : JS.number;
  defaultOptions : GPSOptions;
  supported : bool;
  watches : list (nat * PositionOptions);
  next_watch : nat;
  (** the calls made to callbacks so far, oldest first *)
  delivered : list (Callback * GPSPosition)
}.

Definition initialOptions : GPSOptions :=
  {| enableHighAccuracy := Some true;
     timeout := Some (JS.of_Z 10000);
     maximumAge := Some (JS.of_Z 30000);
     opt_trackingInterval := Some (JS.of_Z 5000);
     opt_distanceFilter := Some (JS.of_Z 10) |}.

(** [new GPSService(options)] in a browser with or without geolocation. *)
Definition constructor (geolocation : bool) (options : option GPSOptions) : Service :=
  {| watchId := None;
     isTracking := false;
     callbacks := [];
     lastKnownPosition := None;
     trackingInterval :=
       match options with
       | Some o => or_default (opt_trackingInterval o) (JS.of_Z 5000)
       | None => JS.of_Z 5000
       end;
     distanceFilter :=
       match options with
       | Some o => or_default (opt_distanceFilter o) (JS.of_Z 10)
       | None => JS.of_Z 10
       end;
     defaultOptions :=
       match options with
       | Some o => merge initialOptions o
       | None => initialOptions
       end;
     supported := geolocation;
     watches := [];
     next_watch := 1;
     delivered := [] |}.

(** The exported [gpsService]. *)
Definition gpsService (geolocation : bool) : Service :=
  constructor geolocation (Some initialOptions).

Definition isSupported (s : Service) : bool := supported s.

Definition getLastKnownPosition (s : Service) : option GPSPosition :=
  lastKnownPosition s.

(** [Map.set]: an existing key keeps its place. *)
Fixpoint map_set (k : string) (v : Callback) (m : list (string * Callback))
    : list (string * Callback) :=
  match m with
  | [] => [(k, v)]
  | (k', v') :: m' =>
      if String.eqb k' k then (k, v) :: m' else (k', v') :: map_set k v m'
  end.

(** [Map.delete] *)
Definition map_delete (k : string) (m : list (string * Callback))
    : list (string * Callback) :=
  List.filter (fun kv => negb (String.eqb kv.1 k)) m.

Section WithMath.
Context {M : Math}.

Definition hasSignificantChange (s : Service) (oldPos : option GPSPosition)
    (newPos : GPSPosition) : bool :=
  match oldPos with
  | None => true
  | Some oldPos =>
      JS.ge (calculateDistance (latLng oldPos) (latLng newPos)) (distanceFilter s)
  end.

(** The success callback of the watch. *)
Definition onPosition (s : Service) (position : GeolocationPosition) : Service :=
  let p := gpsPosition position in
  if match lastKnownPosition s with
     | None => true
     | Some last => hasSignificantChange s (Some last) p
     end
  then
    {| watchId := watchId s; isTracking := isTracking s;
       callbacks := callbacks s;
       lastKnownPosition := Some p;
       trackingInterval := trackingInterval s;
       distanceFilter := distanceFilter s;
       defaultOptions := defaultOptions s;
       supported := supported s; watches := watches s;
       next_watch := next_watch s;
       delivered := delivered s ++ ((fun kv => (kv.2, p)) <$> callbacks s) |}
  else s.

End WithMath.

(** [beginTracking]: the watch is requested with the merged options. *)
Definition beginTracking (s : Service) (options : option GPSOptions) : Service :=
  let opts := from_option (merge (defaultOptions s)) (defaultOptions s) options in
  {| watchId := Some (next_watch s); isTracking := isTracking s;
     callbacks := callbacks s;
     lastKnownPosition := lastKnownPosition s;
     trackingInterval := trackingInterval s;
     distanceFilter := distanceFilter s;
     defaultOptions := defaultOptions s;
     supported := supported s;
     watches :=
       watches s ++ [(next_watch s,
                      {| po_enableHighAccuracy := enableHighAccuracy opts;
                         po_timeout := timeout opts;
                         po_maximumAge := maximumAge opts |})];
     next_watch := S (next_watch s);
     delivered := delivered s |}.

Definition with_tracking (tracking : bool) (cbs : list (string * Callback))
    (s : Service) : Service :=
  {| watchId := watchId s; isTracking := tracking;
     callbacks := cbs;
     lastKnownPosition := lastKnownPosition s;
     trackingInterval := trackingInterval s;
     distanceFilter := distanceFilter s;
     defaultOptions := defaultOptions s;
     supported := supported s; watches := watches s;
     next_watch := next_watch s; delivered := delivered s |}.

(** [startTracking]; [None] when it throws for want of geolocation. *)
Definition startTracking (s : Service) (id : string) (callback : Callback)
    (options : option GPSOptions) : option Service :=
  if negb (isSupported s) then None
  else
    let s := with_tracking (isTracking s) (map_set id callback (callbacks s)) s in
    if negb (isTracking s)
    then Some (beginTracking (with_tracking true (callbacks s) s) options)
    else Some s.

Definition stopAllTracking (s : Service) : Service :=
  let s :=
    match watchId s with
    | Some w =>
        {| watchId := None; isTracking := isTracking s;
           callbacks := callbacks s;
           lastKnownPosition := lastKnownPosition s;
           trackingInterval := trackingInterval s;
           distanceFilter := distanceFilter s;
           defaultOptions := defaultOptions s;
           supported := supported s;
           watches := List.filter (fun w' => negb (Nat.eqb w'.1 w)) (watches s);
           next_watch := next_watch s; delivered := delivered s |}
    | None => s
    end in
  with_tracking false [] s.

Definition stopTracking (s : Service) (id : string) : Service :=
  let s := with_tracking (isTracking s) (map_delete id (callbacks s)) s in
  if (length (callbacks s) =? 0)%nat && isTracking s then stopAllTracking s
  else s.

(** The success callback of [getCurrentPosition]. *)
Definition onCurrentPosition (s : Service) (position : GeolocationPosition)
    : Service :=
  {| watchId := watchId s; isTracking := isTracking s;
     callbacks := callbacks s;
     lastKnownPosition := Some (gpsPosition position);
     trackingInterval := trackingInterval s;
     distanceFilter := distanceFilter s;
     defaultOptions := defaultOptions s;
     supported := supported s; watches := watches s;
     next_watch := next_watch s; delivered := delivered s |}.

Definition getAccuracyDescription (accuracy : JS.number) : string :=
  if SFleb accuracy (JS.of_Z 5) then "Excellent"
  else if SFleb accuracy (JS.of_Z 10) then "Good"
  else if SFleb accuracy (JS.of_Z 50) then "Fair"
  else if SFleb accuracy (JS.of_Z 100) then "Poor"
  else "Very Poor".

(** The place of a description, best first. *)
Definition rank (description : string) : nat :=
  if String.eqb description "Excellent" then 0
  else if String.eqb description "Good" then 1
  else if String.eqb description "Fair" then 2
  else if String.eqb description "Poor" then 3
  else 4.

(** What happens to the service: calls of its methods, and the browser
    reporting a fix to the watch [w] or answering [getCurrentPosition]. *)
Inductive Event :=
| StartTracking (id : string) (callback : Callback) (options : option GPSOptions)
| StopTracking (id : string)
| StopAllTracking
| WatchFix (w : nat) (position : GeolocationPosition)
| CurrentFix (position : GeolocationPosition).

Section Runs.
Context {M : Math}.

Definition step (s : Service) (ev : Event) : Service :=
  match ev with
  | StartTracking id callback options =>
      default s (startTracking s id callback options)
  | StopTracking id => stopTracking s id
  | StopAllTracking => stopAllTracking s
  | WatchFix w position =>
      if bool_decide (w ∈ (watches s).*1) then onPosition s position else s
  | CurrentFix position =>
      if isSupported s then onCurrentPosition s position else s
  end.

Definition run (s : Service) (evs : list Event) : Service :=
  fold_left step evs s.

End Runs.

(** An event other than a fix. *)
Definition no_fix (ev : Event) : bool :=
  match ev with
  | WatchFix _ _ | CurrentFix _ => false
  | _ => true
  end.

(** The state is one the service keeps to: it tracks exactly when it has
    callbacks, and then holds exactly one watch, the one it remembers. *)
Definition consistent (s : Service) : Prop :=
  (isTracking s = true <-> callbacks s <> []) /\
  (isTracking s = true -> exists w, watchId s = Some w /\ (watches s).*1 = [w]) /\
  (isTracking s = false -> watchId s = None /\ watches s = []) /\
  (isTracking s = true -> supported s = true).

End GPSWatch.

(** ** trackingService.ts: devices, vehicles and queries *)

Module TrackingItems.

Import GPSService TrackingService.

(** [Omit<Device, 'id' | 'reportedAt'>] *)
Record NewDevice := {
  nd_name : string;
  nd_status : Status;
  nd_lastKnownLocation : option Location;
  nd_currentLocation : option Location;
  nd_isActive : bool
}.

(** [Omit<Vehicle, 'id' | 'reportedAt'>] *)
Record NewVehicle := {
  nv_numberPlate : string;
  nv_status : Status;
  nv_lastKnownLocation : option Location;
  nv_currentLocation : option Location;
  nv_isActive : bool
}.

(** [Partial<Device>]: a field is given or not; a location may be given
    as [undefined]. *)
Record DevicePatch := {
  dp_id : option string;
  dp_name : option string;
  dp_status : option Status;
  dp_lastKnownLocation : option (option Location);
  dp_currentLocation : option (option Location);
  dp_isActive : option bool
}.

(** [Partial<Vehicle>] *)
Record VehiclePatch := {
  vp_id : option string;
  vp_numberPlate : option string;
  vp_status : option Status;
  vp_lastKnownLocation : option (option Location);
  vp_currentLocation : option (option Location);
  vp_isActive : option bool
}.

(** [{ ...device, ...updates }] *)
Definition patch_device (d : Device) (p : DevicePatch) : Device :=
  {| d_id := default (d_id d) (dp_id p);
     d_name := default (d_name d) (dp_name p);
     d_status := default (d_status d) (dp_status p);
     d_lastKnownLocation := default (d_lastKnownLocation d) (dp_lastKnownLocation p);
     d_currentLocation := default (d_currentLocation d) (dp_currentLocation p);
     d_isActive := default (d_isActive d) (dp_isActive p) |}.

Definition patch_vehicle (v : Vehicle) (p : VehiclePatch) : Vehicle :=
  {| v_id := default (v_id v) (vp_id p);
     v_numberPlate := default (v_numberPlate v) (vp_numberPlate p);
     v_status := default (v_status v) (vp_status p);
     v_lastKnownLocation := default (v_lastKnownLocation v) (vp_lastKnownLocation p);
     v_currentLocation := default (v_currentLocation v) (vp_currentLocation p);
     v_isActive := default (v_isActive v) (vp_isActive p) |}.

(** [addDevice]; [now] is the reading of [Date.now()]. *)
Definition addDevice (st : State) (device : NewDevice) (now : Date)
    : State * Device :=
  let newDevice :=
    {| d_id := "device_" +:+ JS.toString now;
       d_name := nd_name device;
       d_status := nd_status device;
       d_lastKnownLocation := nd_lastKnownLocation device;
       d_currentLocation := nd_currentLocation device;
       d_isActive := nd_isActive device |} in
  let st := with_devices (<[d_id newDevice := newDevice]> (devices st)) st in
  let st :=
    if bool_decide (d_status newDevice = lost) && d_isActive newDevice
    then enableRealTimeTracking st (d_id newDevice) else st in
  (st, newDevice).

Definition getDevice (st : State) (id : string) : option Device :=
  devices st !! id.

(** [updateDevice]; [None] is [undefined]. *)
Definition updateDevice (st : State) (id : string) (updates : DevicePatch)
    : State * option Device :=
  match devices st !! id with
  | Some dev =>
      let updatedDevice := patch_device dev updates in
      let st := with_devices (<[id := updatedDevice]> (devices st)) st in
      let st :=
        if bool_decide (d_status updatedDevice = lost) && d_isActive updatedDevice
        then enableRealTimeTracking st id
        else disableRealTimeTracking st id in
      (st, Some updatedDevice)
  | None => (st, None)
  end.

Definition addVehicle (st : State) (vehicle : NewVehicle) (now : Date)
    : State * Vehicle :=
  let newVehicle :=
    {| v_id := "vehicle_" +:+ JS.toString now;
       v_numberPlate := nv_numberPlate vehicle;
       v_status := nv_status vehicle;
       v_lastKnownLocation := nv_lastKnownLocation vehicle;
       v_currentLocation := nv_currentLocation vehicle;
       v_isActive := nv_isActive vehicle |} in
  let st := with_vehicles (<[v_id newVehicle := newVehicle]> (vehicles st)) st in
  let st :=
    if bool_decide (v_status newVehicle = lost) && v_isActive newVehicle
    then enableRealTimeTracking st (v_id newVehicle) else st in
  (st, newVehicle).

Definition getVehicle (st : State) (id : string) : option Vehicle :=
  vehicles st !! id.

Definition updateVehicle (st : State) (id : string) (updates : VehiclePatch)
    : State * option Vehicle :=
  match vehicles st !! id with
  | Some veh =>
      let updatedVehicle := patch_vehicle veh updates in
      let st := with_vehicles (<[id := updatedVehicle]> (vehicles st)) st in
      let st :=
        if bool_decide (v_status updatedVehicle = lost) && v_isActive updatedVehicle
        then enableRealTimeTracking st id
        else disableRealTimeTracking st id in
      (st, Some updatedVehicle)
  | None => (st, None)
  end.

Definition getItemsByStatus (st : State) (s : Status) : list Item :=
  List.filter (fun item => bool_decide (status item = s)) (getAllItems st).

(** [item.currentLocation || item.lastKnownLocation] *)
Definition itemLocation (item : Item) : option Location :=
  from_option Some (lastKnownLocation item) (currentLocation item).

Section WithMath.
Context {M : Math}.

Definition getItemsNearLocation (st : State) (centerLocation : Location)
    (radiusMeters : JS.number) : list Item :=
  List.filter
    (fun item =>
       match itemLocation item with
       | None => false
       | Some l =>
           SFleb (calculateDistance (position centerLocation) (position l))
                 radiusMeters
       end)
    (getAllItems st).

(** [getDistanceToItem]; [None] is [null]. *)
Definition getDistanceToItem (st : State) (id : string) (targetLocation : Location)
    : option JS.number :=
  match find_item st id with
  | None => None
  | Some item =>
      match itemLocation item with
      | None => None
      | Some l =>
          Some (calculateDistance (position targetLocation) (position l))
      end
  end.

(** Every call a page can make on the service, and the timers firing. *)
Inductive Action :=
| Tracking (op : Op)
| AddDevice (device : NewDevice) (now : Date)
| UpdateDevice (id : string) (updates : DevicePatch)
| AddVehicle (vehicle : NewVehicle) (now : Date)
| UpdateVehicle (id : string) (updates : VehiclePatch)
| EnableRealTimeTracking (id : string)
| DisableRealTimeTracking (id : string).

Definition act (st : State) (a : Action) : State :=
  match a with
  | Tracking op => (step st op).1
  | AddDevice dev now => (addDevice st dev now).1
  | UpdateDevice id updates => (updateDevice st id updates).1
  | AddVehicle veh now => (addVehicle st veh now).1
  | UpdateVehicle id updates => (updateVehicle st id updates).1
  | EnableRealTimeTracking id => enableRealTimeTracking st id
  | DisableRealTimeTracking id => disableRealTimeTracking st id
  end.

Definition perform (st : State) (acts : list Action) : State :=
  fold_left act acts st.

End WithMath.

(** An action other than a manual update. *)
Definition no_manual (a : Action) : bool :=
  match a with
  | Tracking (UpdateItemLocation _ _ _ _) => false
  | _ => true
  end.

End TrackingItems.

(** ** Carrier prefixes as numbers *)

Module Prefixes.

(** The digit [d], for [d] from 0 to 9. *)
Definition digit (d : Z) : ascii :=
  match d with
  | 0 => "0" | 1 => "1" | 2 => "2" | 3 => "3" | 4 => "4"
  | 5 => "5" | 6 => "6" | 7 => "7" | 8 => "8" | _ => "9"
  end%char.

(** The three digits of [n], for [n] from 0 to 999. *)
Definition three_digits (n : Z) : string :=
  String (digit (n / 100))
         (String (digit (n / 10 mod 10)) (String (digit (n mod 10)) EmptyString)).

(** The table of [identifyNetwork], read as ranges. *)
Definition carrier (n : Z) : string :=
  if (701 <=? n) && (n <=? 729) then "SAFARICOM"
  else if ((730 <=? n) && (n <=? 739)) || ((750 <=? n) && (n <=? 759)) then "AIRTEL"
  else if (770 <=? n) && (n <=? 779) then "TELKOM"
  else "UNKNOWN".

Definition table_agrees (n : Z) : bool :=
  String.eqb (MobileTrackingService.identifyNetwork (three_digits n)) (carrier n).

(** The key and the label of the adapter of a carrier. *)
Definition apiKey (cfg : MobileTrackingService.Networks) (network : string)
    : option string :=
  if String.eqb network "SAFARICOM" then MobileTrackingService.SAFARICOM_apiKey cfg
  else if String.eqb network "AIRTEL" then MobileTrackingService.AIRTEL_apiKey cfg
  else MobileTrackingService.TELKOM_apiKey cfg.

Definition label (network : string) : string :=
  if String.eqb network "SAFARICOM" then "Safaricom"
  else if String.eqb network "AIRTEL" then "Airtel"
  else "Telkom".

End Prefixes.

(** ** useRealTimeTracking.ts: what the hook does to the services *)

Module TrackingHook.

Import GPSService TrackingService GPSWatch.

(** The location built by the callback the hook gives to [startTracking];
    [now] is the reading of [Date.now()]. *)
Definition gpsLocation (position : GPSPosition) (now : Date) : Location :=
  {| loc_id := "gps_" +:+ JS.toString now;
     latitude := p_latitude position;
     longitude := p_longitude position;
     address := None;
     loc_timestamp := p_timestamp position;
     accuracy := Some (p_accuracy position);
     loc_source := gps |}.

(** The callback, as far as the tracking service goes: the item of the
    hook is updated by hand with the position of the browser. *)
Definition onGpsPosition (st : State) (item : Item) (position : GPSPosition)
    (now : Date) (env : Clock) : State :=
  (updateItemLocation st (item_id item) (gpsLocation position now) (kind item) env).1.

(** A hook that tracks [item], with the clock readings of its callback. *)
Record Hook := { hook_item : Item; hook_now : Date; hook_clock : Clock }.

Section WithMath.
Context {M : Math}.

(** The browser reports a fix to the watch: the service filters it and
    calls the callbacks, each of which is the callback of a hook. *)
Definition watchFix (s : Service) (st : State) (hooks : Callback -> option Hook)
    (position : GeolocationPosition) : Service * State :=
  let s' := onPosition s position in
  let made := drop (length (delivered s)) (delivered s') in
  (s',
   fold_left
     (fun st call =>
        match hooks call.1 with
        | Some h => onGpsPosition st (hook_item h) call.2 (hook_now h) (hook_clock h)
        | None => st
        end)
     made st).

End WithMath.

End TrackingHook.


(** ** Scenarios of item management *)

Module ItemScenario.

Import JS TrackingService TrackingItems Scenario.

(** A phone reported lost, with no location yet. *)
Definition phone : NewDevice :=
  {| nd_name := "Pixel 8"; nd_status := lost;
     nd_lastKnownLocation := None; nd_currentLocation := None;
     nd_isActive := true |}.

(** The update that marks a device as found. *)
Definition markFound : DevicePatch :=
  {| dp_id := None; dp_name := None; dp_status := Some found;
     dp_lastKnownLocation := None; dp_currentLocation := None;
     dp_isActive := None |}.

(** An update that gives a device the id "9". *)
Definition renumber : DevicePatch :=
  {| dp_id := Some "9"; dp_name := None; dp_status := None;
     dp_lastKnownLocation := None; dp_currentLocation := None;
     dp_isActive := None |}.

(** A day on which everything but a manual update is done. *)
Definition busyDay : list Action :=
  [ DisableRealTimeTracking "1";
    EnableRealTimeTracking "1";
    AddDevice phone (of_Z 1737363602000);
    Tracking (Timer "1" movingTick);
    Tracking (Subscribe "1" 7%nat);
    UpdateDevice "2" markFound;
    Tracking (Timer "2" movingTick);
    DisableRealTimeTracking "2" ].

(** Timers of "1", the id that a device and a vehicle share. *)
Definition timersOnly : list Op :=
  [ Timer "1" movingTick; Subscribe "1" 7%nat; Timer "1" stillTick;
    Unsubscribe "1" ].

End ItemScenario.

(** ** Scenarios of the position watch *)

Module WatchScenario.

Import JS TrackingService GPSWatch TrackingHook.

(** A fix of a phone that stands still and faces north. *)
Definition fixAt (la lo : number) (t : Z) : GeolocationPosition :=
  {| c_latitude := la; c_longitude := lo; c_accuracy := of_Z 8;
     c_altitude := Some (of_Z 1661); c_altitudeAccuracy := None;
     c_heading := Some (of_Z 0); c_speed := Some (of_Z 0);
     g_timestamp := of_Z t |}.

Definition nairobi : GeolocationPosition :=
  fixAt (lit (-12921) 10000) (lit 368219 10000) 1737363600000.

(** About three metres north of [nairobi]. *)
Definition nearby : GeolocationPosition :=
  fixAt (lit (-129207) 100000) (lit 368219 10000) 1737363605000.

(** About a kilometre north of [nairobi]. *)
Definition further : GeolocationPosition :=
  fixAt (lit (-12831) 10000) (lit 368219 10000) 1737363610000.

(** Two pages track, fixes come in, both pages stop. *)
Definition session : list Event :=
  [ StartTracking "1" 7%nat None;
    WatchFix 1 nairobi;
    StartTracking "2" 8%nat None;
    WatchFix 1 nearby;
    WatchFix 1 further;
    StopTracking "1";
    StopTracking "2";
    WatchFix 1 further;
    StartTracking "1" 9%nat None ].

(** Options that ask for no distance filter. *)
Definition noFilter : GPSOptions :=
  {| enableHighAccuracy := None; timeout := None; maximumAge := None;
     opt_trackingInterval := None; opt_distanceFilter := Some (of_Z 0) |}.

(** The hook of the page that shows device "1". *)
Definition hookOfDevice1 : Hook :=
  {| hook_item :=
       ADevice {| d_id := "1"; d_name := "iPhone 15 Pro"; d_status := lost;
                  d_lastKnownLocation := None; d_currentLocation := None;
                  d_isActive := true |};
     hook_now := of_Z 1737363600020;
     hook_clock := {| now_id := of_Z 1737363600021;
                      now_timestamp := of_Z 1737363600021 |} |}.

Definition hooks (callback : Callback) : option Hook :=
  if (callback =? 7)%nat then Some hookOfDevice1 else None.

End WatchScenario.
(** * Properties *)

(** ** Numbers *)

Section NumberFacts.

Lemma SFcompare_Lt_swap (a b : spec_float) :
  SFcompare a b = Some Lt -> SFcompare b a = Some Gt.
Proof.
  destruct a as [sa|sa| |sa ma ea], b as [sb|sb| |sb mb eb]; simpl;
    try discriminate; try (destruct sa; discriminate || reflexivity);
    try (destruct sb; discriminate || reflexivity);
    try (destruct sa, sb; discriminate || reflexivity).
  pose proof (Pos.compare_cont_antisym ma mb Eq) as Hm; simpl in Hm.
  destruct sa, sb; try discriminate; try reflexivity;
    rewrite (Z.compare_antisym ea eb);
    destruct (ea ?= eb)%Z eqn:He; simpl; try discriminate; try reflexivity;
    rewrite <- Hm;
    destruct (Pos.compare_cont Eq ma mb); simpl; intros; congruence.
Qed.

(** [a < b] excludes [a >= b]. *)
Lemma lt_not_ge (a b : JS.number) : JS.lt a b = true -> JS.ge a b = false.
Proof.
  unfold JS.lt, JS.ge, SFltb, SFleb. intros H.
  destruct (SFcompare a b) as [[]|] eqn:E; try discriminate.
  now rewrite (SFcompare_Lt_swap _ _ E).
Qed.

(** [a > b] gives [a >= b]. *)
Lemma gt_ge (a b : JS.number) : JS.gt a b = true -> JS.ge a b = true.
Proof.
  unfold JS.gt, JS.ge, SFltb, SFleb.
  now destruct (SFcompare b a) as [[]|].
Qed.

(** The difference of a number with itself is [+0] or NaN. *)
Lemma sub_diag (t : JS.number) :
  JS.sub t t = S754_zero false \/ JS.sub t t = S754_nan.
Proof.
  destruct t as [s|s| |s m e]; simpl; auto.
  - left. now destruct s.
  - right. now destruct s.
  - left. unfold JS.sub, SFsub. now rewrite Z.sub_diag.
Qed.

(** No time passes between equal clock readings. *)
Lemma no_elapsed_time (t : JS.number) :
  JS.gt (JS.div (JS.sub t t) (JS.of_Z 1000)) (JS.of_Z 0) = false.
Proof. now destruct (sub_diag t) as [-> | ->]. Qed.

End NumberFacts.

(** ** Rounding and division, on mantissas *)

Section FloatFacts.

Import JS Exact.














End FloatFacts.

(** ** Formatting a distance *)

Section FormatFacts.

Import JS GPSService Enumerate Exact.

Lemma below_spec (n : nat) (p : Z -> bool) (z : Z) :
  below n p = true -> 0 <= z < Z.of_nat n -> p z = true.
Proof.
  unfold below. rewrite forallb_forall. intros H Hz. apply H.
  apply in_map_iff. exists (Z.to_nat z). split; [lia|].
  apply in_seq. lia.
Qed.
























End FormatFacts.

(** ** The timer path and the manual path *)

Section TrackingFacts.

Import JS GPSService TrackingService Observe.

Context {M : Math}.

Lemma set_currentLocation_updates key i l st :
  trackingUpdates (set_currentLocation key i l st) = trackingUpdates st.
Proof. now destruct i. Qed.

Lemma set_currentLocation_callbacks key i l st :
  locationUpdateCallbacks (set_currentLocation key i l st)
  = locationUpdateCallbacks st.
Proof. now destruct i. Qed.

Lemma set_currentLocation_calls key i l st :
  calls (set_currentLocation key i l st) = calls st.
Proof. now destruct i. Qed.

Lemma with_trackingUpdates_callbacks m st :
  locationUpdateCallbacks (with_trackingUpdates m st) = locationUpdateCallbacks st.
Proof. reflexivity. Qed.

Lemma with_trackingUpdates_calls m st :
  calls (with_trackingUpdates m st) = calls st.
Proof. reflexivity. Qed.

Lemma with_trackingUpdates_updates m st :
  trackingUpdates (with_trackingUpdates m st) = m.
Proof. reflexivity. Qed.

Lemma notify_updates id u st :
  trackingUpdates (notify id u st) = trackingUpdates st.
Proof. unfold notify. now destruct (locationUpdateCallbacks st !! id). Qed.

Lemma notify_callbacks id u st :
  locationUpdateCallbacks (notify id u st) = locationUpdateCallbacks st.
Proof. unfold notify. now destruct (locationUpdateCallbacks st !! id). Qed.

Lemma notify_calls id u st :
  calls (notify id u st) = calls st ++ ((fun cb => (cb, u)) <$> registered st id).
Proof.
  unfold notify, registered.
  destruct (locationUpdateCallbacks st !! id); simpl; [reflexivity|].
  now rewrite app_nil_r.
Qed.

(** The array after [push] and [splice]: at most 100 entries, the newest
    ones, in the order of arrival. *)
Lemma push_capped_length updates u : (length (push_capped updates u) <= 100)%nat.
Proof.
  unfold push_capped. destruct (100 <? _)%nat eqn:E.
  - rewrite length_drop. apply Nat.ltb_lt in E. lia.
  - apply Nat.ltb_ge in E. lia.
Qed.

Lemma push_capped_suffix updates u :
  exists k, push_capped updates u = drop k (updates ++ [u]) /\
            (k = length (updates ++ [u]) - 100)%nat.
Proof.
  unfold push_capped. destruct (100 <? _)%nat eqn:E.
  - eauto.
  - apply Nat.ltb_ge in E. exists 0%nat. split; [reflexivity | lia].
Qed.

(** What a timer run did, read off its result. *)
Lemma timer_inv st id env st' r :
  updateItemLocationRealTime st id env = (st', r) ->
  (r = None /\ st' = st) \/
  (exists item last u,
      r = Some u /\
      find_item st id = Some item /\
      isActive item = true /\ status item = lost /\
      from_option Some (lastKnownLocation item) (currentLocation item) = Some last /\
      JS.ge (calculateDistance (position last) (position (newLocation last env)))
            (of_Z 10) = true /\
      location u = newLocation last env /\
      itemId u = item_id item /\
      let st1 := set_currentLocation id item (newLocation last env) st in
      st' = notify (item_id item) u
              (with_trackingUpdates
                 (<[item_id item :=
                      push_capped (getTrackingHistory st1 (item_id item)) u]>
                    (trackingUpdates st1)) st1)).
Proof.
  unfold updateItemLocationRealTime.
  destruct (find_item st id) as [item|] eqn:Hitem;
    [|intros [= <- <-]; now left].
  destruct (isActive item) eqn:Hact; simpl;
    [|intros [= <- <-]; now left].
  destruct (bool_decide (status item = lost)) eqn:Hst; simpl;
    [|intros [= <- <-]; now left].
  apply bool_decide_eq_true in Hst.
  destruct (from_option Some (lastKnownLocation item) (currentLocation item))
    as [last|] eqn:Hlast; [|intros [= <- <-]; now left].
  destruct (JS.ge _ _) eqn:Hge; [|intros [= <- <-]; now left].
  intros [= <- <-]. right. eexists item, last, _.
  repeat (split; [reflexivity || eassumption|]). reflexivity.
Qed.

Lemma timer_callbacks st id env :
  locationUpdateCallbacks (updateItemLocationRealTime st id env).1
  = locationUpdateCallbacks st.
Proof.
  destruct (updateItemLocationRealTime st id env) as [st' r] eqn:E.
  apply timer_inv in E as [[_ ->] | (item & last & u & _ & _ & _ & _ & _ & _ & _ & _ & ->)];
    [reflexivity|].
  simpl. now rewrite notify_callbacks, with_trackingUpdates_callbacks,
    set_currentLocation_callbacks.
Qed.

Lemma timer_calls st id env :
  calls (updateItemLocationRealTime st id env).1
  = calls st ++ match (updateItemLocationRealTime st id env).2 with
                | Some u => (fun cb => (cb, u)) <$> registered st (itemId u)
                | None => []
                end.
Proof.
  destruct (updateItemLocationRealTime st id env) as [st' r] eqn:E.
  apply timer_inv in E
    as [[-> ->] | (item & last & u & -> & _ & _ & _ & _ & _ & _ & Hid & ->)].
  - simpl. now rewrite app_nil_r.
  - simpl. rewrite notify_calls, Hid. unfold registered.
    now rewrite with_trackingUpdates_calls, with_trackingUpdates_callbacks,
      set_currentLocation_calls, set_currentLocation_callbacks.
Qed.

(** On the timer path the history of the item stays within the cap, and
    what is dropped is dropped from the front. *)
Lemma timer_history_capped st id env st' u :
  updateItemLocationRealTime st id env = (st', Some u) ->
  (length (getTrackingHistory st' (itemId u)) <= 100)%nat /\
  exists k, getTrackingHistory st' (itemId u)
            = drop k (getTrackingHistory st (itemId u) ++ [u]).
Proof.
  intros E. apply timer_inv in E
    as [[? _] | (item & last & u' & [= <-] & _ & _ & _ & _ & _ & _ & Hid & ->)];
    [discriminate|].
  unfold getTrackingHistory. simpl.
  rewrite notify_updates, with_trackingUpdates_updates, Hid, lookup_insert_eq.
  simpl. rewrite set_currentLocation_updates. split.
  - apply push_capped_length.
  - destruct (push_capped_suffix (default [] (trackingUpdates st !! item_id item)) u)
      as (k & -> & _). eauto.
Qed.

(** What a manual update did. *)
Lemma manual_inv st id l ty env item :
  match ty with
  | device => ADevice <$> devices st !! id
  | vehicle => AVehicle <$> vehicles st !! id
  end = Some item ->
  exists u,
    location u = l /\ itemId u = id /\ timestamp u = now_timestamp env /\
    let st1 := set_currentLocation id item l st in
    updateItemLocation st id l ty env
    = (notify id u
         (with_trackingUpdates
            (<[id := getTrackingHistory st1 id ++ [u]]> (trackingUpdates st1)) st1),
       Some u).
Proof.
  intros H. unfold updateItemLocation. rewrite H.
  exists {| upd_id := "update_" +:+ toString (now_id env); itemId := id;
            itemType := ty; location := l; timestamp := now_timestamp env;
            source := "Manual Update"; confidence := of_Z 1 |}.
  repeat (split; [reflexivity|]). reflexivity.
Qed.

Lemma manual_none st id l ty env :
  match ty with
  | device => ADevice <$> devices st !! id
  | vehicle => AVehicle <$> vehicles st !! id
  end = None ->
  updateItemLocation st id l ty env = (st, None).
Proof. intros H. unfold updateItemLocation. now rewrite H. Qed.

Lemma manual_callbacks st id l ty env :
  locationUpdateCallbacks (updateItemLocation st id l ty env).1
  = locationUpdateCallbacks st.
Proof.
  destruct (match ty with
            | device => ADevice <$> devices st !! id
            | vehicle => AVehicle <$> vehicles st !! id
            end) as [item|] eqn:H.
  - destruct (manual_inv st id l ty env item H) as (u & _ & _ & _ & ->).
    simpl. now rewrite notify_callbacks, with_trackingUpdates_callbacks,
    set_currentLocation_callbacks.
  - now rewrite manual_none.
Qed.

Lemma manual_calls st id l ty env :
  calls (updateItemLocation st id l ty env).1
  = calls st ++ match (updateItemLocation st id l ty env).2 with
                | Some u => (fun cb => (cb, u)) <$> registered st (itemId u)
                | None => []
                end.
Proof.
  destruct (match ty with
            | device => ADevice <$> devices st !! id
            | vehicle => AVehicle <$> vehicles st !! id
            end) as [item|] eqn:H.
  - destruct (manual_inv st id l ty env item H) as (u & _ & Hid & _ & ->).
    simpl. rewrite notify_calls, Hid. unfold registered.
    now rewrite with_trackingUpdates_calls, with_trackingUpdates_callbacks,
      set_currentLocation_calls, set_currentLocation_callbacks.
  - rewrite manual_none by assumption. simpl. now rewrite app_nil_r.
Qed.

Lemma manual_history st id l ty env item :
  match ty with
  | device => ADevice <$> devices st !! id
  | vehicle => AVehicle <$> vehicles st !! id
  end = Some item ->
  exists u,
    (updateItemLocation st id l ty env).2 = Some u /\ location u = l /\
    getTrackingHistory (updateItemLocation st id l ty env).1 id
    = getTrackingHistory st id ++ [u].
Proof.
  intros H. destruct (manual_inv st id l ty env item H) as (u & Hl & _ & _ & ->).
  exists u. split; [reflexivity|]. split; [assumption|].
  unfold getTrackingHistory. simpl.
  rewrite notify_updates, with_trackingUpdates_updates, lookup_insert_eq.
  simpl. now rewrite set_currentLocation_updates.
Qed.

End TrackingFacts.

(** ** History, filter, movement and speed *)

Section TrackingProperties.

Import JS GPSService TrackingService Observe Scenario.

Context {M : Math}.

Lemma slice_last_app n (older recent : list TrackingUpdate) :
  length recent = n -> slice_last n (older ++ recent) = recent.
Proof.
  intros <-. unfold slice_last. rewrite length_app.
  replace (length older + length recent - length recent)%nat
    with (length older) by lia.
  apply drop_app_length.
Qed.

Lemma slice_last_suffix n (updates : list TrackingUpdate) :
  take (length updates - n) updates ++ slice_last n updates = updates /\
  length (slice_last n updates) = Nat.min n (length updates).
Proof.
  unfold slice_last. split; [apply take_drop|]. rewrite length_drop. lia.
Qed.

(** A timer run keeps every history within the cap. *)
Lemma timer_keeps_cap st id env :
  capped st -> capped (updateItemLocationRealTime st id env).1.
Proof.
  intros Hcap e.
  destruct (updateItemLocationRealTime st id env) as [st' r] eqn:E.
  apply timer_inv in E
    as [[_ ->] | (item & last & u & _ & _ & _ & _ & _ & _ & _ & _ & ->)];
    [apply Hcap|].
  unfold getTrackingHistory. cbn [fst].
  rewrite notify_updates, with_trackingUpdates_updates.
  destruct (decide (item_id item = e)) as [<- | Hne].
  - rewrite lookup_insert_eq. apply push_capped_length.
  - rewrite lookup_insert_ne, set_currentLocation_updates by assumption.
    apply Hcap.
Qed.

(** So does every run without manual updates. *)
Lemma run_keeps_cap ops : forall st,
  forallb not_manual ops = true -> capped st -> capped (run st ops).
Proof.
  induction ops as [|op ops IH]; intros st Hops Hcap; [exact Hcap|].
  simpl in Hops. apply andb_true_iff in Hops as [Hop Hops].
  apply (IH _ Hops).
  destruct op as [id env|id l ty env|id cb|id]; try discriminate Hop.
  - now apply timer_keeps_cap.
  - exact Hcap.
  - exact Hcap.
Qed.

(** C1 (the code departs from it).  The history of an item is meant to
    hold at most 100 updates, the oldest leaving first.  The timer path
    trims it ([timer_history_capped], [run_keeps_cap]); the manual path
    appends without trimming: after 101 manual updates of device "1" the
    history holds 101 entries. *)
Theorem manual_updates_exceed_cap :
  length (getTrackingHistory (run start (manualUpdates 101)) "1") = 101%nat.
Proof. vm_compute. reflexivity. Qed.

(** C2, amended.  On the timer path an update is stored only when the new
    sample lies at least 10 metres from the position the item had (its
    current location, or the last known one when it has none), and a run
    that stores nothing changes nothing.  The manual path stores every
    sample of an existing item, whatever the distance: the sample becomes
    the current location and is appended to the history. *)
Theorem timer_stores_only_significant_samples :
  (forall st id env st' u,
     updateItemLocationRealTime st id env = (st', Some u) ->
     exists item last,
       find_item st id = Some item /\
       from_option Some (lastKnownLocation item) (currentLocation item) = Some last /\
       location u = newLocation last env /\
       JS.ge (calculateDistance (position last) (position (location u)))
             (of_Z 10) = true) /\
  (forall st id env st',
     updateItemLocationRealTime st id env = (st', None) -> st' = st) /\
  (forall st id l ty env item,
     match ty with
     | device => ADevice <$> devices st !! id
     | vehicle => AVehicle <$> vehicles st !! id
     end = Some item ->
     exists u,
       (updateItemLocation st id l ty env).2 = Some u /\ location u = l /\
       getTrackingHistory (updateItemLocation st id l ty env).1 id
       = getTrackingHistory st id ++ [u]).
Proof.
  split; [|split].
  - intros st id env st' u E.
    apply timer_inv in E
      as [[? _] | (item & last & u' & [= <-] & Hi & _ & _ & Hl & Hge & Hu & _)];
      [discriminate|].
    exists item, last. rewrite Hu. auto.
  - intros st id env st' E.
    apply timer_inv in E as [[_ ?] | (? & ? & ? & ? & _)];
      [assumption | discriminate].
  - intros st id l ty env item H. now apply manual_history with item.
Qed.

(** C4, amended.  [getItemSpeed] answers [null] when the history has
    fewer than two updates.  Otherwise it looks at the last two only: when
    the seconds elapsed between them are positive it answers the distance
    divided by them, and when they are not, in particular when both carry
    the same time, it answers the number 0.  It is total: no case throws. *)
Theorem getItemSpeed_cases st id :
  let updates := getTrackingHistory st id in
  ((length updates < 2)%nat -> getItemSpeed st id = None) /\
  (forall older r0 r1,
     updates = older ++ [r0; r1] ->
     let distance :=
       calculateDistance (position (location r0)) (position (location r1)) in
     let timeDiff := div (sub (timestamp r1) (timestamp r0)) (of_Z 1000) in
     getItemSpeed st id
     = Some (if JS.gt timeDiff (of_Z 0) then div distance timeDiff else of_Z 0)) /\
  (forall older r0 r1,
     updates = older ++ [r0; r1] ->
     timestamp r1 = timestamp r0 ->
     getItemSpeed st id = Some (of_Z 0)).
Proof.
  intros updates.
  assert (Hlast : forall older r0 r1,
     updates = older ++ [r0; r1] ->
     getItemSpeed st id
     = Some (if JS.gt (div (sub (timestamp r1) (timestamp r0)) (of_Z 1000)) (of_Z 0)
             then div (calculateDistance (position (location r0))
                                         (position (location r1)))
                      (div (sub (timestamp r1) (timestamp r0)) (of_Z 1000))
             else of_Z 0)).
  { intros older r0 r1 H. unfold getItemSpeed. fold updates. rewrite H.
    rewrite (slice_last_app 2 older [r0; r1]) by reflexivity.
    destruct (length (older ++ [r0; r1]) <? 2)%nat eqn:E; [|reflexivity].
    apply Nat.ltb_lt in E. rewrite length_app in E. simpl in E. lia. }
  split; [|split].
  - intros H. unfold getItemSpeed. fold updates.
    apply Nat.ltb_lt in H. now rewrite H.
  - intros older r0 r1 H. now apply Hlast with older.
  - intros older r0 r1 H Ht. rewrite (Hlast older r0 r1 H), Ht.
    now rewrite no_elapsed_time.
Qed.

Lemma totalDistance_fold (recent : list TrackingUpdate) : forall acc,
  totalDistance acc recent
  = fold_left
      (fun acc leg =>
         add acc (calculateDistance (position (location leg.1))
                                    (position (location leg.2))))
      (zip recent (tail recent)) acc.
Proof.
  induction recent as [|prev rest IH]; intros acc; [reflexivity|].
  destruct rest as [|next rest]; [reflexivity|].
  change (totalDistance acc (prev :: next :: rest))
    with (totalDistance
            (add acc (calculateDistance (position (location prev))
                                        (position (location next))))
            (next :: rest)).
  now rewrite IH.
Qed.

(** C6, amended.  [isItemMoving] is false when the history has fewer than
    two updates.  Otherwise it is true exactly when the distances between
    consecutive updates among the last five, added up in order, come to
    more than 50 metres; a total of exactly 50 does not count as moving.
    The total is the sum, started at 0 and taken from the oldest pair on,
    of the distance from each of the last five updates to the next: with
    five updates [a], [b], [c], [d], [e] it is
    [(((0 + ab) + bc) + cd) + de]. *)
Theorem isItemMoving_cases st id :
  let updates := getTrackingHistory st id in
  let recent := slice_last 5 updates in
  let total := totalDistance (of_Z 0) recent in
  let leg := fun a b : TrackingUpdate =>
    calculateDistance (position (location a)) (position (location b)) in
  ((length updates < 2)%nat -> isItemMoving st id = false) /\
  (take (length updates - 5) updates ++ recent = updates /\
   length recent = Nat.min 5 (length updates)) /\
  ((2 <= length updates)%nat ->
   (isItemMoving st id = true <-> JS.gt total (of_Z 50) = true)) /\
  (total = of_Z 50 -> isItemMoving st id = false) /\
  total
  = fold_left (fun acc pair => add acc (leg pair.1 pair.2))
              (zip recent (tail recent)) (of_Z 0) /\
  (forall a b, recent = [a; b] -> total = add (of_Z 0) (leg a b)) /\
  (forall a b c, recent = [a; b; c] ->
     total = add (add (of_Z 0) (leg a b)) (leg b c)) /\
  (forall a b c d e, recent = [a; b; c; d; e] ->
     total
     = add (add (add (add (of_Z 0) (leg a b)) (leg b c)) (leg c d)) (leg d e)).
Proof.
  intros updates recent total leg.
  split; [|split; [|split; [|split; [|split; [|split; [|split]]]]]].
  - intros H. unfold isItemMoving. fold updates.
    apply Nat.ltb_lt in H. now rewrite H.
  - apply slice_last_suffix.
  - intros H. unfold isItemMoving. fold updates.
    apply Nat.ltb_ge in H. now rewrite H.
  - intros H. unfold isItemMoving. fold updates.
    destruct (length updates <? 2)%nat; [reflexivity|].
    fold recent. fold total. now rewrite H.
  - apply totalDistance_fold.
  - intros a b H. unfold total. now rewrite H.
  - intros a b c H. unfold total. now rewrite H.
  - intros a b c d e H. unfold total. now rewrite H.
Qed.

(** C7.  When the item has a current location and the sample drawn by the
    timer lies less than 10 metres from it, the run returns the state it
    was given: current location, history and calls made to callbacks are
    the same, and no update is produced. *)
Theorem rejected_sample_has_no_effect st id env item cur :
  find_item st id = Some item ->
  currentLocation item = Some cur ->
  JS.lt (calculateDistance (position cur) (position (newLocation cur env)))
        (of_Z 10) = true ->
  let st' := (updateItemLocationRealTime st id env).1 in
  (updateItemLocationRealTime st id env).2 = None /\
  st' = st /\
  currentLocation <$> find_item st' id = Some (Some cur) /\
  getTrackingHistory st' (item_id item) = getTrackingHistory st (item_id item) /\
  calls st' = calls st.
Proof.
  intros Hitem Hcur Hlt.
  assert (E : updateItemLocationRealTime st id env = (st, None)).
  { unfold updateItemLocationRealTime. rewrite Hitem, Hcur.
    change (from_option Some (lastKnownLocation item) (Some cur)) with (Some cur).
    cbv beta iota zeta. rewrite (lt_not_ge _ _ Hlt).
    now destruct (negb (isActive item) || negb (bool_decide (status item = lost))). }
  cbv zeta. rewrite E. cbn [fst snd]. rewrite Hitem. cbn [fmap option_fmap option_map].
  now rewrite Hcur.
Qed.

End TrackingProperties.

(** ** Subscriptions *)

Section SubscriptionProperties.

Import JS GPSService TrackingService Observe Scenario.

Context {M : Math}.

Lemma registered_subscribe st e cb :
  registered (subscribeToLocationUpdates st e cb) e = [cb].
Proof.
  unfold registered, subscribeToLocationUpdates. simpl.
  now rewrite lookup_insert_eq.
Qed.

Lemma registered_subscribe_other st e cb e' :
  e' <> e -> registered (subscribeToLocationUpdates st e cb) e' = registered st e'.
Proof.
  intros H. unfold registered, subscribeToLocationUpdates. simpl.
  now rewrite lookup_insert_ne.
Qed.

Lemma registered_unsubscribe st e :
  registered (unsubscribeFromLocationUpdates st e) e = [].
Proof.
  unfold registered, unsubscribeFromLocationUpdates. simpl.
  now rewrite lookup_delete_eq.
Qed.

Lemma registered_unsubscribe_other st e e' :
  e' <> e -> registered (unsubscribeFromLocationUpdates st e) e' = registered st e'.
Proof.
  intros H. unfold registered, unsubscribeFromLocationUpdates. simpl.
  now rewrite lookup_delete_ne.
Qed.

(** Every operation makes the calls of the update it stored, to the
    callbacks registered for the item of that update, and no other. *)
Lemma step_calls st op :
  calls (step st op).1
  = calls st ++ match (step st op).2 with
                | Some u => (fun cb => (cb, u)) <$> registered st (itemId u)
                | None => []
                end.
Proof.
  destruct op as [id env|id l ty env|id cb|id]; simpl.
  - apply timer_calls.
  - apply manual_calls.
  - now rewrite app_nil_r.
  - now rewrite app_nil_r.
Qed.

(** Only subscribing and unsubscribing change the registration. *)
Lemma step_registered st op e :
  quiet e op = true -> registered (step st op).1 e = registered st e.
Proof.
  destruct op as [id env|id l ty env|id cb|id]; simpl; intros H.
  - unfold registered. now rewrite timer_callbacks.
  - unfold registered. now rewrite manual_callbacks.
  - apply registered_subscribe_other. apply negb_true_iff in H.
    apply String.eqb_neq in H. congruence.
  - apply registered_unsubscribe_other. apply negb_true_iff in H.
    apply String.eqb_neq in H. congruence.
Qed.

Lemma calls_about_app e l1 l2 :
  calls_about e (l1 ++ l2) = calls_about e l1 ++ calls_about e l2.
Proof. apply List.filter_app. Qed.

(** The calls of one stored update, seen from item [e]. *)
Lemma calls_about_update e u (cbs : list Callback) :
  calls_about e ((fun cb => (cb, u)) <$> cbs)
  = flat_map (fun u' => (fun cb => (cb, u')) <$> cbs) (updates_about e [u]).
Proof.
  unfold calls_about, updates_about. simpl.
  destruct (about e u) eqn:E; simpl.
  - rewrite app_nil_r.
    induction cbs as [|cb cbs IH]; simpl; [reflexivity|].
    rewrite E. f_equal. apply IH.
  - induction cbs as [|cb cbs IH]; simpl; [reflexivity|].
    rewrite E. apply IH.
Qed.

(** Along a run that leaves the registration of [e] alone, the calls
    about [e] are those of the updates stored for [e], one call per update
    and per registered callback, in order. *)
Lemma run_calls_about e ops : forall st,
  forallb (quiet e) ops = true ->
  calls_about e (calls (run st ops))
  = calls_about e (calls st)
    ++ flat_map (fun u => (fun cb => (cb, u)) <$> registered st e)
                (updates_about e (accepted st ops)).
Proof.
  induction ops as [|op ops IH]; intros st Hq.
  - simpl. now rewrite app_nil_r.
  - simpl in Hq. apply andb_true_iff in Hq as [Hop Hops].
    change (run st (op :: ops)) with (run (step st op).1 ops).
    assert (Hacc : accepted st (op :: ops)
                   = from_option (fun u => [u]) [] (step st op).2
                     ++ accepted (step st op).1 ops)
      by (simpl; now destruct (step st op)).
    rewrite Hacc, (IH _ Hops), step_calls, calls_about_app, <- app_assoc.
    f_equal. rewrite (step_registered st op e Hop).
    unfold updates_about. rewrite List.filter_app, flat_map_app. f_equal.
    destruct (step st op).2 as [u|]; [|reflexivity].
    rewrite calls_about_update. unfold updates_about. simpl.
    destruct (about e u) eqn:Eu; simpl; [|reflexivity].
    unfold about in Eu. apply String.eqb_eq in Eu. now rewrite Eu.
Qed.

(** After an operation the registry of item [e] holds what following the
    operation says. *)
Lemma step_registry st op e :
  registered (step st op).1 e = registry_after e (registered st e) op.
Proof.
  destruct op as [id env|id l ty env|id cb|id]; simpl.
  - unfold registered. now rewrite timer_callbacks.
  - unfold registered. now rewrite manual_callbacks.
  - destruct (String.eqb id e) eqn:E.
    + apply String.eqb_eq in E. subst id. apply registered_subscribe.
    + apply String.eqb_neq in E. apply registered_subscribe_other. congruence.
  - destruct (String.eqb id e) eqn:E.
    + apply String.eqb_eq in E. subst id. apply registered_unsubscribe.
    + apply String.eqb_neq in E. apply registered_unsubscribe_other. congruence.
Qed.

(** The calls about [e] along any run are the deliveries due. *)
Lemma run_deliveries e ops : forall st,
  calls_about e (calls (run st ops))
  = calls_about e (calls st) ++ deliveries e (registered st e) st ops.
Proof.
  induction ops as [|op ops IH]; intros st.
  - simpl. now rewrite app_nil_r.
  - change (run st (op :: ops)) with (run (step st op).1 ops).
    rewrite IH, step_calls, calls_about_app, <- app_assoc, step_registry.
    f_equal. cbn [deliveries]. f_equal.
    destruct (step st op).2 as [u|]; [|reflexivity].
    unfold calls_about. destruct (about e u) eqn:Eu.
    + unfold about in Eu. apply String.eqb_eq in Eu. rewrite Eu.
      induction (registered st e) as [|cb cbs IHc]; [reflexivity|].
      cbn. unfold about at 1. cbn. rewrite Eu, String.eqb_refl. now f_equal.
    + induction (registered st (itemId u)) as [|cb cbs IHc]; [reflexivity|].
      cbn. now rewrite Eu.
Qed.

Lemma calls_to_other (cb other : Callback) (us : list TrackingUpdate) :
  other <> cb -> calls_to cb ((fun u => (other, u)) <$> us) = [].
Proof.
  intros H. induction us as [|u us IH]; [reflexivity|].
  cbn. destruct (Nat.eqb other cb) eqn:E; [|exact IH].
  apply Nat.eqb_eq in E. contradiction.
Qed.

(** C8, amended.  Along every run the calls about an item are these:
    every update stored for the item goes once, in the order of storing,
    to the callback subscribed last for the item and not unsubscribed
    since, and to no other callback.  So a callback subscribed for an
    item is called exactly once for every update stored for it for as long
    as the run leaves the registration of the item alone; once the item is
    unsubscribed no call about it is made; and a callback whose
    subscription was replaced by a later one for the same item gets no
    further call, although it never unsubscribed: all go to the later
    one. *)
Theorem exactly_one_call_per_update e :
  (forall ops st,
     calls_about e (calls (run st ops))
     = calls_about e (calls st) ++ deliveries e (registered st e) st ops) /\
  (forall ops st,
     forallb (quiet e) ops = true ->
     (forall cb,
        let subscribed := subscribeToLocationUpdates st e cb in
        calls_about e (calls (run subscribed ops))
        = calls_about e (calls st)
          ++ ((fun u => (cb, u)) <$> updates_about e (accepted subscribed ops))) /\
     (forall cb,
        locationUpdateCallbacks st !! e = Some cb ->
        calls_about e (calls (run st ops))
        = calls_about e (calls st)
          ++ ((fun u => (cb, u)) <$> updates_about e (accepted st ops))) /\
     calls_about e (calls (run (unsubscribeFromLocationUpdates st e) ops))
     = calls_about e (calls st)) /\
  (forall ops st first second,
     forallb (quiet e) ops = true ->
     first <> second ->
     let replaced :=
       subscribeToLocationUpdates (subscribeToLocationUpdates st e first) e second in
     calls_to first (calls_about e (calls (run replaced ops)))
     = calls_to first (calls_about e (calls st)) /\
     calls_about e (calls (run replaced ops))
     = calls_about e (calls st)
       ++ ((fun u => (second, u)) <$> updates_about e (accepted replaced ops))).
Proof.
  assert (Hone : forall (cb : Callback) (us : list TrackingUpdate),
            flat_map (fun u => (fun cb' : Callback => (cb', u)) <$> [cb]) us
            = (fun u => (cb, u)) <$> us).
  { intros cb us. induction us as [|u us IH]; [reflexivity|].
    simpl. now f_equal. }
  assert (Hsub : forall ops st cb,
            forallb (quiet e) ops = true ->
            calls_about e (calls (run (subscribeToLocationUpdates st e cb) ops))
            = calls_about e (calls st)
              ++ ((fun u => (cb, u))
                    <$> updates_about e
                          (accepted (subscribeToLocationUpdates st e cb) ops))).
  { intros ops st cb Hq.
    rewrite (run_calls_about e ops (subscribeToLocationUpdates st e cb) Hq).
    now rewrite registered_subscribe, Hone. }
  split; [|split].
  - intros ops st. apply run_deliveries.
  - intros ops st Hq. split; [|split].
    + intros cb subscribed. now apply Hsub.
    + intros cb Hcb. rewrite (run_calls_about e ops st Hq). f_equal.
      unfold registered. rewrite Hcb. apply Hone.
    + rewrite (run_calls_about e ops _ Hq), registered_unsubscribe.
      induction (updates_about e _) as [|u us IH]; simpl;
        [now rewrite app_nil_r | assumption].
  - intros ops st first second Hq Hne replaced.
    assert (H : calls_about e (calls (run replaced ops))
                = calls_about e (calls st)
                  ++ ((fun u => (second, u))
                        <$> updates_about e (accepted replaced ops))).
    { unfold replaced. rewrite (Hsub ops _ second Hq). reflexivity. }
    split; [|exact H].
    rewrite H.
    assert (E := calls_to_other first second
                   (updates_about e (accepted replaced ops))
                   (fun Heq => Hne (eq_sym Heq))).
    unfold calls_to in E |- *. rewrite List.filter_app.
    etransitivity; [|apply app_nil_r]. f_equal. exact E.
Qed.

(** C10.  The registry maps an item to at most one callback.  Subscribing
    puts the given callback in the place of whatever was registered for the
    item and leaves the other items alone, so of two subscriptions to the
    same item only the later one is called; and one operation makes at most
    one call. *)
Theorem one_callback_per_item :
  (forall st e, (length (registered st e) <= 1)%nat) /\
  (forall st e cb, registered (subscribeToLocationUpdates st e cb) e = [cb]) /\
  (forall st e cb e',
     e' <> e ->
     registered (subscribeToLocationUpdates st e cb) e' = registered st e') /\
  (forall st op,
     exists made, calls (step st op).1 = calls st ++ made /\
                  (length made <= 1)%nat) /\
  (forall st e first second op u,
     let st2 := subscribeToLocationUpdates
                  (subscribeToLocationUpdates st e first) e second in
     (step st2 op).2 = Some u ->
     itemId u = e ->
     calls (step st2 op).1 = calls st ++ [(second, u)]).
Proof.
  split; [|split; [|split; [|split]]].
  - intros st e. unfold registered.
    destruct (locationUpdateCallbacks st !! e); simpl; lia.
  - apply registered_subscribe.
  - apply registered_subscribe_other.
  - intros st op. eexists. split; [apply step_calls|].
    destruct (step st op).2 as [u|]; [|simpl; lia].
    rewrite length_fmap. unfold registered.
    destruct (locationUpdateCallbacks st !! itemId u); simpl; lia.
  - intros st e first second op u st2 Hu He.
    rewrite step_calls, Hu, He. unfold st2.
    now rewrite registered_subscribe.
Qed.

End SubscriptionProperties.

(** ** The scenarios, evaluated with the reference Math *)

Section TrackingScenarios.

Import JS GPSService TrackingService Observe Scenario.

(** A manual update of device "1" with the very position it has is stored,
    although it lies less than 10 metres (indeed 0 metres) from it. *)
Lemma manual_update_skips_filter :
  let sample := newYork 1737363601000 in
  let r := updateItemLocation start "1" sample device (clock 1737363601000) in
  position <$> (devices start !! "1" ≫= d_currentLocation) = Some (position sample) /\
  JS.ge (calculateDistance (M:=RefMath.math) (position sample) (position sample))
        (of_Z 10) = false /\
  location <$> r.2 = Some sample /\
  length (getTrackingHistory r.1 "1") = S (length (getTrackingHistory start "1")).
Proof.
  cbv zeta. split; [|split; [|split]]; vm_compute; reflexivity.
Qed.

Lemma timer_stores_only_significant_samples_witness :
  exists st' u,
    updateItemLocationRealTime (M:=RefMath.math) start "1" movingTick = (st', Some u) /\
    exists item last,
      find_item start "1" = Some item /\
      from_option Some (lastKnownLocation item) (currentLocation item) = Some last /\
      location u = newLocation last movingTick /\
      JS.ge (calculateDistance (M:=RefMath.math) (position last) (position (location u)))
            (of_Z 10) = true.
Proof.
  destruct (updateItemLocationRealTime (M:=RefMath.math) start "1" movingTick)
    as [st' [u|]] eqn:E.
  - exists st', u. split; [reflexivity|].
    exact (proj1 (timer_stores_only_significant_samples (M:=RefMath.math)) _ _ _ _ _ E).
  - exfalso. vm_compute in E. discriminate E.
Defined.

(** Two updates of device "1" that carry the same time: the speed is the
    number 0, not [null]. *)
Lemma speed_at_zero_elapsed_is_not_null :
  let st := run (M:=RefMath.math) start sameInstant in
  timestamp <$> getTrackingHistory st "1"
  = [of_Z 1737363601000; of_Z 1737363601000] /\
  getItemSpeed (M:=RefMath.math) st "1" = Some (of_Z 0) /\
  getItemSpeed (M:=RefMath.math) st "1" <> None.
Proof.
  cbv zeta. split; [|split].
  - vm_compute. reflexivity.
  - vm_compute. reflexivity.
  - vm_compute. discriminate.
Qed.

Lemma getItemSpeed_cases_witness :
  (length (getTrackingHistory start "2") < 2)%nat /\
  getItemSpeed (M:=RefMath.math) start "2" = None.
Proof.
  assert (H : (length (getTrackingHistory start "2") < 2)%nat)
    by (vm_compute; lia).
  split; [exact H|].
  exact (proj1 (getItemSpeed_cases (M:=RefMath.math) start "2") H).
Defined.

(** Two updates of device "1", at (0, 0) and (0.0004496608029593653, 0),
    exactly 50 metres apart: the total is at least 50, and the item does
    not count as moving. *)
Lemma not_moving_at_exactly_50 :
  let st := run (M:=RefMath.math) start fiftyMetres in
  let total :=
    totalDistance (M:=RefMath.math) (of_Z 0) (slice_last 5 (getTrackingHistory st "1")) in
  (2 <= length (getTrackingHistory st "1"))%nat /\
  total = of_Z 50 /\
  JS.ge total (of_Z 50) = true /\
  ~ (isItemMoving (M:=RefMath.math) st "1" = true <-> JS.ge total (of_Z 50) = true).
Proof.
  assert (Ht : totalDistance (M:=RefMath.math) (of_Z 0)
                 (slice_last 5 (getTrackingHistory
                                  (run (M:=RefMath.math) start fiftyMetres) "1"))
               = of_Z 50) by (vm_compute; reflexivity).
  assert (Hm : isItemMoving (M:=RefMath.math) (run (M:=RefMath.math) start fiftyMetres) "1" = false)
    by (vm_compute; reflexivity).
  cbv zeta. rewrite Ht, Hm.
  split; [vm_compute; lia|]. split; [reflexivity|].
  split; [vm_compute; reflexivity|].
  intros [_ H]. discriminate H. vm_compute. reflexivity.
Qed.

Lemma isItemMoving_cases_witness :
  let st := run (M:=RefMath.math) start fiftyMetres in
  (2 <= length (getTrackingHistory st "1"))%nat /\
  (isItemMoving (M:=RefMath.math) st "1" = true <->
   JS.gt (totalDistance (M:=RefMath.math) (of_Z 0)
            (slice_last 5 (getTrackingHistory st "1"))) (of_Z 50) = true).
Proof.
  assert (H : (2 <= length (getTrackingHistory
                              (run (M:=RefMath.math) start fiftyMetres) "1"))%nat)
    by (vm_compute; lia).
  split; [exact H|].
  exact (proj1 (proj2 (proj2 (isItemMoving_cases (M:=RefMath.math)
                                (run (M:=RefMath.math) start fiftyMetres) "1"))) H).
Defined.

Lemma rejected_sample_has_no_effect_witness :
  exists item cur,
    find_item start "1" = Some item /\
    currentLocation item = Some cur /\
    JS.lt (calculateDistance (M:=RefMath.math) (position cur)
             (position (newLocation cur stillTick))) (of_Z 10) = true /\
    (updateItemLocationRealTime (M:=RefMath.math) start "1" stillTick).1 = start.
Proof.
  destruct (find_item start "1") as [item|] eqn:Hitem;
    [|vm_compute in Hitem; discriminate Hitem].
  destruct (currentLocation item) as [cur|] eqn:Hcur;
    [|vm_compute in Hitem; injection Hitem as <-; discriminate Hcur].
  assert (Hlt : JS.lt (calculateDistance (M:=RefMath.math) (position cur)
                         (position (newLocation cur stillTick))) (of_Z 10) = true).
  { vm_compute in Hitem. injection Hitem as <-.
    vm_compute in Hcur. injection Hcur as <-. vm_compute. reflexivity. }
  exists item, cur. repeat (split; [reflexivity || assumption|]).
  exact (proj1 (proj2 (rejected_sample_has_no_effect (M:=RefMath.math)
                         start "1" stillTick item cur Hitem Hcur Hlt))).
Defined.

Lemma exactly_one_call_per_update_witness :
  let st := subscribeToLocationUpdates start "1" 7%nat in
  let ops := manualUpdates 2 ++ [Timer "1" movingTick; Subscribe "2" 8%nat] in
  forallb (quiet "1") ops = true /\
  calls_about "1" (calls (run (M:=RefMath.math) st ops))
  = calls_about "1" (calls start)
    ++ ((fun u => (7%nat, u))
          <$> updates_about "1" (accepted (M:=RefMath.math) st ops)) /\
  length (calls (run (M:=RefMath.math) st ops)) = 3%nat.
Proof.
  assert (Hq : forallb (quiet "1")
                 (manualUpdates 2 ++ [Timer "1" movingTick; Subscribe "2" 8%nat])
               = true) by (vm_compute; reflexivity).
  split; [exact Hq|]. split.
  - exact (proj1 (proj1 (proj2 (exactly_one_call_per_update (M:=RefMath.math) "1"))
                    _ start Hq) 7%nat).
  - vm_compute. reflexivity.
Defined.

(** Callback 7 subscribed to item "1" and never unsubscribed; after
    callback 8 subscribed to the same item, two updates are stored for it,
    and callback 7 is called for neither. *)
Lemma replaced_subscriber_gets_no_call :
  let ops := manualUpdates 2 in
  forallb (quiet "1") ops = true /\
  length (updates_about "1" (accepted (M:=RefMath.math) twoSubscribers ops)) = 2%nat /\
  calls_to 7%nat (calls (run (M:=RefMath.math) twoSubscribers ops)) = [] /\
  length (calls_to 8%nat (calls (run (M:=RefMath.math) twoSubscribers ops))) = 2%nat /\
  ~ (calls_to 7%nat (calls_about "1" (calls (run (M:=RefMath.math) twoSubscribers ops)))
     = (fun u => (7%nat, u))
         <$> updates_about "1" (accepted (M:=RefMath.math) twoSubscribers ops)).
Proof.
  cbv zeta.
  split; [vm_compute; reflexivity|].
  split; [vm_compute; reflexivity|].
  split; [vm_compute; reflexivity|].
  split; [vm_compute; reflexivity|].
  intros H. apply (f_equal (@length _)) in H. vm_compute in H. discriminate H.
Qed.

Lemma one_callback_per_item_witness :
  "2" <> "1" /\
  registered (subscribeToLocationUpdates start "1" 7%nat) "2" = registered start "2" /\
  registered (subscribeToLocationUpdates
                (subscribeToLocationUpdates start "1" 7%nat) "1" 8%nat) "1"
  = [8%nat].
Proof.
  assert (H : "2" <> "1") by discriminate.
  split; [exact H|]. split.
  - exact (proj1 (proj2 (proj2 (one_callback_per_item (M:=RefMath.math)))) start "1" 7%nat "2" H).
  - exact (proj1 (proj2 (one_callback_per_item (M:=RefMath.math))) _ "1" 8%nat).
Defined.

End TrackingScenarios.

(** ** Mobile tracking requests *)

Section MobileProperties.

Import JS MobileTrackingService MobileScenario.

Lemma identifyNetwork_cases number :
  identifyNetwork number = "SAFARICOM" \/ identifyNetwork number = "AIRTEL" \/
  identifyNetwork number = "TELKOM" \/ identifyNetwork number = "UNKNOWN".
Proof.
  unfold identifyNetwork.
  repeat (match goal with |- context [if ?b then _ else _] => destruct b end);
    auto.
Qed.

(** A request that is not authorised touches nothing and fails as such. *)
Lemma unauthorized_result cfg db request env :
  validateTrackingRequest db request = false ->
  trackMobileNumber cfg db request env
  = (db, failed "Unauthorized tracking request").
Proof. intros H. unfold trackMobileNumber. now rewrite H. Qed.

(** An authorised request for a number of a known carrier: the row is
    created and its outcome is written once, whether the carrier answers
    or is not configured. *)
Lemma known_network_writes_outcome_once cfg db request env :
  validateTrackingRequest db request = true ->
  identifyNetwork (mobileNumber request) <> "UNKNOWN" ->
  let r := trackMobileNumber cfg db request env in
  outcome_writes r.1 (new_request_id env)
  = S (outcome_writes db (new_request_id env)) /\
  (exists data,
      row_outcome <$> requests r.1 !! new_request_id env = Some (Some data) /\
      o_success data = success r.2 /\ o_error data = error r.2) /\
  requestId r.2 = new_request_id env.
Proof.
  intros Hv Hn. unfold trackMobileNumber. rewrite Hv. cbn [negb].
  set (id := new_request_id env).
  assert (Hrow : forall track : Env -> string -> MobileTrackingResult,
    let r :=
      let trackingResult := track env id in
      let '(db1, locationId) :=
        match result_location trackingResult with
        | Some l =>
            let '(db1, lid) := saveLocation (create_request db id request) env l in
            (db1, Some lid)
        | None => (create_request db id request, None)
        end in
      let data :=
        {| o_success := success trackingResult;
           o_network := identifyNetwork (mobileNumber request);
           o_accuracy := tl_accuracy <$> result_location trackingResult;
           o_error := error trackingResult;
           o_locationId := locationId |} in
      match update_request db1 id data with
      | Some db2 =>
          (db2, {| success := success trackingResult;
                   result_location := result_location trackingResult;
                   error := error trackingResult;
                   requestId := id |})
      | None => (db1, failed (prisma_error env))
      end in
    outcome_writes r.1 id = S (outcome_writes db id) /\
    (exists data,
        row_outcome <$> requests r.1 !! id = Some (Some data) /\
        o_success data = success r.2 /\ o_error data = error r.2) /\
    requestId r.2 = id).
  { intros track. cbv zeta.
    destruct (result_location (track env id)) as [l|]; unfold update_request;
      cbn [saveLocation create_location create_request requests journal
           users locations]; rewrite lookup_insert_eq; cbn [fst snd].
    - split; [|split; [|reflexivity]].
      + unfold outcome_writes. cbn [journal].
        rewrite !List.filter_app, !length_app.
        cbn [List.filter is_update_of length]. rewrite String.eqb_refl.
        cbn [length]. lia.
      + eexists. cbn [requests]. rewrite lookup_insert_eq. cbn.
        split; [reflexivity|]. split; reflexivity.
    - split; [|split; [|reflexivity]].
      + unfold outcome_writes. cbn [journal].
        rewrite !List.filter_app, !length_app.
        cbn [List.filter is_update_of length]. rewrite String.eqb_refl.
        cbn [length]. lia.
      + eexists. cbn [requests]. rewrite lookup_insert_eq. cbn.
        split; [reflexivity|]. split; reflexivity. }
  destruct (identifyNetwork_cases (mobileNumber request)) as [E|[E|[E|E]]];
    [| | |congruence]; rewrite E in *; cbn [String.eqb Ascii.eqb Bool.eqb];
    apply Hrow.
Qed.

(** An authorised request for a number of no known carrier: the row is
    created, nothing else is written, and the result carries no id. *)
Lemma unknown_network_writes_no_outcome cfg db request env :
  validateTrackingRequest db request = true ->
  identifyNetwork (mobileNumber request) = "UNKNOWN" ->
  let r := trackMobileNumber cfg db request env in
  journal r.1 = journal db ++ [CreateRequest (new_request_id env)] /\
  row_outcome <$> requests r.1 !! new_request_id env = Some None /\
  outcome_writes r.1 (new_request_id env) = outcome_writes db (new_request_id env) /\
  r.2 = failed "Unknown network provider".
Proof.
  intros Hv Hn. unfold trackMobileNumber. rewrite Hv, Hn.
  cbn [negb String.eqb Ascii.eqb Bool.eqb fst snd create_request journal requests].
  rewrite lookup_insert_eq. split; [reflexivity|]. split; [reflexivity|].
  split; [|reflexivity].
  unfold outcome_writes, create_request. cbn [journal].
  rewrite List.filter_app, length_app. cbn [List.filter is_update_of length]. lia.
Qed.

(** C3, amended.  Whatever the officer, a COURT_ORDER request without a
    court order number, an EMERGENCY request without an emergency code and
    a CONSENT request without a consent token fail as unauthorised, and
    nothing is written.  A field that is present counts, the empty string
    included: with it, the request of an active POLICE or ADMIN officer is
    authorised. *)
Theorem missing_field_is_unauthorized :
  (forall cfg db request env,
     (requestType request = "COURT_ORDER" /\ courtOrderNumber request = None) \/
     (requestType request = "EMERGENCY" /\ emergencyCode request = None) \/
     (requestType request = "CONSENT" /\ consentToken request = None) ->
     trackMobileNumber cfg db request env
     = (db, failed "Unauthorized tracking request")) /\
  (forall db request officer,
     users db !! officerId request = Some officer ->
     user_isActive officer = true ->
     role officer = "POLICE" \/ role officer = "ADMIN" ->
     (requestType request = "COURT_ORDER" /\ courtOrderNumber request <> None) \/
     (requestType request = "EMERGENCY" /\ emergencyCode request <> None) \/
     (requestType request = "CONSENT" /\ consentToken request <> None) ->
     validateTrackingRequest db request = true).
Proof.
  split.
  - intros cfg db request env H. apply unauthorized_result.
    unfold validateTrackingRequest.
    destruct (users db !! officerId request) as [officer|]; [|reflexivity].
    destruct (negb (user_isActive officer)); [reflexivity|].
    destruct (negb (includes ["POLICE"; "ADMIN"] (role officer))); [reflexivity|].
    destruct H as [[-> ->]|[[-> ->]|[-> ->]]]; reflexivity.
  - intros db request officer Ho Ha Hr H. unfold validateTrackingRequest.
    rewrite Ho, Ha. cbn [negb].
    assert (Hi : includes ["POLICE"; "ADMIN"] (role officer) = true).
    { destruct Hr as [-> | ->]; vm_compute; reflexivity. }
    rewrite Hi. cbn [negb].
    destruct H as [[-> H]|[[-> H]|[-> H]]]; cbn [String.eqb Ascii.eqb Bool.eqb];
      now apply bool_decide_eq_true.
Qed.

(** A court-order request with an empty order number, made by an active
    police officer, is authorised and tracked. *)
Lemma empty_court_order_is_tracked :
  let r := trackMobileNumber networks db emptyCourtOrder env in
  requestType emptyCourtOrder = "COURT_ORDER" /\
  courtOrderNumber emptyCourtOrder = Some "" /\
  success r.2 = true /\
  r.2 <> failed "Unauthorized tracking request".
Proof.
  cbv zeta. split; [reflexivity|]. split; [reflexivity|].
  split; [vm_compute; reflexivity|].
  intros H. apply (f_equal success) in H. vm_compute in H. discriminate H.
Qed.

Lemma missing_field_is_unauthorized_witness :
  trackMobileNumber networks db noCourtOrder env
  = (db, failed "Unauthorized tracking request") /\
  validateTrackingRequest db emptyCourtOrder = true.
Proof.
  split.
  - apply (proj1 missing_field_is_unauthorized). left. split; reflexivity.
  - apply (proj2 missing_field_is_unauthorized db emptyCourtOrder
             {| role := "POLICE"; user_isActive := true |}).
    + vm_compute. reflexivity.
    + reflexivity.
    + left. reflexivity.
    + left. split; [reflexivity | discriminate].
Defined.

(** C5 (the code departs from it).  The outcome of a request row is meant
    to be written exactly once on every path.  For the authorised request
    [unknownPrefix] the row is created and the call ends in the failure
    "Unknown network provider" without any write of the outcome; the
    result does not even carry the id of the row. *)
Theorem unknown_prefix_leaves_outcome_unset :
  let r := trackMobileNumber networks db unknownPrefix env in
  validateTrackingRequest db unknownPrefix = true /\
  identifyNetwork (mobileNumber unknownPrefix) = "UNKNOWN" /\
  journal r.1 = [CreateRequest "req-1"] /\
  row_outcome <$> requests r.1 !! "req-1" = Some None /\
  outcome_writes r.1 "req-1" = 0%nat /\
  r.2 = failed "Unknown network provider".
Proof.
  cbv zeta. repeat (split; [vm_compute; reflexivity|]). vm_compute. reflexivity.
Qed.

(** The lost-device request of a Safaricom number, for comparison: one
    write of the outcome, and the result carries the id of the row. *)
Lemma lost_device_outcome_written_once :
  let r := trackMobileNumber networks db lostDevice env in
  identifyNetwork (mobileNumber lostDevice) = "SAFARICOM" /\
  outcome_writes r.1 "req-1" = 1%nat /\
  requestId r.2 = "req-1".
Proof.
  cbv zeta. repeat (split; [vm_compute; reflexivity|]). vm_compute. reflexivity.
Qed.

End MobileProperties.

(** ** Devices, vehicles and timers *)

Section ItemFacts.

Import JS GPSService TrackingService Observe TrackingItems.

Context {M : Math}.

Lemma set_currentLocation_intervals key i l st :
  trackingIntervals (set_currentLocation key i l st) = trackingIntervals st /\
  timers (set_currentLocation key i l st) = timers st /\
  realTimeTracking (set_currentLocation key i l st) = realTimeTracking st.
Proof. now destruct i. Qed.

Lemma notify_frame id u st :
  devices (notify id u st) = devices st /\
  vehicles (notify id u st) = vehicles st /\
  trackingIntervals (notify id u st) = trackingIntervals st /\
  timers (notify id u st) = timers st.
Proof. unfold notify. now destruct (locationUpdateCallbacks st !! id). Qed.

(** Starting, stopping and firing timers leave alone everything but the
    timers and their flags. *)
Lemma enable_frame st id :
  devices (enableRealTimeTracking st id) = devices st /\
  vehicles (enableRealTimeTracking st id) = vehicles st /\
  trackingUpdates (enableRealTimeTracking st id) = trackingUpdates st /\
  trackingIntervals (enableRealTimeTracking st id) = trackingIntervals st.
Proof.
  unfold enableRealTimeTracking.
  now destruct (realTimeTracking st !! id) as [[]|].
Qed.

Lemma disable_frame st id :
  devices (disableRealTimeTracking st id) = devices st /\
  vehicles (disableRealTimeTracking st id) = vehicles st /\
  trackingUpdates (disableRealTimeTracking st id) = trackingUpdates st.
Proof.
  unfold disableRealTimeTracking.
  now destruct (trackingIntervals st !! id) as [[|h]|].
Qed.

Lemma enable_timers st id :
  exists more, timers (enableRealTimeTracking st id) = timers st ++ more.
Proof.
  unfold enableRealTimeTracking.
  destruct (realTimeTracking st !! id) as [[]|]; simpl; eauto.
  exists []. now rewrite app_nil_r.
Qed.

Lemma disable_without_handle st id :
  trackingIntervals st = ∅ ->
  timers (disableRealTimeTracking st id) = timers st /\
  trackingIntervals (disableRealTimeTracking st id) = ∅ /\
  realTimeTracking (disableRealTimeTracking st id) !! id = Some false.
Proof.
  intros H. unfold disableRealTimeTracking. rewrite H, lookup_empty. simpl.
  rewrite lookup_insert_eq. auto.
Qed.

Lemma step_intervals st op :
  trackingIntervals (step st op).1 = trackingIntervals st /\
  timers (step st op).1 = timers st.
Proof.
  destruct op as [id env|id l ty env|id cb|id]; simpl; try (split; reflexivity).
  - destruct (updateItemLocationRealTime st id env) as [st' r] eqn:E.
    apply timer_inv in E
      as [[_ ->] | (item & last & u & _ & _ & _ & _ & _ & _ & _ & _ & ->)];
      [split; reflexivity|].
    cbn [fst].
    destruct (notify_frame (item_id item) u
                (with_trackingUpdates
                   (<[item_id item :=
                        push_capped
                          (getTrackingHistory
                             (set_currentLocation id item (newLocation last env) st)
                             (item_id item)) u]>
                      (trackingUpdates
                         (set_currentLocation id item (newLocation last env) st)))
                   (set_currentLocation id item (newLocation last env) st)))
      as (_ & _ & -> & ->).
    destruct (set_currentLocation_intervals id item (newLocation last env) st)
      as (Hi & Ht & _).
    split; assumption.
  - destruct (match ty with
              | device => ADevice <$> devices st !! id
              | vehicle => AVehicle <$> vehicles st !! id
              end) as [item|] eqn:H.
    + destruct (manual_inv st id l ty env item H) as (u & _ & _ & _ & ->).
      cbn [fst].
      destruct (notify_frame id u
                  (with_trackingUpdates
                     (<[id := getTrackingHistory (set_currentLocation id item l st) id
                              ++ [u]]>
                        (trackingUpdates (set_currentLocation id item l st)))
                     (set_currentLocation id item l st)))
        as (_ & _ & -> & ->).
      destruct (set_currentLocation_intervals id item l st) as (Hi & Ht & _).
      split; assumption.
    + rewrite manual_none by assumption. split; reflexivity.
Qed.

(** One action never removes a timer when no handle is on record, and
    puts none on record. *)
Lemma act_timers st a :
  trackingIntervals st = ∅ ->
  trackingIntervals (act st a) = ∅ /\
  exists more, timers (act st a) = timers st ++ more.
Proof.
  intros H.
  assert (Hen : forall s id, trackingIntervals s = ∅ ->
            timers s = timers st ->
            trackingIntervals (enableRealTimeTracking s id) = ∅ /\
            exists more, timers (enableRealTimeTracking s id) = timers st ++ more).
  { intros s id Hs Ht. destruct (enable_frame s id) as (_ & _ & _ & ->).
    split; [assumption|]. rewrite <- Ht. apply enable_timers. }
  assert (Hdis : forall s id, trackingIntervals s = ∅ ->
            timers s = timers st ->
            trackingIntervals (disableRealTimeTracking s id) = ∅ /\
            exists more, timers (disableRealTimeTracking s id) = timers st ++ more).
  { intros s id Hs Ht. destruct (disable_without_handle s id Hs) as (-> & -> & _).
    split; [reflexivity|]. exists []. now rewrite app_nil_r. }
  destruct a as [op|dev now|id p|veh now|id p|id|id]; simpl.
  - destruct (step_intervals st op) as [-> ->]. split; [assumption|].
    exists []. now rewrite app_nil_r.
  - unfold addDevice. cbn [fst].
    destruct (bool_decide (nd_status dev = lost) && nd_isActive dev).
    + now apply Hen.
    + split; [assumption|]. exists []. now rewrite app_nil_r.
  - unfold updateDevice. destruct (devices st !! id) as [d|]; cbn [fst].
    + destruct (bool_decide (d_status (patch_device d p) = lost)
                && d_isActive (patch_device d p)); [now apply Hen | now apply Hdis].
    + split; [assumption|]. exists []. now rewrite app_nil_r.
  - unfold addVehicle. cbn [fst].
    destruct (bool_decide (nv_status veh = lost) && nv_isActive veh).
    + now apply Hen.
    + split; [assumption|]. exists []. now rewrite app_nil_r.
  - unfold updateVehicle. destruct (vehicles st !! id) as [v|]; cbn [fst].
    + destruct (bool_decide (v_status (patch_vehicle v p) = lost)
                && v_isActive (patch_vehicle v p)); [now apply Hen | now apply Hdis].
    + split; [assumption|]. exists []. now rewrite app_nil_r.
  - now apply Hen.
  - now apply Hdis.
Qed.

(** X1.  No call of the service ever clears a timer.  [setInterval]'s
    handle is dropped, so no handle is ever on record; as long as that is
    so, whatever is done (adding and updating items, enabling and disabling
    tracking, updates, subscriptions), every timer that was running still
    runs, in the same place of the list. *)
Theorem timers_are_never_cleared acts : forall st,
  trackingIntervals st = ∅ ->
  trackingIntervals (perform st acts) = ∅ /\
  exists more, timers (perform st acts) = timers st ++ more.
Proof.
  induction acts as [|a acts IH]; intros st H.
  - split; [assumption|]. exists []. now rewrite app_nil_r.
  - destruct (act_timers st a H) as (H1 & more1 & Ht1).
    destruct (IH (act st a) H1) as (H2 & more2 & Ht2).
    split; [exact H2|]. exists (more1 ++ more2).
    change (perform st (a :: acts)) with (perform (act st a) acts).
    now rewrite Ht2, Ht1, app_assoc.
Qed.

(** X2.  Disabling and enabling again stacks a timer: with no handle on
    record, the timers after the two calls are the timers before plus a new
    one for the item, whether or not one was already running for it. *)
Theorem reenabling_stacks_a_timer st id :
  trackingIntervals st = ∅ ->
  timers (enableRealTimeTracking (disableRealTimeTracking st id) id)
  = timers st ++ [(S (length (timers st)), id)].
Proof.
  intros H. destruct (disable_without_handle st id H) as (Ht & _ & Hf).
  unfold enableRealTimeTracking. rewrite Hf. simpl. now rewrite Ht.
Qed.

(** X3.  A device that is no longer lost, or no longer active, is left
    where it is by its timers: after such an update of the device, a timer
    run for its id returns the state unchanged. *)
Theorem updated_device_is_not_moved st id updates d env :
  devices st !! id = Some d ->
  d_status (patch_device d updates) <> lost \/
  d_isActive (patch_device d updates) = false ->
  let st' := (updateDevice st id updates).1 in
  updateItemLocationRealTime st' id env = (st', None).
Proof.
  intros Hd Hstop. cbv zeta.
  assert (Hfind : find_item (updateDevice st id updates).1 id
                  = Some (ADevice (patch_device d updates))).
  { unfold updateDevice. rewrite Hd. cbn [fst]. unfold find_item.
    destruct (bool_decide (d_status (patch_device d updates) = lost)
              && d_isActive (patch_device d updates)).
    - destruct (enable_frame
                  (with_devices (<[id := patch_device d updates]> (devices st)) st) id)
        as (-> & _). simpl. now rewrite lookup_insert_eq.
    - destruct (disable_frame
                  (with_devices (<[id := patch_device d updates]> (devices st)) st) id)
        as (-> & _). simpl. now rewrite lookup_insert_eq. }
  unfold updateItemLocationRealTime. rewrite Hfind. cbn [isActive status].
  destruct Hstop as [Hs | Ha].
  - rewrite (bool_decide_eq_false_2 _ Hs). cbn [negb].
    now rewrite orb_true_r.
  - now rewrite Ha.
Qed.

Lemma addDevice_devices st dev now :
  d_id (addDevice st dev now).2 = "device_" +:+ toString now /\
  devices (addDevice st dev now).1
  = <[d_id (addDevice st dev now).2 := (addDevice st dev now).2]> (devices st).
Proof.
  unfold addDevice. cbn [fst snd d_id d_status d_isActive].
  split; [reflexivity|].
  destruct (bool_decide (nd_status dev = lost) && nd_isActive dev);
    [|reflexivity].
  now destruct (enable_frame
                  (with_devices
                     (<["device_" +:+ toString now :=
                          {| d_id := "device_" +:+ toString now;
                             d_name := nd_name dev; d_status := nd_status dev;
                             d_lastKnownLocation := nd_lastKnownLocation dev;
                             d_currentLocation := nd_currentLocation dev;
                             d_isActive := nd_isActive dev |}]> (devices st)) st)
                  ("device_" +:+ toString now)) as (-> & _).
Qed.

(** X4.  Two devices added within the same millisecond get the same id,
    and the second takes the place of the first: the map holds the second
    one only. *)
Theorem same_instant_devices_collide st a b now :
  let r1 := addDevice st a now in
  let r2 := addDevice r1.1 b now in
  d_id r2.2 = d_id r1.2 /\
  getDevice r2.1 (d_id r1.2) = Some r2.2 /\
  devices r2.1 = <[d_id r2.2 := r2.2]> (devices st).
Proof.
  cbv zeta. unfold getDevice.
  destruct (addDevice_devices st a now) as [Hid1 Hdev1].
  destruct (addDevice_devices (addDevice st a now).1 b now) as [Hid2 Hdev2].
  rewrite Hdev2, Hdev1, Hid1, Hid2.
  split; [reflexivity|]. split; [now rewrite lookup_insert_eq|].
  now rewrite insert_insert_eq.
Qed.

Lemma filter_status_length (items : list Item) :
  (length (List.filter (fun item => bool_decide (status item = lost)) items)
   + length (List.filter (fun item => bool_decide (status item = found)) items)
   + length (List.filter (fun item => bool_decide (status item = returned)) items)
   = length items)%nat.
Proof.
  induction items as [|item items IH]; [reflexivity|].
  simpl. destruct (status item); simpl; lia.
Qed.

(** X5.  The three status lists split the items: every item is in the
    list of its status and in no other, and the three lengths add up to the
    number of items. *)
Theorem status_lists_split_the_items st :
  (length (getItemsByStatus st lost) + length (getItemsByStatus st found)
   + length (getItemsByStatus st returned) = length (getAllItems st))%nat /\
  (forall item s, In item (getItemsByStatus st s) <->
                  In item (getAllItems st) /\ status item = s).
Proof.
  split; [apply filter_status_length|].
  intros item s. unfold getItemsByStatus. rewrite filter_In.
  now rewrite bool_decide_eq_true.
Qed.

Lemma find_item_in_all st id item :
  find_item st id = Some item -> In item (getAllItems st).
Proof.
  unfold find_item, getAllItems. intros H. apply in_or_app.
  destruct (devices st !! id) as [d|] eqn:Hd.
  - injection H as <-. left. apply list_elem_of_In, list_elem_of_fmap.
    exists d. split; [reflexivity|]. apply list_elem_of_fmap.
    exists (id, d). split; [reflexivity|]. now apply elem_of_map_to_list.
  - destruct (vehicles st !! id) as [v|] eqn:Hv; [|discriminate].
    injection H as <-. right. apply list_elem_of_In, list_elem_of_fmap.
    exists v. split; [reflexivity|]. apply list_elem_of_fmap.
    exists (id, v). split; [reflexivity|]. now apply elem_of_map_to_list.
Qed.

(** X24.  The two distance queries agree.  The item found under an id is
    among the items near a centre exactly when its distance to the centre,
    as [getDistanceToItem] gives it, is at most the radius.  The distance
    is measured to the current location when there is one, else to the
    last known one; an item that has neither has no distance and is near
    nothing.  Every item listed as near is an item of the service. *)
Theorem near_items_are_within_distance st id item center radius :
  find_item st id = Some item ->
  (In item (getItemsNearLocation st center radius) <->
   exists d, getDistanceToItem st id center = Some d /\ SFleb d radius = true) /\
  (forall l, currentLocation item = Some l ->
     getDistanceToItem st id center
     = Some (calculateDistance (position center) (position l))) /\
  (forall l, currentLocation item = None -> lastKnownLocation item = Some l ->
     getDistanceToItem st id center
     = Some (calculateDistance (position center) (position l))) /\
  (currentLocation item = None -> lastKnownLocation item = None ->
   getDistanceToItem st id center = None /\
   ~ In item (getItemsNearLocation st center radius)) /\
  (forall other, In other (getItemsNearLocation st center radius) ->
     In other (getAllItems st)).
Proof.
  intros Hfind. pose proof (find_item_in_all st id item Hfind) as Hall.
  unfold getDistanceToItem, getItemsNearLocation. rewrite Hfind.
  split; [|split; [|split; [|split]]].
  - rewrite filter_In. split.
    + intros [_ H]. destruct (itemLocation item) as [l|]; [|discriminate].
      eexists. split; [reflexivity | exact H].
    + intros (d & Hd & Hle). split; [exact Hall|].
      destruct (itemLocation item) as [l|]; [|discriminate].
      injection Hd as <-. exact Hle.
  - intros l Hl. unfold itemLocation. now rewrite Hl.
  - intros l Hc Hl. unfold itemLocation. now rewrite Hc, Hl.
  - intros Hc Hl. unfold itemLocation. rewrite Hc, Hl. cbn. split; [reflexivity|].
    rewrite filter_In. unfold itemLocation. rewrite Hc, Hl. cbn.
    now intros [_ ?].
  - intros other H. now apply filter_In in H.
Qed.

End ItemFacts.

(** ** Histories and current locations *)

Section HistoryFacts.

Import JS GPSService TrackingService Observe TrackingItems.

Context {M : Math}.

Lemma act_updates st a :
  match a with Tracking _ => False | _ => True end ->
  trackingUpdates (act st a) = trackingUpdates st.
Proof.
  destruct a as [op|dev now|id p|veh now|id p|id|id]; simpl; intros H;
    try contradiction.
  - unfold addDevice. cbn [fst].
    destruct (bool_decide (nd_status dev = lost) && nd_isActive dev);
      [|reflexivity].
    now destruct (enable_frame
                    (with_devices
                       (<["device_" +:+ toString now :=
                            {| d_id := "device_" +:+ toString now;
                               d_name := nd_name dev; d_status := nd_status dev;
                               d_lastKnownLocation := nd_lastKnownLocation dev;
                               d_currentLocation := nd_currentLocation dev;
                               d_isActive := nd_isActive dev |}]> (devices st)) st)
                    ("device_" +:+ toString now)) as (_ & _ & -> & _).
  - unfold updateDevice. destruct (devices st !! id) as [d|]; cbn [fst];
      [|reflexivity].
    destruct (bool_decide (d_status (patch_device d p) = lost)
              && d_isActive (patch_device d p)).
    + now destruct (enable_frame
                      (with_devices (<[id := patch_device d p]> (devices st)) st) id)
        as (_ & _ & -> & _).
    + now destruct (disable_frame
                      (with_devices (<[id := patch_device d p]> (devices st)) st) id)
        as (_ & _ & ->).
  - unfold addVehicle. cbn [fst].
    destruct (bool_decide (nv_status veh = lost) && nv_isActive veh);
      [|reflexivity].
    now destruct (enable_frame
                    (with_vehicles
                       (<["vehicle_" +:+ toString now :=
                            {| v_id := "vehicle_" +:+ toString now;
                               v_numberPlate := nv_numberPlate veh;
                               v_status := nv_status veh;
                               v_lastKnownLocation := nv_lastKnownLocation veh;
                               v_currentLocation := nv_currentLocation veh;
                               v_isActive := nv_isActive veh |}]> (vehicles st)) st)
                    ("vehicle_" +:+ toString now)) as (_ & _ & -> & _).
  - unfold updateVehicle. destruct (vehicles st !! id) as [v|]; cbn [fst];
      [|reflexivity].
    destruct (bool_decide (v_status (patch_vehicle v p) = lost)
              && v_isActive (patch_vehicle v p)).
    + now destruct (enable_frame
                      (with_vehicles (<[id := patch_vehicle v p]> (vehicles st)) st) id)
        as (_ & _ & -> & _).
    + now destruct (disable_frame
                      (with_vehicles (<[id := patch_vehicle v p]> (vehicles st)) st) id)
        as (_ & _ & ->).
  - now destruct (enable_frame st id) as (_ & _ & -> & _).
  - now destruct (disable_frame st id) as (_ & _ & ->).
Qed.

(** X6.  Whatever else is done with the service, as long as no manual
    update is made every history stays within 100 entries. *)
Theorem histories_stay_capped acts : forall st,
  forallb no_manual acts = true -> capped st -> capped (perform st acts).
Proof.
  induction acts as [|a acts IH]; intros st Hacts Hcap; [exact Hcap|].
  simpl in Hacts. apply andb_true_iff in Hacts as [Ha Hacts].
  change (perform st (a :: acts)) with (perform (act st a) acts).
  apply IH; [assumption|].
  destruct a as [op|dev now|id p|veh now|id p|id|id];
    try (intros e; unfold getTrackingHistory; rewrite act_updates by exact I;
         apply Hcap).
  destruct op as [id env|id l ty env|id cb|id]; try discriminate Ha.
  - now apply timer_keeps_cap.
  - exact Hcap.
  - exact Hcap.
Qed.

(** The history of the item after a timer run that stored an update. *)
Lemma timer_history_push st id env st' u :
  updateItemLocationRealTime st id env = (st', Some u) ->
  getTrackingHistory st' (itemId u)
  = push_capped (getTrackingHistory st (itemId u)) u.
Proof.
  intros E. apply timer_inv in E
    as [[? _] | (item & last & u' & [= <-] & _ & _ & _ & _ & _ & _ & Hid & ->)];
    [discriminate|].
  unfold getTrackingHistory. cbv zeta.
  rewrite notify_updates, with_trackingUpdates_updates, Hid, lookup_insert_eq.
  simpl. now rewrite set_currentLocation_updates.
Qed.

(** X7.  The timer path evicts first in, first out.  A stored update goes
    to the end of the history; below 100 entries nothing else changes, at
    100 entries exactly the oldest one leaves, and a longer history (which
    only manual updates can build) is cut back to its last 99 entries
    before the new one. *)
Theorem timer_history_is_fifo st id env st' u :
  updateItemLocationRealTime st id env = (st', Some u) ->
  let before := getTrackingHistory st (itemId u) in
  let after := getTrackingHistory st' (itemId u) in
  ((length before < 100)%nat -> after = before ++ [u]) /\
  (forall oldest rest,
     before = oldest :: rest -> length rest = 99%nat -> after = rest ++ [u]) /\
  ((100 <= length before)%nat ->
   after = drop (length before - 99) before ++ [u]).
Proof.
  intros E. cbv zeta. rewrite (timer_history_push _ _ _ _ _ E).
  set (before := getTrackingHistory st (itemId u)).
  assert (Hlong : (100 <= length before)%nat ->
            push_capped before u = drop (length before - 99) before ++ [u]).
  { intros H. unfold push_capped. rewrite length_app. simpl.
    destruct (100 <? length before + 1)%nat eqn:E1;
      [|apply Nat.ltb_ge in E1; lia].
    replace (length before + 1 - 100)%nat with (length before - 99)%nat by lia.
    apply drop_app_le. lia. }
  split; [|split].
  - intros H. unfold push_capped. rewrite length_app. simpl.
    destruct (100 <? length before + 1)%nat eqn:E1; [|reflexivity].
    apply Nat.ltb_lt in E1. lia.
  - intros oldest rest Hb Hr. rewrite Hlong by (rewrite Hb; simpl; lia).
    rewrite Hb. simpl. rewrite Hr. reflexivity.
  - exact Hlong.
Qed.

Lemma push_capped_last updates u : last (push_capped updates u) = Some u.
Proof.
  destruct (push_capped_suffix updates u) as (k & -> & Hk).
  rewrite length_app in Hk. simpl in Hk.
  rewrite drop_app_le by lia. apply last_snoc.
Qed.

(** X8.  After an update is stored, on either path, it is the newest entry
    of the history and its location is the current location of the item:
    of the item found under the id on the timer path, of the device or
    vehicle named by the call on the manual path. *)
Theorem stored_update_is_current :
  (forall st id env st' u,
     updateItemLocationRealTime st id env = (st', Some u) ->
     last (getTrackingHistory st' (itemId u)) = Some u /\
     currentLocation <$> find_item st' id = Some (Some (location u))) /\
  (forall st id l ty env st' u,
     updateItemLocation st id l ty env = (st', Some u) ->
     last (getTrackingHistory st' id) = Some u /\
     location u = l /\
     match ty with
     | device => d_currentLocation <$> devices st' !! id
     | vehicle => v_currentLocation <$> vehicles st' !! id
     end = Some (Some l)).
Proof.
  split.
  - intros st id env st' u E. split.
    + rewrite (timer_history_push _ _ _ _ _ E). apply push_capped_last.
    + apply timer_inv in E
        as [[? _] | (item & last & u' & [= <-] & Hi & _ & _ & _ & _ & Hu & _ & ->)];
        [discriminate|].
      rewrite Hu. cbv zeta. unfold find_item.
      destruct (notify_frame (item_id item) u
                  (with_trackingUpdates
                     (<[item_id item :=
                          push_capped
                            (getTrackingHistory
                               (set_currentLocation id item (newLocation last env) st)
                               (item_id item)) u]>
                        (trackingUpdates
                           (set_currentLocation id item (newLocation last env) st)))
                     (set_currentLocation id item (newLocation last env) st)))
        as (-> & -> & _).
      unfold find_item in Hi.
      destruct item as [d|v]; simpl.
      * now rewrite lookup_insert_eq.
      * destruct (devices st !! id); [discriminate|].
        now rewrite lookup_insert_eq.
  - intros st id l ty env st' u E.
    destruct (match ty with
              | device => ADevice <$> devices st !! id
              | vehicle => AVehicle <$> vehicles st !! id
              end) as [item|] eqn:H;
      [|rewrite manual_none in E by assumption; discriminate].
    destruct (manual_inv st id l ty env item H) as (u' & Hl & _ & _ & E').
    rewrite E' in E. injection E as <- <-.
    split; [|split; [assumption|]].
    + unfold getTrackingHistory. cbv zeta.
      rewrite notify_updates, with_trackingUpdates_updates, lookup_insert_eq.
      simpl. apply last_snoc.
    + cbv zeta.
      destruct (notify_frame id u'
                  (with_trackingUpdates
                     (<[id := getTrackingHistory (set_currentLocation id item l st) id
                              ++ [u']]>
                        (trackingUpdates (set_currentLocation id item l st)))
                     (set_currentLocation id item l st)))
        as (-> & -> & _).
      destruct ty, item as [d|v]; simpl;
        try (destruct (devices st !! id); discriminate);
        try (destruct (vehicles st !! id); discriminate);
        now rewrite lookup_insert_eq.
Qed.

(** A timer run changes the maps of devices and vehicles under its own
    id at most, and the vehicles not at all when a device has the id. *)
Lemma timer_items st id env :
  (forall k, k <> id ->
     devices (updateItemLocationRealTime st id env).1 !! k = devices st !! k /\
     vehicles (updateItemLocationRealTime st id env).1 !! k = vehicles st !! k) /\
  (is_Some (devices st !! id) ->
   vehicles (updateItemLocationRealTime st id env).1 = vehicles st /\
   is_Some (devices (updateItemLocationRealTime st id env).1 !! id)).
Proof.
  destruct (updateItemLocationRealTime st id env) as [st' r] eqn:E.
  apply timer_inv in E
    as [[_ ->] | (item & last & u & _ & Hi & _ & _ & _ & _ & _ & _ & ->)];
    [now split|].
  cbn [fst]. cbv zeta.
  destruct (notify_frame (item_id item) u
              (with_trackingUpdates
                 (<[item_id item :=
                      push_capped
                        (getTrackingHistory
                           (set_currentLocation id item (newLocation last env) st)
                           (item_id item)) u]>
                    (trackingUpdates
                       (set_currentLocation id item (newLocation last env) st)))
                 (set_currentLocation id item (newLocation last env) st)))
    as (-> & -> & _).
  unfold find_item in Hi. split.
  - intros k Hk. destruct item as [d|v]; simpl.
    + now rewrite lookup_insert_ne.
    + now rewrite lookup_insert_ne.
  - intros [d Hd]. rewrite Hd in Hi. injection Hi as <-. simpl.
    rewrite lookup_insert_eq. split; [reflexivity | eauto].
Qed.

(** X9.  A device shadows the vehicle of the same id.  Timers, histories
    and callbacks go by the id alone, and a timer run looks the id up among
    the devices first: as long as a device has the id, no run of timers and
    (un)subscriptions ever changes the vehicle that has it too. *)
Theorem device_shadows_vehicle id ops : forall st,
  is_Some (devices st !! id) ->
  forallb not_manual ops = true ->
  vehicles (run st ops) !! id = vehicles st !! id.
Proof.
  induction ops as [|op ops IH]; intros st Hd Hops; [reflexivity|].
  simpl in Hops. apply andb_true_iff in Hops as [Hop Hops].
  change (run st (op :: ops)) with (run (step st op).1 ops).
  destruct op as [id' env|id' l ty env|id' cb|id']; try discriminate Hop;
    cbn [step fst].
  - destruct (timer_items st id' env) as [Hother Hsame].
    destruct (decide (id = id')) as [<- | Hne].
    + destruct (Hsame Hd) as [Hv Hd']. rewrite (IH _ Hd' Hops). now rewrite Hv.
    + destruct (Hother id Hne) as [Hdk Hvk].
      rewrite IH; [assumption | now rewrite Hdk | assumption].
  - rewrite IH; [reflexivity | exact Hd | exact Hops].
  - rewrite IH; [reflexivity | exact Hd | exact Hops].
Qed.

Lemma state_eta st :
  with_callbacks (locationUpdateCallbacks st) st = st.
Proof. now destruct st. Qed.

(** X10.  Unsubscribing an item that has no subscription changes nothing,
    and unsubscribing undoes a subscription made where there was none. *)
Theorem unsubscribe_undoes_subscribe st id cb :
  locationUpdateCallbacks st !! id = None ->
  unsubscribeFromLocationUpdates st id = st /\
  unsubscribeFromLocationUpdates (subscribeToLocationUpdates st id cb) id = st.
Proof.
  intros H. unfold unsubscribeFromLocationUpdates, subscribeToLocationUpdates.
  split.
  - rewrite delete_id by assumption. apply state_eta.
  - cbn [locationUpdateCallbacks with_callbacks].
    rewrite delete_insert_id by assumption.
    unfold with_callbacks. cbn. now destruct st.
Qed.

(** X11.  An update of one item leaves the others alone: the histories
    under every other id are the same after a timer run or a manual
    update, and so are the devices and vehicles under every other key. *)
Theorem update_touches_one_item :
  (forall st id env e,
     let r := updateItemLocationRealTime st id env in
     (forall u, r.2 = Some u -> e <> itemId u) ->
     getTrackingHistory r.1 e = getTrackingHistory st e) /\
  (forall st id l ty env e,
     e <> id ->
     getTrackingHistory (updateItemLocation st id l ty env).1 e
     = getTrackingHistory st e) /\
  (forall st id env k,
     k <> id ->
     devices (updateItemLocationRealTime st id env).1 !! k = devices st !! k /\
     vehicles (updateItemLocationRealTime st id env).1 !! k = vehicles st !! k) /\
  (forall st id l ty env k,
     k <> id ->
     devices (updateItemLocation st id l ty env).1 !! k = devices st !! k /\
     vehicles (updateItemLocation st id l ty env).1 !! k = vehicles st !! k).
Proof.
  split; [|split; [|split]].
  - intros st id env e. cbv zeta.
    destruct (updateItemLocationRealTime st id env) as [st' r] eqn:E.
    apply timer_inv in E
      as [[_ ->] | (item & last & u & -> & _ & _ & _ & _ & _ & _ & Hid & ->)];
      [reflexivity|].
    cbn [fst snd]. intros Hne. specialize (Hne u eq_refl).
    unfold getTrackingHistory. cbv zeta.
    rewrite notify_updates, with_trackingUpdates_updates.
    rewrite lookup_insert_ne by congruence.
    now rewrite set_currentLocation_updates.
  - intros st id l ty env e Hne.
    destruct (match ty with
              | device => ADevice <$> devices st !! id
              | vehicle => AVehicle <$> vehicles st !! id
              end) as [item|] eqn:H;
      [|now rewrite manual_none].
    destruct (manual_inv st id l ty env item H) as (u & _ & _ & _ & ->).
    unfold getTrackingHistory. cbn [fst]. cbv zeta.
    rewrite notify_updates, with_trackingUpdates_updates.
    rewrite lookup_insert_ne by congruence.
    now rewrite set_currentLocation_updates.
  - intros st id env k Hk. now apply (proj1 (timer_items st id env)).
  - intros st id l ty env k Hk.
    destruct (match ty with
              | device => ADevice <$> devices st !! id
              | vehicle => AVehicle <$> vehicles st !! id
              end) as [item|] eqn:H;
      [|now rewrite manual_none].
    destruct (manual_inv st id l ty env item H) as (u & _ & _ & _ & ->).
    cbn [fst]. cbv zeta.
    destruct (notify_frame id u
                (with_trackingUpdates
                   (<[id := getTrackingHistory (set_currentLocation id item l st) id
                            ++ [u]]>
                      (trackingUpdates (set_currentLocation id item l st)))
                   (set_currentLocation id item l st)))
      as (-> & -> & _).
    destruct item as [d|v]; simpl; now rewrite lookup_insert_ne.
Qed.

End HistoryFacts.

(** ** The position watch *)

Section WatchFacts.

Import JS GPSService GPSWatch.

Context {M : Math}.

Lemma SFleb_trans (a b c : spec_float) :
  SFleb a b = true -> SFleb b c = true -> SFleb a c = true.
Proof.
  unfold SFleb.
  destruct a as [sa|sa| |sa ma ea], b as [sb|sb| |sb mb eb],
           c as [sc|sc| |sc mc ec]; simpl;
    try discriminate; try reflexivity;
    try (destruct sa; discriminate || reflexivity);
    try (destruct sb; discriminate || reflexivity);
    try (destruct sc; discriminate || reflexivity);
    try (destruct sa, sb; discriminate || reflexivity);
    try (destruct sa, sc; discriminate || reflexivity);
    try (destruct sb, sc; discriminate || reflexivity);
    try (destruct sa, sb, sc; discriminate || reflexivity).
  all: destruct sa, sb, sc; try discriminate; try reflexivity.
  all: change (PosDef.Pos.compare_cont Eq) with Pos.compare.
  all: destruct (Z.compare_spec ea eb), (Z.compare_spec eb ec),
         (Z.compare_spec ea ec);
         try discriminate; try reflexivity; try lia; subst.
  all: destruct (Pos.compare_spec ma mb), (Pos.compare_spec mb mc),
         (Pos.compare_spec ma mc);
         simpl; try discriminate; try reflexivity; try lia.
Qed.

(** X12.  A better accuracy never gets a worse description: when one
    reading is at most another, its description comes no later in
    Excellent, Good, Fair, Poor, Very Poor. *)
Theorem accuracy_description_is_monotone (a b : JS.number) :
  SFleb a b = true ->
  (rank (getAccuracyDescription a) <= rank (getAccuracyDescription b))%nat.
Proof.
  intros Hab. unfold getAccuracyDescription.
  destruct (SFleb b (of_Z 5)) eqn:B5.
  { rewrite (SFleb_trans _ _ _ Hab B5). vm_compute. lia. }
  destruct (SFleb b (of_Z 10)) eqn:B10.
  { rewrite (SFleb_trans _ _ _ Hab B10).
    destruct (SFleb a (of_Z 5)); vm_compute; lia. }
  destruct (SFleb b (of_Z 50)) eqn:B50.
  { rewrite (SFleb_trans _ _ _ Hab B50).
    destruct (SFleb a (of_Z 5)), (SFleb a (of_Z 10)); vm_compute; lia. }
  destruct (SFleb b (of_Z 100)) eqn:B100.
  { rewrite (SFleb_trans _ _ _ Hab B100).
    destruct (SFleb a (of_Z 5)), (SFleb a (of_Z 10)), (SFleb a (of_Z 50));
      vm_compute; lia. }
  destruct (SFleb a (of_Z 5)), (SFleb a (of_Z 10)), (SFleb a (of_Z 50)),
    (SFleb a (of_Z 100)); vm_compute; lia.
Qed.

Lemma or_undefined_Some o x :
  or_undefined o = Some x <-> o = Some x /\ truthy x = true.
Proof.
  unfold or_undefined. destruct o as [y|]; [|split; [discriminate | intros [? _]; discriminate]].
  destruct (truthy y) eqn:E; split.
  - intros [= ->]. auto.
  - now intros [[= ->] _].
  - discriminate.
  - intros [[= ->] H]. congruence.
Qed.

(** X13.  A reading of zero is lost on the way.  The position handed to
    callbacks carries an altitude, heading or speed exactly when the
    browser gave one that is neither zero nor NaN: a heading of 0 (due
    north) or a speed of 0 (standing still) arrives as absent.  Latitude,
    longitude, accuracy and time are passed on as they are. *)
Theorem zero_readings_are_dropped position :
  let p := gpsPosition position in
  (forall x, p_altitude p = Some x <->
             c_altitude position = Some x /\ truthy x = true) /\
  (forall x, p_heading p = Some x <->
             c_heading position = Some x /\ truthy x = true) /\
  (forall x, p_speed p = Some x <->
             c_speed position = Some x /\ truthy x = true) /\
  (forall s, c_heading position = Some (S754_zero s) -> p_heading p = None) /\
  (forall s, c_speed position = Some (S754_zero s) -> p_speed p = None) /\
  (p_latitude p, p_longitude p, p_accuracy p, p_timestamp p)
  = (c_latitude position, c_longitude position, c_accuracy position,
     g_timestamp position).
Proof.
  cbv zeta. unfold gpsPosition. cbn.
  repeat (split; [intro; apply or_undefined_Some|]).
  split; [intros s ->; reflexivity|]. split; [intros s ->; reflexivity|].
  reflexivity.
Qed.

Lemma startTracking_keeps s id cb o s' :
  startTracking s id cb o = Some s' ->
  distanceFilter s' = distanceFilter s /\
  lastKnownPosition s' = lastKnownPosition s.
Proof.
  unfold startTracking. destruct (negb (isSupported s)); [discriminate|]. cbn.
  destruct (negb (isTracking s)); intros [= <-]; split; reflexivity.
Qed.

Lemma stopAllTracking_keeps s :
  distanceFilter (stopAllTracking s) = distanceFilter s /\
  lastKnownPosition (stopAllTracking s) = lastKnownPosition s.
Proof. unfold stopAllTracking. now destruct (watchId s). Qed.

Lemma stopTracking_keeps s id :
  distanceFilter (stopTracking s id) = distanceFilter s /\
  lastKnownPosition (stopTracking s id) = lastKnownPosition s.
Proof.
  unfold stopTracking. cbn.
  destruct ((length (map_delete id (callbacks s)) =? 0)%nat && isTracking s);
    [|split; reflexivity].
  unfold stopAllTracking. cbn. now destruct (watchId s).
Qed.

Lemma step_distanceFilter s ev : distanceFilter (step s ev) = distanceFilter s.
Proof.
  destruct ev as [id cb o|id| |w pos|pos]; simpl.
  - destruct (startTracking s id cb o) as [s'|] eqn:E; [|reflexivity].
    apply (startTracking_keeps _ _ _ _ _ E).
  - apply stopTracking_keeps.
  - apply stopAllTracking_keeps.
  - destruct (bool_decide _); [|reflexivity]. unfold onPosition.
    now destruct (match lastKnownPosition s with
                  | Some last => hasSignificantChange s (Some last) (gpsPosition pos)
                  | None => true
                  end).
  - now destruct (isSupported s).
Qed.

Lemma run_distanceFilter evs : forall s,
  distanceFilter (run s evs) = distanceFilter s.
Proof.
  induction evs as [|ev evs IH]; intros s; [reflexivity|].
  change (run s (ev :: evs)) with (run (step s ev) evs).
  now rewrite IH, step_distanceFilter.
Qed.

(** X14.  The filter of a service is set once and cannot be switched off.
    Built with no options, with options that give no filter, or with a
    filter of plus or minus zero or NaN, the service filters at 10 metres;
    built with any other filter it filters at that one.  No event changes
    the filter afterwards, the options given to [startTracking]
    included. *)
Theorem distance_filter_is_fixed :
  (forall geolocation,
     distanceFilter (constructor geolocation None) = of_Z 10) /\
  (forall geolocation options,
     opt_distanceFilter options = None ->
     distanceFilter (constructor geolocation (Some options)) = of_Z 10) /\
  (forall geolocation options sign,
     opt_distanceFilter options = Some (S754_zero sign) ->
     distanceFilter (constructor geolocation (Some options)) = of_Z 10) /\
  (forall geolocation options,
     opt_distanceFilter options = Some NaN ->
     distanceFilter (constructor geolocation (Some options)) = of_Z 10) /\
  (forall geolocation options x,
     opt_distanceFilter options = Some x ->
     x <> NaN -> (forall sign, x <> S754_zero sign) ->
     distanceFilter (constructor geolocation (Some options)) = x) /\
  (forall evs s, distanceFilter (run s evs) = distanceFilter s) /\
  (forall s id callback options s',
     startTracking s id callback (Some options) = Some s' ->
     distanceFilter s' = distanceFilter s).
Proof.
  split; [|split; [|split; [|split; [|split; [|split]]]]].
  - reflexivity.
  - intros g o H. simpl. unfold or_default, or_undefined. now rewrite H.
  - intros g o sign H. simpl. unfold or_default, or_undefined. now rewrite H.
  - intros g o H. simpl. unfold or_default, or_undefined. now rewrite H.
  - intros g o x H Hnan Hzero. simpl. unfold or_default, or_undefined. rewrite H.
    destruct x as [sign| | |]; try reflexivity.
    + now contradiction (Hzero sign).
    + now contradiction Hnan.
  - intros evs s. apply run_distanceFilter.
  - intros s id cb o s' H. apply (startTracking_keeps _ _ _ _ _ H).
Qed.

Lemma onPosition_delivers s position :
  (lastKnownPosition s = None \/
   exists last, lastKnownPosition s = Some last /\
     JS.ge (calculateDistance (latLng last) (latLng (gpsPosition position)))
           (distanceFilter s) = true) ->
  delivered (onPosition s position)
  = delivered s ++ ((fun kv => (kv.2, gpsPosition position)) <$> callbacks s) /\
  lastKnownPosition (onPosition s position) = Some (gpsPosition position) /\
  callbacks (onPosition s position) = callbacks s.
Proof.
  intros [H | (last & H & Hge)]; unfold onPosition; rewrite H.
  - auto.
  - unfold hasSignificantChange. rewrite Hge. auto.
Qed.

Lemma onPosition_drops s position last :
  lastKnownPosition s = Some last ->
  JS.lt (calculateDistance (latLng last) (latLng (gpsPosition position)))
        (distanceFilter s) = true ->
  onPosition s position = s.
Proof.
  intros H Hlt. unfold onPosition, hasSignificantChange. rewrite H.
  now rewrite (lt_not_ge _ _ Hlt).
Qed.

Lemma onPosition_drops_unless_ge s position last :
  lastKnownPosition s = Some last ->
  JS.ge (calculateDistance (latLng last) (latLng (gpsPosition position)))
        (distanceFilter s) = false ->
  onPosition s position = s.
Proof.
  intros H Hge. unfold onPosition, hasSignificantChange. now rewrite H, Hge.
Qed.

(** X15.  A fix reaches every callback once or nobody.  With no position
    known yet, or when the fix lies at least the filter away from the last
    known one, every registered callback is called once with it, in the
    order of registration, and it becomes the last known position.  In
    every other case, that is when the distance is not at least the
    filter, because it is less or because it is NaN, nothing happens: no
    call, and the last known position stays, so that the next fix is again
    measured from the same place. *)
Theorem fix_is_delivered_or_dropped s position :
  let p := gpsPosition position in
  ((lastKnownPosition s = None \/
    exists last, lastKnownPosition s = Some last /\
      JS.ge (calculateDistance (latLng last) (latLng p)) (distanceFilter s) = true) ->
   delivered (onPosition s position)
   = delivered s ++ ((fun kv => (kv.2, p)) <$> callbacks s) /\
   lastKnownPosition (onPosition s position) = Some p /\
   callbacks (onPosition s position) = callbacks s) /\
  (forall last,
     lastKnownPosition s = Some last ->
     JS.lt (calculateDistance (latLng last) (latLng p)) (distanceFilter s) = true ->
     onPosition s position = s) /\
  (forall last,
     lastKnownPosition s = Some last ->
     JS.ge (calculateDistance (latLng last) (latLng p)) (distanceFilter s) = false ->
     onPosition s position = s) /\
  (forall last,
     lastKnownPosition s = Some last ->
     calculateDistance (latLng last) (latLng p) = NaN \/ distanceFilter s = NaN ->
     onPosition s position = s).
Proof.
  cbv zeta. split; [|split; [|split]].
  - apply onPosition_delivers.
  - intros last. apply onPosition_drops.
  - intros last. apply onPosition_drops_unless_ge.
  - intros last H Hnan. apply (onPosition_drops_unless_ge s position last H).
    destruct Hnan as [-> | ->]; unfold JS.ge, SFleb.
    + now destruct (distanceFilter s).
    + now destruct (calculateDistance _ _).
Qed.

Lemma map_set_nonempty k v m : map_set k v m <> [].
Proof.
  destruct m as [|[k' v'] m]; simpl; [discriminate|].
  now destruct (String.eqb k' k).
Qed.

Lemma filter_single_watch (ws : list (nat * PositionOptions)) w :
  ws.*1 = [w] -> List.filter (fun w' => negb (Nat.eqb w'.1 w)) ws = [].
Proof.
  destruct ws as [|[w1 o1] [|? ?]]; try discriminate.
  simpl. intros [= ->]. now rewrite Nat.eqb_refl.
Qed.

(** Stopping everything leaves a consistent state, whatever the callbacks
    were, provided the watch and the flag agreed. *)
Lemma stopAllTracking_consistent s :
  (isTracking s = true -> exists w, watchId s = Some w /\ (watches s).*1 = [w]) ->
  (isTracking s = false -> watchId s = None /\ watches s = []) ->
  consistent (stopAllTracking s).
Proof.
  intros Hon Hoff. unfold stopAllTracking, consistent.
  destruct (watchId s) as [w|] eqn:Hw; cbn.
  - split; [split; [discriminate | congruence]|].
    split; [discriminate|]. split; [|discriminate].
    intros _. split; [reflexivity|].
    destruct (isTracking s) eqn:Ht.
    + destruct (Hon eq_refl) as (w' & Hw' & Hws).
      injection Hw' as <-. now apply filter_single_watch.
    + destruct (Hoff eq_refl) as [Hnone _]. discriminate.
  - split; [split; [discriminate | congruence]|].
    split; [discriminate|]. split; [|discriminate].
    intros _. split; [exact Hw|].
    destruct (isTracking s) eqn:Ht.
    + destruct (Hon eq_refl) as (w' & Hw' & _). discriminate.
    + now destruct (Hoff eq_refl).
Qed.

Lemma step_consistent s ev : consistent s -> consistent (step s ev).
Proof.
  intros Hs. pose proof Hs as (Hcb & Hon & Hoff & Hsup).
  destruct ev as [id cb o|id| |w pos|pos]; simpl.
  - unfold startTracking. destruct (isSupported s) eqn:Hsupp; [|exact Hs].
    cbn [negb]. cbn. destruct (isTracking s) eqn:Ht; cbn.
    + unfold consistent. cbn. try rewrite Ht.
      split; [split; [intros _; apply map_set_nonempty | reflexivity]|].
      split; [intros _; now apply Hon|]. split; [discriminate|].
      intros _. exact Hsupp.
    + unfold consistent. cbn. destruct (Hoff eq_refl) as [_ Hws]. rewrite Hws.
      split; [split; [intros _; apply map_set_nonempty | reflexivity]|].
      split; [intros _; eexists; split; reflexivity|].
      split; [discriminate|]. intros _. exact Hsupp.
  - unfold stopTracking. cbn.
    destruct ((length (map_delete id (callbacks s)) =? 0)%nat) eqn:El;
      destruct (isTracking s) eqn:Ht; cbn.
    + apply stopAllTracking_consistent; cbn; try rewrite Ht; [exact Hon | discriminate].
    + apply Nat.eqb_eq in El. apply length_zero_iff_nil in El.
      unfold consistent. cbn. try rewrite Ht. try rewrite El.
      split; [split; [discriminate | congruence]|].
      split; [discriminate|]. split; [exact Hoff | discriminate].
    + apply Nat.eqb_neq in El.
      unfold consistent. cbn. try rewrite Ht.
      split; [split; [|reflexivity]|].
      * intros _ Hnil. rewrite Hnil in El. now apply El.
      * split; [exact Hon|]. split; [discriminate | exact Hsup].
    + exfalso. apply Nat.eqb_neq in El.
      destruct (callbacks s) as [|kv m] eqn:Ecb; [now apply El|].
      assert (Hne : kv :: m <> []) by discriminate.
      apply Hcb in Hne. discriminate.
  - apply stopAllTracking_consistent; assumption.
  - destruct (bool_decide _); [|exact Hs]. unfold onPosition.
    now destruct (match lastKnownPosition s with
                  | Some last => hasSignificantChange s (Some last) (gpsPosition pos)
                  | None => true
                  end).
  - now destruct (isSupported s).
Qed.

(** X16.  The service holds a watch exactly while it tracks, and tracks
    exactly while it has callbacks.  From a state where this is so, as it
    is after construction, every course of events leads to one where it is
    so again: tracking and having callbacks go together, a tracking service
    holds exactly one watch, the one it remembers, and a service that does
    not track holds none. *)
Theorem watch_follows_tracking evs : forall s,
  consistent s -> consistent (run s evs).
Proof.
  induction evs as [|ev evs IH]; intros s Hs; [exact Hs|].
  change (run s (ev :: evs)) with (run (step s ev) evs).
  apply IH. now apply step_consistent.
Qed.

Lemma constructor_consistent geolocation options :
  consistent (constructor geolocation options).
Proof.
  unfold consistent. cbn.
  split; [split; [discriminate | congruence]|].
  split; [discriminate|]. split; [auto | discriminate].
Qed.

Lemma step_keeps_position s ev :
  is_Some (lastKnownPosition s) -> is_Some (lastKnownPosition (step s ev)).
Proof.
  intros H. destruct ev as [id cb o|id| |w pos|pos]; simpl.
  - unfold startTracking. destruct (negb (isSupported s)); [exact H|]. cbn.
    now destruct (negb (isTracking s)).
  - unfold stopTracking. cbn.
    destruct ((length (map_delete id (callbacks s)) =? 0)%nat && isTracking s);
      [|exact H].
    unfold stopAllTracking. cbn. now destruct (watchId s).
  - unfold stopAllTracking. now destruct (watchId s).
  - destruct (bool_decide _); [|exact H]. unfold onPosition.
    destruct (match lastKnownPosition s with
              | Some last => hasSignificantChange s (Some last) (gpsPosition pos)
              | None => true
              end); [cbn; eauto | exact H].
  - destruct (isSupported s); [cbn; eauto | exact H].
Qed.

Lemma run_no_fix evs : forall s,
  forallb no_fix evs = true ->
  lastKnownPosition (run s evs) = lastKnownPosition s.
Proof.
  induction evs as [|ev evs IH]; intros s H; [reflexivity|].
  change (run s (ev :: evs)) with (run (step s ev) evs).
  cbn [forallb] in H. apply andb_true_iff in H as [Hev Hevs].
  rewrite (IH _ Hevs).
  destruct ev as [id cb o|id| |w pos|pos]; try discriminate Hev; simpl.
  - destruct (startTracking s id cb o) as [s'|] eqn:E; [|reflexivity].
    apply (startTracking_keeps _ _ _ _ _ E).
  - apply stopTracking_keeps.
  - apply stopAllTracking_keeps.
Qed.

(** X17.  The last known position is never forgotten, not even when all
    tracking stops.  Once a position is known, one is known after every
    course of events; [stopAllTracking], [stopTracking] and [startTracking]
    leave the position as it is, and so does every course of events
    without a fix.  The first fix after tracking starts again is therefore
    measured against the position known before the stop: when it lies
    less than the filter away from that position it is dropped, and the
    callback just registered is not called. *)
Theorem last_position_outlives_stop :
  (forall evs s,
     is_Some (lastKnownPosition s) -> is_Some (lastKnownPosition (run s evs))) /\
  (forall s, lastKnownPosition (stopAllTracking s) = lastKnownPosition s) /\
  (forall s id, lastKnownPosition (stopTracking s id) = lastKnownPosition s) /\
  (forall s id callback options s',
     startTracking s id callback options = Some s' ->
     lastKnownPosition s' = lastKnownPosition s) /\
  (forall evs s,
     forallb no_fix evs = true ->
     lastKnownPosition (run s evs) = lastKnownPosition s) /\
  (forall s last stops id callback options restarted position,
     lastKnownPosition s = Some last ->
     forallb no_fix stops = true ->
     startTracking (run s stops) id callback options = Some restarted ->
     JS.lt (calculateDistance (latLng last) (latLng (gpsPosition position)))
           (distanceFilter s) = true ->
     lastKnownPosition restarted = Some last /\
     onPosition restarted position = restarted /\
     delivered (onPosition restarted position) = delivered restarted).
Proof.
  split; [|split; [|split; [|split; [|split]]]].
  - induction evs as [|ev evs IH]; intros s Hs; [exact Hs|].
    change (run s (ev :: evs)) with (run (step s ev) evs).
    apply IH. now apply step_keeps_position.
  - intros s. apply stopAllTracking_keeps.
  - intros s id. apply stopTracking_keeps.
  - intros s id cb o s' H. apply (startTracking_keeps _ _ _ _ _ H).
  - intros evs s. apply run_no_fix.
  - intros s last stops id cb o restarted position Hlast Hstops Hstart Hlt.
    destruct (startTracking_keeps _ _ _ _ _ Hstart) as [Hf Hp].
    rewrite (run_no_fix stops s Hstops), Hlast in Hp.
    rewrite run_distanceFilter in Hf.
    assert (Hdrop : onPosition restarted position = restarted).
    { apply (onPosition_drops restarted position last Hp). now rewrite Hf. }
    split; [exact Hp|]. split; [exact Hdrop|]. now rewrite Hdrop.
Qed.

Lemma map_set_keys k v m :
  (map_set k v m).*1 = if bool_decide (k ∈ m.*1) then m.*1 else m.*1 ++ [k].
Proof.
  induction m as [|[k' v'] m IH]; [reflexivity|].
  cbn [map_set]. destruct (String.eqb k' k) eqn:E.
  - apply String.eqb_eq in E. subst k'. rewrite !fmap_cons. cbn [fst].
    rewrite bool_decide_eq_true_2 by (apply elem_of_cons; now left).
    reflexivity.
  - apply String.eqb_neq in E. rewrite !fmap_cons. cbn [fst]. rewrite IH.
    destruct (bool_decide (k ∈ m.*1)) eqn:Ek.
    + apply bool_decide_eq_true in Ek.
      rewrite bool_decide_eq_true_2 by (apply elem_of_cons; now right).
      reflexivity.
    + apply bool_decide_eq_false in Ek.
      rewrite bool_decide_eq_false_2; [reflexivity|].
      intros H. apply elem_of_cons in H as [H | H]; [congruence | contradiction].
Qed.

Lemma map_set_lookup k v m :
  NoDup m.*1 -> (k, v) ∈ map_set k v m /\
                (forall v', (k, v') ∈ map_set k v m -> v' = v).
Proof.
  induction m as [|[k' v'] m IH]; intros Hnd.
  - cbn [map_set]. split; [apply list_elem_of_singleton; reflexivity|].
    intros v' H. apply list_elem_of_singleton in H. congruence.
  - rewrite fmap_cons in Hnd. cbn [fst] in Hnd.
    apply NoDup_cons in Hnd as [Hk' Hnd].
    cbn [map_set]. destruct (String.eqb k' k) eqn:E.
    + apply String.eqb_eq in E. subst k'.
      split; [apply elem_of_cons; now left|].
      intros v'' H. apply elem_of_cons in H as [H | H]; [congruence|].
      exfalso. apply Hk'. apply list_elem_of_fmap. now exists (k, v'').
    + apply String.eqb_neq in E. destruct (IH Hnd) as [Hin Huniq].
      split; [apply elem_of_cons; now right|].
      intros v'' H. apply elem_of_cons in H as [H | H]; [congruence|].
      now apply Huniq.
Qed.

Lemma startTracking_callbacks s id cb o s' :
  startTracking s id cb o = Some s' ->
  callbacks s' = map_set id cb (callbacks s).
Proof.
  unfold startTracking. destruct (negb (isSupported s)); [discriminate|]. cbn.
  destruct (negb (isTracking s)); now intros [= <-].
Qed.

Lemma map_delete_gone k (m : list (string * Callback)) v :
  (k, v) ∉ map_delete k m.
Proof.
  unfold map_delete. rewrite list_elem_of_In, filter_In. cbn [fst].
  rewrite String.eqb_refl. now intros [_ ?].
Qed.

(** X18.  A tracked item has one callback.  Tracking an item that is
    tracked already puts the new callback in the place of the old one,
    without changing the order in which items are called; the ids stay
    distinct, so a fix calls one callback per item, the one given last.
    After [stopTracking] the item has no callback. *)
Theorem tracked_item_has_one_callback s id first second o1 o2 s1 s2 :
  NoDup (callbacks s).*1 ->
  startTracking s id first o1 = Some s1 ->
  startTracking s1 id second o2 = Some s2 ->
  NoDup (callbacks s2).*1 /\
  (callbacks s2).*1 = (callbacks s1).*1 /\
  (id, second) ∈ callbacks s2 /\
  (forall callback, (id, callback) ∈ callbacks s2 -> callback = second) /\
  (forall callback, (id, callback) ∉ callbacks (stopTracking s2 id)).
Proof.
  intros Hnd H1 H2.
  apply startTracking_callbacks in H1, H2.
  assert (Hnd_set : forall k v m, NoDup m.*1 -> NoDup (map_set k v m).*1).
  { intros k v m Hm. rewrite map_set_keys.
    destruct (bool_decide (k ∈ m.*1)) eqn:E; [assumption|].
    apply bool_decide_eq_false in E. apply NoDup_app. split; [assumption|].
    split; [|apply NoDup_singleton].
    intros x Hx Hk. apply list_elem_of_singleton in Hk. subst x. contradiction. }
  assert (Hnd1 : NoDup (callbacks s1).*1) by (rewrite H1; now apply Hnd_set).
  assert (Hin1 : id ∈ (callbacks s1).*1).
  { apply list_elem_of_fmap. exists (id, first). split; [reflexivity|].
    rewrite H1. now apply map_set_lookup. }
  split; [rewrite H2; now apply Hnd_set|].
  split.
  { rewrite H2, map_set_keys. now rewrite bool_decide_eq_true_2. }
  destruct (map_set_lookup id second (callbacks s1) Hnd1) as [Hin Huniq].
  rewrite H2. split; [assumption|]. split; [assumption|].
  intros callback. unfold stopTracking. cbn.
  destruct ((length (map_delete id (callbacks s2)) =? 0)%nat && isTracking s2).
  - unfold stopAllTracking. cbn. destruct (watchId s2); cbn; apply not_elem_of_nil.
  - cbn. apply map_delete_gone.
Qed.

End WatchFacts.

(** ** More on mobile tracking requests *)

Section MobileFacts.

Import JS MobileTrackingService Prefixes.

Lemma includes_police_admin r :
  includes ["POLICE"; "ADMIN"] r = true <-> r = "POLICE" \/ r = "ADMIN".
Proof.
  unfold includes. rewrite bool_decide_eq_true.
  rewrite elem_of_cons, list_elem_of_singleton. reflexivity.
Qed.

(** X19.  Who is authorised.  A request is authorised exactly when its
    officer exists, is active and is POLICE or ADMIN, and its type is
    LOST_DEVICE, or EMERGENCY with an emergency code, COURT_ORDER with a
    court order number or CONSENT with a consent token; any other type is
    refused.  A request that is not authorised fails as unauthorised and
    leaves the database as it was. *)
Theorem authorisation_is_by_officer_and_type db request :
  (validateTrackingRequest db request = true <->
   (exists officer,
       users db !! officerId request = Some officer /\
       user_isActive officer = true /\
       (role officer = "POLICE" \/ role officer = "ADMIN")) /\
   (requestType request = "LOST_DEVICE" \/
    (requestType request = "EMERGENCY" /\ emergencyCode request <> None) \/
    (requestType request = "COURT_ORDER" /\ courtOrderNumber request <> None) \/
    (requestType request = "CONSENT" /\ consentToken request <> None))) /\
  (forall cfg env,
     validateTrackingRequest db request = false ->
     trackMobileNumber cfg db request env
     = (db, failed "Unauthorized tracking request")).
Proof.
  split; [|intros cfg env; apply unauthorized_result].
  unfold validateTrackingRequest.
  destruct (users db !! officerId request) as [officer|].
  2:{ split; [discriminate | intros [(o & H & _) _]; discriminate]. }
  destruct (user_isActive officer) eqn:Ha; cbn [negb].
  2:{ split; [discriminate | intros [(o & [= <-] & H & _) _]; congruence]. }
  destruct (includes ["POLICE"; "ADMIN"] (role officer)) eqn:Hr; cbn [negb].
  2:{ split; [discriminate|]. intros [(o & [= <-] & _ & H) _].
      apply includes_police_admin in H. congruence. }
  apply includes_police_admin in Hr.
  assert (Hoff : exists o, Some officer = Some o /\ user_isActive o = true /\
                           (role o = "POLICE" \/ role o = "ADMIN")) by eauto.
  destruct (String.eqb (requestType request) "EMERGENCY") eqn:E1.
  { apply String.eqb_eq in E1. rewrite bool_decide_eq_true.
    split; [intros H; split; [exact Hoff | right; left; auto]|].
    intros [_ [H|[[_ H]|[[H _]|[H _]]]]]; try assumption; congruence. }
  destruct (String.eqb (requestType request) "COURT_ORDER") eqn:E2.
  { apply String.eqb_eq in E2. rewrite bool_decide_eq_true.
    split; [intros H; split; [exact Hoff | right; right; left; auto]|].
    intros [_ [H|[[H _]|[[_ H]|[H _]]]]]; try assumption; congruence. }
  destruct (String.eqb (requestType request) "CONSENT") eqn:E3.
  { apply String.eqb_eq in E3. rewrite bool_decide_eq_true.
    split; [intros H; split; [exact Hoff | right; right; right; auto]|].
    intros [_ [H|[[H _]|[[H _]|[_ H]]]]]; try assumption; congruence. }
  destruct (String.eqb (requestType request) "LOST_DEVICE") eqn:E4.
  { apply String.eqb_eq in E4. split; [intros _; split; [exact Hoff | now left]|].
    reflexivity. }
  apply String.eqb_neq in E1, E2, E3, E4.
  split; [discriminate|].
  intros [_ [H|[[H _]|[[H _]|[H _]]]]]; congruence.
Qed.

Lemma digit_not_plus d s : String.prefix "+254" (String (digit d) s) = false.
Proof.
  destruct d as [|p|p]; [reflexivity| |reflexivity].
  do 4 (destruct p as [p|p|]; try reflexivity).
Qed.

Lemma remove_first_digit d s :
  remove_first "+254" (String (digit d) s)
  = String (digit d) (remove_first "+254" s).
Proof.
  change (remove_first "+254" (String (digit d) s))
    with (if String.prefix "+254" (String (digit d) s)
          then substring 4 (String.length (String (digit d) s) - 4)
                         (String (digit d) s)
          else String (digit d) (remove_first "+254" s)).
  now rewrite digit_not_plus.
Qed.

Lemma substring_all s : substring 0 (String.length s) s = s.
Proof. induction s as [|c s IH]; [reflexivity|]. cbn. now rewrite IH. Qed.

Lemma remove_first_here s : remove_first "+254" ("+254" +:+ s) = s.
Proof.
  change (remove_first "+254" ("+254" +:+ s))
    with (if String.prefix "+254" ("+254" +:+ s)
          then substring 4 (String.length ("+254" +:+ s) - 4) ("+254" +:+ s)
          else String "+" (remove_first "+254" ("254" +:+ s))).
  change (String.prefix "+254" ("+254" +:+ s)) with (String.prefix "" s).
  replace (String.prefix "" s) with true by now destruct s.
  change (substring 4 (String.length ("+254" +:+ s) - 4) ("+254" +:+ s))
    with (substring 0 (String.length s - 0) s).
  rewrite Nat.sub_0_r. apply substring_all.
Qed.

Lemma table_agrees_below_1000 :
  Enumerate.below 1000 table_agrees = true.
Proof. vm_compute. reflexivity. Qed.

(** X20.  The carrier of a number.  The carrier depends on the three
    digits that open the number, after "+254" when the number starts with
    it: 701 to 729 is Safaricom, 730 to 739 and 750 to 759 Airtel, 770 to
    779 Telkom, and every other prefix, 700 and 740 to 749 among them, is
    unknown. *)
Theorem carrier_is_read_from_the_prefix n rest :
  0 <= n < 1000 ->
  identifyNetwork (three_digits n +:+ rest) = carrier n /\
  identifyNetwork ("+254" +:+ (three_digits n +:+ rest)) = carrier n.
Proof.
  intros Hn.
  assert (Htab : identifyNetwork (three_digits n) = carrier n).
  { apply String.eqb_eq.
    exact (below_spec 1000 table_agrees n table_agrees_below_1000 Hn). }
  assert (Hpre : forall t,
            substring 0 3 (remove_first "+254" (three_digits n +:+ t))
            = three_digits n).
  { intros t. unfold three_digits.
    change (String (digit (n / 100))
              (String (digit (n / 10 mod 10))
                 (String (digit (n mod 10)) EmptyString)) +:+ t)
      with (String (digit (n / 100))
              (String (digit (n / 10 mod 10)) (String (digit (n mod 10)) t))).
    rewrite !remove_first_digit. now destruct (remove_first "+254" t). }
  assert (H0 : substring 0 3 (remove_first "+254" (three_digits n))
               = three_digits n).
  { pose proof (Hpre EmptyString) as H.
    now change (three_digits n +:+ "") with (three_digits n) in H. }
  assert (Hsame : forall t,
            identifyNetwork (three_digits n +:+ t) = identifyNetwork (three_digits n)).
  { intros t. unfold identifyNetwork. now rewrite (Hpre t), H0. }
  split.
  - now rewrite Hsame.
  - assert (Hsub : substring 0 3 (three_digits n +:+ rest) = three_digits n).
    { unfold three_digits.
      change (String (digit (n / 100))
                (String (digit (n / 10 mod 10))
                   (String (digit (n mod 10)) EmptyString)) +:+ rest)
        with (String (digit (n / 100))
                (String (digit (n / 10 mod 10)) (String (digit (n mod 10)) rest))).
      now destruct rest. }
    rewrite <- Htab, <- (Hsame rest). unfold identifyNetwork.
    now rewrite remove_first_here, Hsub, (Hpre rest).
Qed.

(** The location a carrier that is configured answers with. *)
Lemma known_carrier_run cfg db request env network :
  validateTrackingRequest db request = true ->
  identifyNetwork (mobileNumber request) = network ->
  network <> "UNKNOWN" ->
  let id := new_request_id env in
  let lid := new_location_id env in
  let l :=
    {| tl_latitude := (generateMockLocation env).1.1;
       tl_longitude := (generateMockLocation env).1.2;
       tl_accuracy := (generateMockLocation env).2;
       tl_address := None; tl_network := network; tl_timestamp := now env |} in
  let row :=
    {| lr_latitude := tl_latitude l; lr_longitude := tl_longitude l;
       lr_accuracy := tl_accuracy l;
       lr_address := reverseGeocode env (tl_latitude l) (tl_longitude l);
       lr_source := "NETWORK" |} in
  let message := label network +:+ " API not configured" in
  trackMobileNumber cfg db request env
  = if configured (apiKey cfg network) then
      let data :=
        {| o_success := true; o_network := network;
           o_accuracy := Some (tl_accuracy l); o_error := None;
           o_locationId := Some lid |} in
      ({| users := users db;
          requests :=
            <[id := {| row_request := request; row_outcome := Some data |}]>
              (<[id := {| row_request := request; row_outcome := None |}]>
                 (requests db));
          locations := <[lid := row]> (locations db);
          journal :=
            ((journal db ++ [CreateRequest id]) ++ [CreateLocation lid])
            ++ [UpdateRequest id data] |},
       {| success := true; result_location := Some l; error := None;
          requestId := id |})
    else
      let data :=
        {| o_success := false; o_network := network; o_accuracy := None;
           o_error := Some message; o_locationId := None |} in
      ({| users := users db;
          requests :=
            <[id := {| row_request := request; row_outcome := Some data |}]>
              (<[id := {| row_request := request; row_outcome := None |}]>
                 (requests db));
          locations := locations db;
          journal := (journal db ++ [CreateRequest id]) ++ [UpdateRequest id data] |},
       {| success := false; result_location := None; error := Some message;
          requestId := id |}).
Proof.
  intros Hv Hn Hk. cbv zeta. unfold trackMobileNumber. rewrite Hv.
  subst network. cbn [negb].
  destruct (identifyNetwork_cases (mobileNumber request)) as [E|[E|[E|E]]];
    [| | |contradiction]; rewrite !E;
    cbn [String.eqb Ascii.eqb Bool.eqb apiKey label];
    unfold trackWithSafaricom, trackWithAirtel, trackWithTelkom, trackWith;
    match goal with |- context [configured ?k] => destruct (configured k) end;
    cbn [negb result_location success error generateMockLocation saveLocation
         fst snd tl_latitude tl_longitude tl_accuracy create_location
         create_request];
    unfold update_request, create_location, create_request;
    cbn [requests users locations journal];
    rewrite lookup_insert_eq; reflexivity.
Qed.

(** X21.  What a known carrier answers is what is recorded.  For an
    authorised request to a known carrier the result carries the id of the
    row.  When the key of the carrier is not configured, the failure with
    the message of the carrier is both returned and written to the row, and
    no location is saved.  When it is configured, the request succeeds, the
    location is saved with source NETWORK and the address the geocoder
    found, and the row points to it. *)
Theorem carrier_answer_is_recorded cfg db request env network :
  validateTrackingRequest db request = true ->
  identifyNetwork (mobileNumber request) = network ->
  network <> "UNKNOWN" ->
  let r := trackMobileNumber cfg db request env in
  let id := new_request_id env in
  let lid := new_location_id env in
  requestId r.2 = id /\
  (configured (apiKey cfg network) = false ->
   success r.2 = false /\
   error r.2 = Some (label network +:+ " API not configured") /\
   result_location r.2 = None /\
   locations r.1 = locations db /\
   exists data,
     journal r.1 = journal db ++ [CreateRequest id; UpdateRequest id data] /\
     row_outcome <$> requests r.1 !! id = Some (Some data) /\
     o_success data = false /\ o_error data = error r.2 /\
     o_locationId data = None) /\
  (configured (apiKey cfg network) = true ->
   success r.2 = true /\ error r.2 = None /\
   exists l data,
     result_location r.2 = Some l /\ tl_network l = network /\
     locations r.1 !! lid
     = Some {| lr_latitude := tl_latitude l; lr_longitude := tl_longitude l;
               lr_accuracy := tl_accuracy l;
               lr_address := reverseGeocode env (tl_latitude l) (tl_longitude l);
               lr_source := "NETWORK" |} /\
     journal r.1
     = journal db ++ [CreateRequest id; CreateLocation lid; UpdateRequest id data] /\
     row_outcome <$> requests r.1 !! id = Some (Some data) /\
     o_success data = true /\ o_locationId data = Some lid /\
     o_accuracy data = Some (tl_accuracy l)).
Proof.
  intros Hv Hn Hk. cbv zeta.
  rewrite (known_carrier_run cfg db request env network Hv Hn Hk). cbv zeta.
  destruct (configured (apiKey cfg network)); cbn [fst snd requestId].
  - split; [reflexivity|]. split; [discriminate|]. intros _.
    cbn [success error]. split; [reflexivity|]. split; [reflexivity|].
    eexists _, _. cbn [result_location tl_network locations requests journal].
    rewrite !lookup_insert_eq. rewrite <- !app_assoc.
    repeat (split; [reflexivity|]). reflexivity.
  - split; [reflexivity|]. split; [|discriminate]. intros _.
    cbn [success error result_location locations requests journal].
    repeat (split; [reflexivity|]).
    eexists. rewrite lookup_insert_eq, <- app_assoc.
    repeat (split; [reflexivity|]). reflexivity.
Qed.

(** X22.  Every result is well formed and the journal only grows.  Whatever
    the request, the result succeeds exactly when it carries a location and
    fails exactly when it carries an error; a success carries the id of its
    row.  The users are never touched, what was in the journal stays at
    its head, and at most three writes are added. *)
Theorem result_is_well_formed cfg db request env :
  let r := trackMobileNumber cfg db request env in
  (success r.2 = true <-> is_Some (result_location r.2)) /\
  (success r.2 = false <-> is_Some (error r.2)) /\
  (success r.2 = true -> requestId r.2 = new_request_id env) /\
  users r.1 = users db /\
  exists added, journal r.1 = journal db ++ added /\ (length added <= 3)%nat.
Proof.
  cbv zeta.
  destruct (validateTrackingRequest db request) eqn:Hv.
  2:{ rewrite unauthorized_result by assumption. cbn.
      split; [split; [discriminate | intros [? H]; discriminate]|].
      split; [split; eauto|]. split; [discriminate|]. split; [reflexivity|].
      exists []. rewrite app_nil_r. split; [reflexivity | simpl; lia]. }
  destruct (String.eqb (identifyNetwork (mobileNumber request)) "UNKNOWN") eqn:Hn.
  - apply String.eqb_eq in Hn.
    destruct (unknown_network_writes_no_outcome cfg db request env Hv Hn)
      as (Hj & _ & _ & Hr).
    rewrite Hr, Hj. cbn.
    split; [split; [discriminate | intros [? H]; discriminate]|].
    split; [split; eauto|]. split; [discriminate|].
    split; [|eexists; split; [reflexivity | simpl; lia]].
    unfold trackMobileNumber. rewrite Hv, Hn. reflexivity.
  - apply String.eqb_neq in Hn.
    rewrite (known_carrier_run cfg db request env _ Hv eq_refl Hn). cbv zeta.
    destruct (configured _); cbn [fst snd success result_location error
                                   requestId users journal].
    + split; [split; eauto|].
      split; [split; [discriminate | intros [? H]; discriminate]|].
      split; [reflexivity|]. split; [reflexivity|].
      eexists. rewrite <- !app_assoc. split; [reflexivity | simpl; lia].
    + split; [split; [discriminate | intros [? H]; discriminate]|].
      split; [split; eauto|].
      split; [discriminate|]. split; [reflexivity|].
      eexists. rewrite <- !app_assoc. split; [reflexivity | simpl; lia].
Qed.

End MobileFacts.

(** ** The hook between the watch and the tracking service *)

Section HookFacts.

Import JS GPSService TrackingService GPSWatch TrackingHook.

Context {M : Math}.

(** X23.  A fix of the browser reaches the histories through the filter of
    the watch only.  A fix less than the filter away from the last known
    position changes neither service.  A fix that passes is handed to the
    callback of every hook in turn, and each stores it as an update of its
    item whatever the position of the item: with one hook, on an item the
    service holds, the history of the item grows by one update that has
    the coordinates, accuracy and time of the fix. *)
Theorem fix_reaches_history_through_filter s st hooks position :
  let p := gpsPosition position in
  (forall last,
     lastKnownPosition s = Some last ->
     JS.lt (calculateDistance (latLng last) (latLng p)) (distanceFilter s) = true ->
     watchFix s st hooks position = (s, st)) /\
  ((lastKnownPosition s = None \/
    exists last, lastKnownPosition s = Some last /\
      JS.ge (calculateDistance (latLng last) (latLng p)) (distanceFilter s) = true) ->
   (watchFix s st hooks position).2
   = fold_left
       (fun st call =>
          match hooks call.1 with
          | Some h => onGpsPosition st (hook_item h) call.2 (hook_now h) (hook_clock h)
          | None => st
          end)
       ((fun kv => (kv.2, p)) <$> callbacks s) st /\
   forall id cb h,
     callbacks s = [(id, cb)] ->
     hooks cb = Some h ->
     match kind (hook_item h) with
     | device => ADevice <$> devices st !! item_id (hook_item h)
     | vehicle => AVehicle <$> vehicles st !! item_id (hook_item h)
     end <> None ->
     exists u,
       getTrackingHistory (watchFix s st hooks position).2 (item_id (hook_item h))
       = getTrackingHistory st (item_id (hook_item h)) ++ [u] /\
       (latitude (location u), longitude (location u), accuracy (location u),
        loc_timestamp (location u), loc_source (location u))
       = (c_latitude position, c_longitude position, Some (c_accuracy position),
          g_timestamp position, gps)).
Proof.
  cbv zeta. split.
  - intros last Hl Hlt. unfold watchFix.
    rewrite (onPosition_drops s position last Hl Hlt).
    now rewrite drop_all.
  - intros Hsig.
    destruct (onPosition_delivers s position Hsig) as (Hd & _ & _).
    assert (Hfold : (watchFix s st hooks position).2
              = fold_left
                  (fun st call =>
                     match hooks call.1 with
                     | Some h =>
                         onGpsPosition st (hook_item h) call.2 (hook_now h)
                                       (hook_clock h)
                     | None => st
                     end)
                  ((fun kv => (kv.2, gpsPosition position)) <$> callbacks s) st).
    { unfold watchFix. cbn [snd]. now rewrite Hd, drop_app_length. }
    split; [exact Hfold|].
    intros id cb h Hcb Hh Hitem. rewrite Hfold, Hcb. cbn. rewrite Hh.
    unfold onGpsPosition.
    destruct (match kind (hook_item h) with
              | device => ADevice <$> devices st !! item_id (hook_item h)
              | vehicle => AVehicle <$> vehicles st !! item_id (hook_item h)
              end) as [item|] eqn:E; [|contradiction].
    destruct (manual_history st (item_id (hook_item h))
                (gpsLocation (gpsPosition position) (hook_now h))
                (kind (hook_item h)) (hook_clock h) item E)
      as (u & _ & Hloc & Hhist).
    exists u. split; [exact Hhist|]. now rewrite Hloc.
Qed.

End HookFacts.

(** ** Edges of item updates and of the watch *)

Section EdgeFacts.

Import JS GPSService TrackingService Observe TrackingItems GPSWatch.

Context {M : Math}.

(** X25.  An update may change the id of a device but not the key it is
    kept under.  After [updateDevice] with another id in the update, the
    device is still found under the old key; a stored sample of the timer
    of that key is then filed under the new id: the update carries the new
    id and is the newest entry of the history of the new id, while the
    history under the old key stays as it was. *)
Theorem patched_id_moves_the_history st id other updates d env st' u :
  devices st !! id = Some d ->
  dp_id updates = Some other ->
  other <> id ->
  updateItemLocationRealTime (updateDevice st id updates).1 id env
  = (st', Some u) ->
  d_id <$> getDevice (updateDevice st id updates).1 id = Some other /\
  itemId u = other /\
  last (getTrackingHistory st' other) = Some u /\
  getTrackingHistory st' id = getTrackingHistory st id.
Proof.
  intros Hd Hp Hne E.
  assert (Hdev : devices (updateDevice st id updates).1 !! id
                 = Some (patch_device d updates)).
  { unfold updateDevice. rewrite Hd. cbn [fst].
    destruct (bool_decide (d_status (patch_device d updates) = lost)
              && d_isActive (patch_device d updates)).
    - rewrite (proj1 (enable_frame _ id)). cbn. apply lookup_insert_eq.
    - rewrite (proj1 (disable_frame _ id)). cbn. apply lookup_insert_eq. }
  assert (Hupd : trackingUpdates (updateDevice st id updates).1
                 = trackingUpdates st).
  { unfold updateDevice. rewrite Hd. cbn [fst].
    destruct (bool_decide (d_status (patch_device d updates) = lost)
              && d_isActive (patch_device d updates)).
    - now rewrite (proj1 (proj2 (proj2 (enable_frame _ id)))).
    - now rewrite (proj2 (proj2 (disable_frame _ id))). }
  assert (Hother : d_id (patch_device d updates) = other)
    by (cbn; now rewrite Hp).
  split; [unfold getDevice; rewrite Hdev; cbn [fmap option_fmap option_map];
          now rewrite Hother|].
  pose proof (timer_history_push _ _ _ _ _ E) as Hpush.
  apply timer_inv in E
    as [[? _] | (item & lastl & u' & [= <-] & Hfind & _ & _ & _ & _ & _ & Hid & ->)];
    [discriminate|].
  unfold find_item in Hfind. rewrite Hdev in Hfind. injection Hfind as <-.
  cbn [item_id] in Hid, Hpush |- *. rewrite Hother in Hid, Hpush |- *.
  split; [exact Hid|]. split.
  - rewrite Hid in Hpush. rewrite Hpush. apply push_capped_last.
  - unfold getTrackingHistory. cbv zeta.
    rewrite notify_updates, with_trackingUpdates_updates.
    rewrite lookup_insert_ne by congruence.
    now rewrite set_currentLocation_updates, Hupd.
Qed.

(** X26.  Without geolocation the service stays idle.  [startTracking]
    throws before it registers the callback, so whatever is asked of a
    service built in a browser without geolocation, it is in the state it
    was built in: no callback, no watch, no position. *)
Theorem unsupported_service_stays_idle options evs :
  run (constructor false options) evs = constructor false options /\
  forall id callback o,
    startTracking (run (constructor false options) evs) id callback o = None.
Proof.
  assert (Hstep : forall ev,
            step (constructor false options) ev = constructor false options).
  { intros [id cb o|id| |w p|p]; reflexivity. }
  assert (Hrun : run (constructor false options) evs = constructor false options).
  { unfold run. induction evs as [|ev evs IH]; [reflexivity|].
    cbn [fold_left]. now rewrite Hstep. }
  split; [exact Hrun|]. intros id cb o. now rewrite Hrun.
Qed.

(** X27.  A one-off position request moves the point the watch measures
    from, and tells no callback.  After the answer to [getCurrentPosition]
    the position is the last known one and no callback was called; a fix
    of the watch that lies less than the filter away from it is then
    dropped, so the callbacks learn of neither. *)
Theorem current_fix_moves_the_reference s asked watched :
  supported s = true ->
  JS.lt (calculateDistance (latLng (gpsPosition asked))
           (latLng (gpsPosition watched))) (distanceFilter s) = true ->
  let s1 := step s (CurrentFix asked) in
  delivered s1 = delivered s /\
  lastKnownPosition s1 = Some (gpsPosition asked) /\
  onPosition s1 watched = s1.
Proof.
  intros Hs Hlt. cbv zeta. cbn [step]. unfold isSupported. rewrite Hs.
  split; [reflexivity|]. split; [reflexivity|].
  now apply (onPosition_drops _ watched (gpsPosition asked)).
Qed.

End EdgeFacts.

(** ** The properties on the scenarios *)

Section ItemScenarios.

Import JS GPSService TrackingService Observe TrackingItems Scenario ItemScenario.

Lemma start_has_no_history e : getTrackingHistory start e = [].
Proof.
  assert (H : trackingUpdates start = ∅) by (vm_compute; reflexivity).
  unfold getTrackingHistory. now rewrite H, lookup_empty.
Qed.

Lemma timers_are_never_cleared_witness :
  trackingIntervals start = ∅ /\
  trackingIntervals (perform (M:=RefMath.math) start busyDay) = ∅ /\
  exists more,
    timers (perform (M:=RefMath.math) start busyDay) = timers start ++ more.
Proof.
  assert (H : trackingIntervals start = ∅) by (vm_compute; reflexivity).
  split; [exact H|].
  exact (timers_are_never_cleared (M:=RefMath.math) busyDay start H).
Defined.

Lemma reenabling_stacks_a_timer_witness :
  trackingIntervals start = ∅ /\
  timers (enableRealTimeTracking (disableRealTimeTracking start "1") "1")
  = timers start ++ [(S (length (timers start)), "1")].
Proof.
  assert (H : trackingIntervals start = ∅) by (vm_compute; reflexivity).
  split; [exact H|].
  exact (reenabling_stacks_a_timer start "1" H).
Defined.

Lemma updated_device_is_not_moved_witness :
  exists d,
    devices start !! "1" = Some d /\
    d_status (patch_device d markFound) <> lost /\
    let st' := (updateDevice start "1" markFound).1 in
    updateItemLocationRealTime (M:=RefMath.math) st' "1" movingTick = (st', None).
Proof.
  destruct (devices start !! "1") as [d|] eqn:E;
    [|vm_compute in E; discriminate E].
  exists d. split; [reflexivity|].
  assert (H : d_status (patch_device d markFound) <> lost)
    by (simpl; discriminate).
  split; [exact H|].
  exact (updated_device_is_not_moved (M:=RefMath.math) start "1" markFound d
           movingTick E (or_introl H)).
Defined.

Lemma status_lists_split_the_items_witness :
  (length (getItemsByStatus start lost) + length (getItemsByStatus start found)
   + length (getItemsByStatus start returned) = length (getAllItems start))%nat.
Proof.
  exact (proj1 (status_lists_split_the_items start)).
Defined.

Lemma histories_stay_capped_witness :
  forallb no_manual busyDay = true /\
  capped start /\
  capped (perform (M:=RefMath.math) start busyDay).
Proof.
  assert (H : forallb no_manual busyDay = true) by (vm_compute; reflexivity).
  assert (C : capped start)
    by (intros e; rewrite start_has_no_history; simpl; lia).
  split; [exact H|]. split; [exact C|].
  exact (histories_stay_capped (M:=RefMath.math) busyDay start H C).
Defined.

Lemma timer_history_is_fifo_witness :
  exists st' u,
    updateItemLocationRealTime (M:=RefMath.math) start "1" movingTick
    = (st', Some u) /\
    (length (getTrackingHistory start (itemId u)) < 100)%nat /\
    getTrackingHistory st' (itemId u)
    = getTrackingHistory start (itemId u) ++ [u].
Proof.
  destruct (updateItemLocationRealTime (M:=RefMath.math) start "1" movingTick)
    as [st' [u|]] eqn:E; [|exfalso; vm_compute in E; discriminate E].
  exists st', u. split; [reflexivity|].
  assert (H : (length (getTrackingHistory start (itemId u)) < 100)%nat)
    by (rewrite start_has_no_history; simpl; lia).
  split; [exact H|].
  exact (proj1 (timer_history_is_fifo (M:=RefMath.math) start "1" movingTick
                  st' u E) H).
Defined.

Lemma stored_update_is_current_witness :
  exists st' u,
    updateItemLocationRealTime (M:=RefMath.math) start "1" movingTick
    = (st', Some u) /\
    last (getTrackingHistory st' (itemId u)) = Some u /\
    currentLocation <$> find_item st' "1" = Some (Some (location u)).
Proof.
  destruct (updateItemLocationRealTime (M:=RefMath.math) start "1" movingTick)
    as [st' [u|]] eqn:E; [|exfalso; vm_compute in E; discriminate E].
  exists st', u. split; [reflexivity|].
  exact (proj1 (stored_update_is_current (M:=RefMath.math)) start "1" movingTick
           st' u E).
Defined.

Lemma device_shadows_vehicle_witness :
  is_Some (devices start !! "1") /\
  is_Some (vehicles start !! "1") /\
  forallb not_manual timersOnly = true /\
  vehicles (run (M:=RefMath.math) start timersOnly) !! "1"
  = vehicles start !! "1".
Proof.
  assert (Hd : is_Some (devices start !! "1")).
  { destruct (devices start !! "1") eqn:E;
      [eexists; reflexivity | vm_compute in E; discriminate E]. }
  assert (Hv : is_Some (vehicles start !! "1")).
  { destruct (vehicles start !! "1") eqn:E;
      [eexists; reflexivity | vm_compute in E; discriminate E]. }
  assert (H : forallb not_manual timersOnly = true) by (vm_compute; reflexivity).
  split; [exact Hd|]. split; [exact Hv|]. split; [exact H|].
  exact (device_shadows_vehicle (M:=RefMath.math) "1" timersOnly start Hd H).
Defined.

Lemma unsubscribe_undoes_subscribe_witness :
  locationUpdateCallbacks start !! "1" = None /\
  unsubscribeFromLocationUpdates
    (subscribeToLocationUpdates start "1" 7%nat) "1" = start.
Proof.
  assert (H : locationUpdateCallbacks start !! "1" = None)
    by (vm_compute; reflexivity).
  split; [exact H|].
  exact (proj2 (unsubscribe_undoes_subscribe start "1" 7%nat H)).
Defined.

Lemma update_touches_one_item_witness :
  "2" <> "1" /\
  getTrackingHistory
    (updateItemLocation start "1" (newYork 1737363601000) device
       (clock 1737363601000)).1 "2"
  = getTrackingHistory start "2".
Proof.
  assert (H : "2" <> "1") by discriminate.
  split; [exact H|].
  exact (proj1 (proj2 (update_touches_one_item (M:=RefMath.math)))
           start "1" (newYork 1737363601000) device (clock 1737363601000)
           "2" H).
Defined.

Lemma near_items_are_within_distance_witness :
  exists item,
    find_item start "1" = Some item /\
    (In item (getItemsNearLocation (M:=RefMath.math) start (newYork 0) (of_Z 500))
     <-> exists d,
           getDistanceToItem (M:=RefMath.math) start "1" (newYork 0) = Some d /\
           SFleb d (of_Z 500) = true).
Proof.
  destruct (find_item start "1") as [item|] eqn:E;
    [|vm_compute in E; discriminate E].
  exists item. split; [reflexivity|].
  exact (proj1 (near_items_are_within_distance (M:=RefMath.math) start "1" item
                  (newYork 0) (of_Z 500) E)).
Defined.

Lemma patched_id_moves_the_history_witness :
  exists d st' u,
    devices start !! "2" = Some d /\
    dp_id renumber = Some "9" /\
    "9" <> "2" /\
    updateItemLocationRealTime (M:=RefMath.math)
      (updateDevice start "2" renumber).1 "2" movingTick = (st', Some u) /\
    itemId u = "9" /\
    getTrackingHistory st' "2" = getTrackingHistory start "2".
Proof.
  destruct (devices start !! "2") as [d|] eqn:Hd;
    [|vm_compute in Hd; discriminate Hd].
  destruct (updateItemLocationRealTime (M:=RefMath.math)
              (updateDevice start "2" renumber).1 "2" movingTick)
    as [st' [u|]] eqn:E; [|exfalso; vm_compute in E; discriminate E].
  exists d, st', u.
  assert (Hp : dp_id renumber = Some "9") by reflexivity.
  assert (Hne : "9" <> "2") by discriminate.
  split; [reflexivity|]. split; [exact Hp|]. split; [exact Hne|].
  split; [reflexivity|].
  pose proof (patched_id_moves_the_history (M:=RefMath.math) start "2" "9"
                renumber d movingTick st' u Hd Hp Hne E) as H.
  split; [exact (proj1 (proj2 H)) | exact (proj2 (proj2 (proj2 H)))].
Defined.

End ItemScenarios.

Section WatchScenarios.

Import JS GPSService TrackingService GPSWatch TrackingHook Scenario WatchScenario.

Lemma accuracy_description_is_monotone_witness :
  SFleb (of_Z 3) (of_Z 30) = true /\
  (rank (getAccuracyDescription (of_Z 3))
   <= rank (getAccuracyDescription (of_Z 30)))%nat.
Proof.
  assert (H : SFleb (of_Z 3) (of_Z 30) = true) by (vm_compute; reflexivity).
  split; [exact H|].
  exact (accuracy_description_is_monotone (of_Z 3) (of_Z 30) H).
Defined.

Lemma zero_readings_are_dropped_witness :
  c_heading nairobi = Some (S754_zero false) /\
  p_heading (gpsPosition nairobi) = None.
Proof.
  assert (H : c_heading nairobi = Some (S754_zero false))
    by (vm_compute; reflexivity).
  split; [exact H|].
  exact (proj1 (proj2 (proj2 (proj2 (zero_readings_are_dropped nairobi))))
           false H).
Defined.

Lemma distance_filter_is_fixed_witness :
  opt_distanceFilter noFilter = Some (of_Z 0) /\
  distanceFilter (constructor true (Some noFilter)) = of_Z 10.
Proof.
  assert (H : opt_distanceFilter noFilter = Some (of_Z 0)) by reflexivity.
  split; [exact H|].
  exact (proj1 (proj2 (proj2 (distance_filter_is_fixed (M:=RefMath.math))))
           true noFilter false H).
Defined.

Lemma fix_is_delivered_or_dropped_witness :
  let s := run (M:=RefMath.math) (gpsService true)
             [StartTracking "1" 7%nat None; StartTracking "2" 8%nat None] in
  lastKnownPosition s = None /\
  delivered (onPosition (M:=RefMath.math) s nairobi)
  = delivered s ++ ((fun kv => (kv.2, gpsPosition nairobi)) <$> callbacks s).
Proof.
  intros s.
  assert (H : lastKnownPosition s = None) by (vm_compute; reflexivity).
  split; [exact H|].
  exact (proj1 (proj1 (fix_is_delivered_or_dropped (M:=RefMath.math) s nairobi)
                  (or_introl H))).
Defined.

Lemma watch_follows_tracking_witness :
  consistent (gpsService true) /\
  consistent (run (M:=RefMath.math) (gpsService true) session).
Proof.
  assert (H : consistent (gpsService true)).
  { unfold consistent. simpl. split; [split; [discriminate | congruence]|].
    split; [discriminate|]. split; [split; reflexivity | discriminate]. }
  split; [exact H|].
  exact (watch_follows_tracking (M:=RefMath.math) session (gpsService true) H).
Defined.

Lemma last_position_outlives_stop_witness :
  let s := run (M:=RefMath.math) (gpsService true)
             [StartTracking "1" 7%nat None; WatchFix 1 nairobi] in
  let stops := [StopTracking "1"] in
  let restarted :=
    step (M:=RefMath.math) (run (M:=RefMath.math) s stops)
         (StartTracking "1" 9%nat None) in
  lastKnownPosition s = Some (gpsPosition nairobi) /\
  forallb no_fix stops = true /\
  startTracking (run (M:=RefMath.math) s stops) "1" 9%nat None = Some restarted /\
  JS.lt (calculateDistance (M:=RefMath.math) (latLng (gpsPosition nairobi))
           (latLng (gpsPosition nearby))) (distanceFilter s) = true /\
  callbacks restarted = [("1", 9%nat)] /\
  delivered (onPosition (M:=RefMath.math) restarted nearby) = delivered restarted.
Proof.
  intros s stops restarted.
  assert (H1 : lastKnownPosition s = Some (gpsPosition nairobi))
    by (vm_compute; reflexivity).
  assert (H2 : forallb no_fix stops = true) by reflexivity.
  assert (H3 : startTracking (run (M:=RefMath.math) s stops) "1" 9%nat None
               = Some restarted) by (vm_compute; reflexivity).
  assert (H4 : JS.lt (calculateDistance (M:=RefMath.math)
                        (latLng (gpsPosition nairobi))
                        (latLng (gpsPosition nearby))) (distanceFilter s) = true)
    by (vm_compute; reflexivity).
  split; [exact H1|]. split; [exact H2|]. split; [exact H3|]. split; [exact H4|].
  split; [vm_compute; reflexivity|].
  exact (proj2 (proj2
           (proj2 (proj2 (proj2 (proj2 (proj2
              (last_position_outlives_stop (M:=RefMath.math))))))
              s (gpsPosition nairobi) stops "1" 9%nat None restarted nearby
              H1 H2 H3 H4))).
Defined.

Lemma tracked_item_has_one_callback_witness :
  let s := gpsService true in
  let s1 := step (M:=RefMath.math) s (StartTracking "1" 7%nat None) in
  let s2 := step (M:=RefMath.math) s1 (StartTracking "1" 8%nat None) in
  NoDup (callbacks s).*1 /\
  startTracking s "1" 7%nat None = Some s1 /\
  startTracking s1 "1" 8%nat None = Some s2 /\
  forall callback, ("1", callback) ∈ callbacks s2 -> callback = 8%nat.
Proof.
  intros s s1 s2.
  assert (H0 : NoDup (callbacks s).*1) by (simpl; apply NoDup_nil_2).
  assert (H1 : startTracking s "1" 7%nat None = Some s1) by reflexivity.
  assert (H2 : startTracking s1 "1" 8%nat None = Some s2) by reflexivity.
  split; [exact H0|]. split; [exact H1|]. split; [exact H2|].
  exact (proj1 (proj2 (proj2 (proj2
           (tracked_item_has_one_callback s "1" 7%nat 8%nat None None s1 s2
              H0 H1 H2))))).
Defined.

Lemma fix_reaches_history_through_filter_witness :
  let s := run (M:=RefMath.math) (gpsService true) [StartTracking "1" 7%nat None] in
  lastKnownPosition s = None /\
  exists u,
    getTrackingHistory (watchFix (M:=RefMath.math) s start hooks nairobi).2 "1"
    = getTrackingHistory start "1" ++ [u] /\
    (latitude (location u), longitude (location u), accuracy (location u),
     loc_timestamp (location u), loc_source (location u))
    = (c_latitude nairobi, c_longitude nairobi, Some (c_accuracy nairobi),
       g_timestamp nairobi, gps).
Proof.
  intros s.
  assert (H : lastKnownPosition s = None) by (vm_compute; reflexivity).
  split; [exact H|].
  assert (Hc : callbacks s = [("1", 7%nat)]) by (vm_compute; reflexivity).
  assert (Hh : hooks 7%nat = Some hookOfDevice1) by reflexivity.
  assert (Hi : ADevice <$> devices start !! "1" <> None)
    by (vm_compute; discriminate).
  exact (proj2 (proj2 (fix_reaches_history_through_filter (M:=RefMath.math)
                         s start hooks nairobi) (or_introl H))
           "1" 7%nat hookOfDevice1 Hc Hh Hi).
Defined.

Lemma current_fix_moves_the_reference_witness :
  let s := run (M:=RefMath.math) (gpsService true) [StartTracking "1" 7%nat None] in
  supported s = true /\
  JS.lt (calculateDistance (M:=RefMath.math) (latLng (gpsPosition nairobi))
           (latLng (gpsPosition nearby))) (distanceFilter s) = true /\
  onPosition (M:=RefMath.math) (step (M:=RefMath.math) s (CurrentFix nairobi)) nearby
  = step (M:=RefMath.math) s (CurrentFix nairobi).
Proof.
  intros s.
  assert (Hs : supported s = true) by reflexivity.
  assert (Hlt : JS.lt (calculateDistance (M:=RefMath.math)
                         (latLng (gpsPosition nairobi))
                         (latLng (gpsPosition nearby))) (distanceFilter s) = true)
    by (vm_compute; reflexivity).
  split; [exact Hs|]. split; [exact Hlt|].
  exact (proj2 (proj2 (current_fix_moves_the_reference (M:=RefMath.math)
                         s nairobi nearby Hs Hlt))).
Defined.

End WatchScenarios.

Section MobileScenarios.

Import JS MobileTrackingService Prefixes MobileScenario.

Lemma authorisation_is_by_officer_and_type_witness :
  validateTrackingRequest db noCourtOrder = false /\
  trackMobileNumber networks db noCourtOrder env
  = (db, failed "Unauthorized tracking request").
Proof.
  assert (H : validateTrackingRequest db noCourtOrder = false)
    by (vm_compute; reflexivity).
  split; [exact H|].
  exact (proj2 (authorisation_is_by_officer_and_type db noCourtOrder)
           networks env H).
Defined.

Lemma carrier_is_read_from_the_prefix_witness :
  0 <= 722 < 1000 /\
  identifyNetwork ("+254" +:+ (three_digits 722 +:+ "000000")) = "SAFARICOM".
Proof.
  assert (H : 0 <= 722 < 1000) by lia.
  split; [exact H|].
  exact (proj2 (carrier_is_read_from_the_prefix 722 "000000" H)).
Defined.

Lemma carrier_answer_is_recorded_witness :
  validateTrackingRequest db lostDevice = true /\
  identifyNetwork (mobileNumber lostDevice) = "SAFARICOM" /\
  "SAFARICOM" <> "UNKNOWN" /\
  requestId (trackMobileNumber networks db lostDevice env).2
  = new_request_id env.
Proof.
  assert (Hv : validateTrackingRequest db lostDevice = true)
    by (vm_compute; reflexivity).
  assert (Hn : identifyNetwork (mobileNumber lostDevice) = "SAFARICOM")
    by (vm_compute; reflexivity).
  assert (Hk : "SAFARICOM" <> "UNKNOWN") by discriminate.
  split; [exact Hv|]. split; [exact Hn|]. split; [exact Hk|].
  exact (proj1 (carrier_answer_is_recorded networks db lostDevice env
                  "SAFARICOM" Hv Hn Hk)).
Defined.

Lemma result_is_well_formed_witness :
  success (trackMobileNumber networks db lostDevice env).2 = true /\
  requestId (trackMobileNumber networks db lostDevice env).2
  = new_request_id env.
Proof.
  assert (H : success (trackMobileNumber networks db lostDevice env).2 = true)
    by (vm_compute; reflexivity).
  split; [exact H|].
  exact (proj1 (proj2 (proj2 (result_is_well_formed networks db lostDevice env)))
           H).
Defined.

End MobileScenarios.
